(** * Watch-folder runtime of package [folderwatch]

    A shallow embedding of the Go service that owns one filesystem watch per
    registered folder, debounces file events, waits for a file to stop
    changing, imports it into managed storage and optionally queues it for
    transcription.  Go maps are [gmap]s, pointers to runners are addresses
    into a heap of runner objects, [int64] values are [Z], and every Go
    function that touches the service, the repositories or the operating
    system is a state transformer over [World].  The HTTP handlers of
    package [api] are functions from what they read of the request to a
    transformer that yields the response. *)

From Stdlib Require Import ZArith String Ascii Sorted.
From stdpp Require Import gmap strings list pretty.

Local Open Scope Z_scope.

(** ** Errors *)

(** Package-level error values, compared by identity with [errors.Is]. *)
Inductive sentinel :=
| FolderNotFound        (* ErrFolderNotFound *)
| FolderAlreadyExists   (* ErrFolderAlreadyExists *)
| InvalidFolderPath     (* ErrInvalidFolderPath *)
| RecordNotFound        (* gorm.ErrRecordNotFound *)
| NotExist.             (* os.ErrNotExist *)

(** Go [error] values.  [Wrapf pre e post] is [fmt.Errorf] with one [%w]
    verb: the message is [pre], then the message of [e], then [post]. *)
Inductive error :=
| Sentinel (s : sentinel)
| OsErr (msg : string) (notExist : bool)
| Opaque (msg : string)
| Wrapf (pre : string) (inner : error) (post : string).

#[global] Instance sentinel_eq_dec : EqDecision sentinel.
Proof. solve_decision. Defined.

#[global] Instance error_eq_dec : EqDecision error.
Proof. solve_decision. Defined.

Definition sentinelMessage (s : sentinel) : string :=
  match s with
  | FolderNotFound => "watched folder not found"
  | FolderAlreadyExists => "folder is already being watched"
  | InvalidFolderPath => "invalid folder path"
  | RecordNotFound => "record not found"
  | NotExist => "file does not exist"
  end.

(** [err.Error()] *)
Fixpoint errorString (e : error) : string :=
  match e with
  | Sentinel s => sentinelMessage s
  | OsErr msg _ => msg
  | Opaque msg => msg
  | Wrapf pre inner post => pre +:+ errorString inner +:+ post
  end.

(** [errors.Is(e, target)] for a sentinel target: walks the [%w] chain. *)
Fixpoint errorsIs (e : error) (target : sentinel) : bool :=
  match e with
  | Sentinel s => bool_decide (s = target)
  | OsErr _ notExist => notExist && bool_decide (target = NotExist)
  | Opaque _ => false
  | Wrapf _ inner _ => errorsIs inner target
  end.

(** The [%q] verb: the operand between double quotes (escaping of special
    characters inside the operand is not modelled). *)
Definition quote (s : string) : string :=
  String (ascii_of_nat 34) (s +:+ String (ascii_of_nat 34) EmptyString).

(** ** Constants of the package *)

Definition second : Z := 1000000000.
Definition fileDebounceDelay : Z := 2 * second.
Definition stabilityInterval : Z := 1 * second.
Definition stabilityChecks : Z := 3.
Definition importTimeout : Z := 5 * 60 * second.
Definition minimumAudioBytes : Z := 1.

(** ** Path helpers *)

(** [os.IsPathSeparator] on a Unix host. *)
Definition isPathSeparator (c : ascii) : bool := bool_decide (c = "/"%char).

(** The loop of [filepath.Ext]: walk from the last byte towards the first,
    stop at a separator, return the suffix starting at the first dot met. *)
Fixpoint extScan (before : list ascii) (suffix : list ascii) : list ascii :=
  match before with
  | [] => []
  | c :: more =>
      if isPathSeparator c then []
      else if bool_decide (c = "."%char) then c :: suffix
      else extScan more (c :: suffix)
  end.

Fixpoint stripSeparators (before : list ascii) : list ascii :=
  match before with
  | [] => []
  | c :: more => if isPathSeparator c then stripSeparators more else before
  end.

Fixpoint lastElement (before : list ascii) (suffix : list ascii) : list ascii :=
  match before with
  | [] => suffix
  | c :: more => if isPathSeparator c then suffix else lastElement more (c :: suffix)
  end.

Definition Ext (path : string) : string :=
  string_of_list_ascii (extScan (rev (list_ascii_of_string path)) []).

Definition isASCII (s : string) : bool :=
  forallb (fun c => (nat_of_ascii c <? 128)%nat) (list_ascii_of_string s).

(** ASCII branch of [strings.ToLower]: bytes 'A'..'Z' move to 'a'..'z'. *)
Definition lowerByte (c : ascii) : ascii :=
  let n := nat_of_ascii c in
  if ((65 <=? n) && (n <=? 90))%nat then ascii_of_nat (n + 32) else c.

Definition lowerASCII (s : string) : string :=
  string_of_list_ascii (map lowerByte (list_ascii_of_string s)).

(** The media extensions of the [switch] in [isWatchableAudioFile]. *)
Definition watchableExtensions : list string :=
  [".mp3"; ".wav"; ".flac"; ".m4a"; ".aac"; ".ogg"; ".wma"; ".aiff";
   ".mp4"; ".mov"; ".mkv"; ".webm"; ".avi"]%string.


(** ** Data model *)

(** [models.WatchedFolder]: the fields the service reads or writes. *)
Record WatchedFolder := {
  ID : N;
  UserID : N;
  Path : string;
  Recursive : bool;
  Enabled : bool
}.

#[global] Instance WatchedFolder_eq_dec : EqDecision WatchedFolder.
Proof. solve_decision. Defined.

Definition withID (i : N) (f : WatchedFolder) : WatchedFolder :=
  {| ID := i; UserID := UserID f; Path := Path f;
     Recursive := Recursive f; Enabled := Enabled f |}.

Definition withEnabled (b : bool) (f : WatchedFolder) : WatchedFolder :=
  {| ID := ID f; UserID := UserID f; Path := Path f;
     Recursive := Recursive f; Enabled := b |}.

(** [runtimeStatus]; [LastImportedAt] is a [*time.Time], here the clock
    reading in nanoseconds. *)
Record runtimeStatus := {
  Active : bool;
  LastRuntimeError : string;
  LastImportedAt : option Z;
  LastImportedFile : string
}.

#[global] Instance runtimeStatus_eq_dec : EqDecision runtimeStatus.
Proof. solve_decision. Defined.

(** The zero value a Go map read yields for a missing key. *)
Definition zeroStatus : runtimeStatus :=
  {| Active := false; LastRuntimeError := ""; LastImportedAt := None;
     LastImportedFile := "" |}.

Definition withActive (b : bool) (s : runtimeStatus) : runtimeStatus :=
  {| Active := b; LastRuntimeError := LastRuntimeError s;
     LastImportedAt := LastImportedAt s;
     LastImportedFile := LastImportedFile s |}.

Definition withLastRuntimeError (m : string) (s : runtimeStatus) : runtimeStatus :=
  {| Active := Active s; LastRuntimeError := m;
     LastImportedAt := LastImportedAt s;
     LastImportedFile := LastImportedFile s |}.

Record FolderView := {
  Folder : WatchedFolder;
  ViewActive : bool;
  ViewLastRuntimeError : string;
  ViewLastImportedAt : option Z;
  ViewLastImportedFile : string
}.

Record fileSignature := { Size : Z; ModUnix : Z }.

#[global] Instance fileSignature_eq_dec : EqDecision fileSignature.
Proof. solve_decision. Defined.

(** [models.TranscriptionJob] and its collaborators, restricted to the
    fields [importFile] and [maybeQueueAutoTranscription] use. *)
Inductive JobStatus := StatusUploaded | StatusPending.

#[global] Instance JobStatus_eq_dec : EqDecision JobStatus.
Proof. solve_decision. Defined.

Record WhisperXParams := { Diarize : bool; Settings : string }.

Definition zeroParams : WhisperXParams := {| Diarize := false; Settings := "" |}.

Record TranscriptionJob := {
  JobID : string;
  AudioPath : string;
  Status : JobStatus;
  Title : option string;
  Parameters : WhisperXParams;
  Diarization : bool
}.

Record TranscriptionProfile := {
  ProfileID : string;
  ProfileParameters : WhisperXParams;
  IsDefault : bool
}.

Record User := {
  AutoTranscriptionEnabled : bool;
  DefaultProfileID : option string
}.

(** What [os.Stat] reports. *)
Inductive statResult :=
| StatErr (e : error)
| StatInfo (isDir : bool) (size : Z) (modUnix : Z).

(** What opening and reading a source file to its end yields: the open
    fails, the whole content arrives, or the read breaks after a prefix. *)
Inductive readResult :=
| ReadOpenErr (e : error)
| ReadAll (content : string)
| ReadTorn (prefix : string) (e : error).

(** A node of the managed storage tree. *)
Inductive node := NDir | NFile (content : string).

(** A [*time.Timer] made by [time.AfterFunc]: the runner and path its
    callback closes over, when it is due, and whether it can still fire. *)
Record timer := {
  timerRunner : nat;
  timerPath : string;
  timerDue : Z;
  timerLive : bool
}.

(** [folderRunner]; [watcher] is [None] until [start] attaches one,
    [stopped] says that [stopCh] is closed. *)
Record folderRunner := {
  folder : WatchedFolder;
  watcher : option nat;
  stopped : bool;
  timers : gmap string nat;
  imported : gmap string fileSignature
}.

(** ** The environment of the service

    Everything the service consults but does not own: configuration, the
    files other programs write into watched folders (as a function of the
    clock), the outcome of calls into collaborators (as a function of how
    many such calls were made before), identifiers drawn by [uuid.New], the
    read-only user and profile tables, and the library functions on paths
    whose tables are not part of the package. *)
Record Env := {
  UploadDir : string;
  fault : nat -> option string;
  statAt : Z -> string -> statResult;
  readAt : Z -> string -> readResult;
  walkDirs : string -> list string;
  uuidAt : nat -> string;
  userRows : gmap N User;
  profileRows : list TranscriptionProfile;
  unicodeLower : string -> string;
  trimSpace : string -> string;
  filepathAbs : string -> error + string;
  filepathClean : string -> string
}.

(** ** The state

    [Storage] is what the repositories and the task queue hold, [Host] is
    the process and its operating system: the clock, the number of calls
    made into collaborators, the allocation counter, the heap of runner
    objects, the managed storage tree, the live filesystem watchers, the
    timers, and a record of the calls of [importFile] made so far (ghost
    state: the program never reads it). *)

Record Storage := {
  folderRows : list WatchedFolder;
  nextFolderID : N;
  jobRows : gmap string TranscriptionJob;
  queue : list string
}.

Record Host := {
  clock : Z;
  tick : nat;
  nextAddr : nat;
  heap : gmap nat folderRunner;
  upfs : gmap string node;
  watches : gmap nat (list string);
  timerTab : gmap nat timer;
  importCalls : list (N * string)
}.

(** The two maps of [Service]; the collaborators it holds are the
    environment and [Storage]. *)
Record Service := {
  runners : gmap N nat;
  statuses : gmap N runtimeStatus
}.

Record World := { db : Storage; os : Host; svc : Service }.

Definition onDb (f : Storage -> Storage) (w : World) : World :=
  {| db := f (db w); os := os w; svc := svc w |}.
Definition onOs (f : Host -> Host) (w : World) : World :=
  {| db := db w; os := f (os w); svc := svc w |}.
Definition onSvc (f : Service -> Service) (w : World) : World :=
  {| db := db w; os := os w; svc := f (svc w) |}.

Definition setFolderRows (rows : list WatchedFolder) (nxt : N) (s : Storage) : Storage :=
  {| folderRows := rows; nextFolderID := nxt; jobRows := jobRows s; queue := queue s |}.
Definition setJobRows (j : gmap string TranscriptionJob) (s : Storage) : Storage :=
  {| folderRows := folderRows s; nextFolderID := nextFolderID s; jobRows := j; queue := queue s |}.
Definition setQueue (q : list string) (s : Storage) : Storage :=
  {| folderRows := folderRows s; nextFolderID := nextFolderID s; jobRows := jobRows s; queue := q |}.

Definition setClock (t : Z) (h : Host) : Host :=
  {| clock := t; tick := tick h; nextAddr := nextAddr h; heap := heap h;
     upfs := upfs h; watches := watches h; timerTab := timerTab h;
     importCalls := importCalls h |}.
Definition setTick (n : nat) (h : Host) : Host :=
  {| clock := clock h; tick := n; nextAddr := nextAddr h; heap := heap h;
     upfs := upfs h; watches := watches h; timerTab := timerTab h;
     importCalls := importCalls h |}.
Definition setNextAddr (n : nat) (h : Host) : Host :=
  {| clock := clock h; tick := tick h; nextAddr := n; heap := heap h;
     upfs := upfs h; watches := watches h; timerTab := timerTab h;
     importCalls := importCalls h |}.
Definition setHeap (m : gmap nat folderRunner) (h : Host) : Host :=
  {| clock := clock h; tick := tick h; nextAddr := nextAddr h; heap := m;
     upfs := upfs h; watches := watches h; timerTab := timerTab h;
     importCalls := importCalls h |}.
Definition setUpfs (u : gmap string node) (h : Host) : Host :=
  {| clock := clock h; tick := tick h; nextAddr := nextAddr h; heap := heap h;
     upfs := u; watches := watches h; timerTab := timerTab h;
     importCalls := importCalls h |}.
Definition setWatches (m : gmap nat (list string)) (h : Host) : Host :=
  {| clock := clock h; tick := tick h; nextAddr := nextAddr h; heap := heap h;
     upfs := upfs h; watches := m; timerTab := timerTab h;
     importCalls := importCalls h |}.
Definition setTimerTab (m : gmap nat timer) (h : Host) : Host :=
  {| clock := clock h; tick := tick h; nextAddr := nextAddr h; heap := heap h;
     upfs := upfs h; watches := watches h; timerTab := m;
     importCalls := importCalls h |}.

Definition setImportCalls (l : list (N * string)) (h : Host) : Host :=
  {| clock := clock h; tick := tick h; nextAddr := nextAddr h; heap := heap h;
     upfs := upfs h; watches := watches h; timerTab := timerTab h;
     importCalls := l |}.

Definition setRunners (m : gmap N nat) (s : Service) : Service :=
  {| runners := m; statuses := statuses s |}.
Definition setStatuses (m : gmap N runtimeStatus) (s : Service) : Service :=
  {| runners := runners s; statuses := m |}.

Definition setWatcher (h : option nat) (r : folderRunner) : folderRunner :=
  {| folder := folder r; watcher := h; stopped := stopped r;
     timers := timers r; imported := imported r |}.
Definition setStopped (b : bool) (r : folderRunner) : folderRunner :=
  {| folder := folder r; watcher := watcher r; stopped := b;
     timers := timers r; imported := imported r |}.
Definition setTimers (m : gmap string nat) (r : folderRunner) : folderRunner :=
  {| folder := folder r; watcher := watcher r; stopped := stopped r;
     timers := m; imported := imported r |}.
Definition setImported (m : gmap string fileSignature) (r : folderRunner) : folderRunner :=
  {| folder := folder r; watcher := watcher r; stopped := stopped r;
     timers := timers r; imported := m |}.

(** ** State transformers *)

Definition M (A : Type) : Type := World -> A * World.

Definition ret {A} (a : A) : M A := fun w => (a, w).

Definition bind {A B} (m : M A) (k : A -> M B) : M B :=
  fun w => let (a, w') := m w in k a w'.

Declare Scope go_scope.
Delimit Scope go_scope with go.
Notation "x <- m ;; k" := (bind m (fun x => k))
  (at level 100, m at next level, right associativity) : go_scope.
Notation "m ;;; k" := (bind m (fun _ => k))
  (at level 100, right associativity) : go_scope.
Local Open Scope go_scope.

Definition modify (f : World -> World) : M unit := fun w => (tt, f w).

(** [time.Now()], as nanoseconds. *)
Definition timeNow : M Z := fun w => (clock (os w), w).

(** [time.Sleep d] *)
Definition timeSleep (d : Z) : M unit :=
  modify (onOs (fun h => setClock (clock h + d) h)).

(** A fresh address for a runner object, a watcher or a timer. *)
Definition alloc : M nat :=
  fun w => (nextAddr (os w), onOs (setNextAddr (S (nextAddr (os w)))) w).

Section Runtime.

Variable E : Env.

(** ** Host primitives *)

(** One call into a collaborator (a repository, the task queue, fsnotify).
    Each of them returns an [error] in the source, and the service checks
    or drops it call by call; here the environment decides whether this
    call fails, and the call counter moves on.  A failure stands for
    anything the callee can report: a lost connection, a cancelled
    context, an exhausted resource. *)
Definition collaborator : M (option error) :=
  fun w => (Opaque <$> fault E (tick (os w)),
            onOs (fun h => setTick (S (tick h)) h) w).

(** [uuid.New().String()] *)
Definition uuidNew : M string :=
  fun w => (uuidAt E (tick (os w)), onOs (fun h => setTick (S (tick h)) h) w).

(** [os.Stat] on a path of a watched tree. *)
Definition osStat (path : string) : M statResult :=
  fun w => (statAt E (clock (os w)) path, w).

(** [os.MkdirAll] on the managed storage tree. *)
Definition osMkdirAll (path : string) : M (option error) :=
  fun w =>
    match upfs (os w) !! path with
    | Some (NFile _) => (Some (OsErr "not a directory" false), w)
    | _ => (None, onOs (fun h => setUpfs (<[path := NDir]> (upfs h)) h) w)
    end.

(** [os.Remove] on the managed storage tree: it fails on a path that is
    not there; on one that is there the host decides, as for a call into a
    collaborator, whether the removal goes through (a file in use, a
    directory turned read-only, an I/O error), and the path is removed when
    it does. *)
Definition osRemove (path : string) : M (option error) :=
  fun w =>
    match upfs (os w) !! path with
    | None => (Some (OsErr "no such file or directory" true), w)
    | Some _ =>
        (failure <- collaborator ;;
         match failure with
         | Some e => ret (Some e)
         | None =>
             modify (onOs (fun h => setUpfs (delete path (upfs h)) h)) ;;;
             ret None
         end) w
    end.

Definition writeFile (path content : string) : M unit :=
  modify (onOs (fun h => setUpfs (<[path := NFile content]> (upfs h)) h)).

(** [copyFile]: open the source, create the destination, copy, sync.  A
    read that breaks leaves the bytes already written at the destination. *)
Definition copyFile (src dst : string) : M (option error) :=
  fun w =>
    match readAt E (clock (os w)) src with
    | ReadOpenErr e => (Some e, w)
    | ReadAll content =>
        match upfs (os w) !! dst with
        | Some NDir => (Some (OsErr "is a directory" false), w)
        | _ => (None, snd (writeFile dst content w))
        end
    | ReadTorn written e =>
        match upfs (os w) !! dst with
        | Some NDir => (Some (OsErr "is a directory" false), w)
        | _ => (Some e, snd (writeFile dst written w))
        end
    end.

(** [filepath.Base] on a Unix host: drop the trailing separators, keep
    what follows the last separator left. *)
Definition Base (path : string) : string :=
  if bool_decide (path = "") then "."
  else
    let trimmed := stripSeparators (rev (list_ascii_of_string path)) in
    let last := lastElement trimmed [] in
    if bool_decide (last = []) then "/" else string_of_list_ascii last.

(** [filepath.Join] of a directory and a file name. *)
Definition Join (dir name : string) : string :=
  filepathClean E (dir +:+ "/" +:+ name).

(** [strings.ToLower]: bytewise when the string is ASCII, by Unicode rune
    otherwise. *)
Definition ToLower (s : string) : string :=
  if isASCII s then lowerASCII s else unicodeLower E s.

Definition isWatchableAudioFile (path : string) : bool :=
  let ext := ToLower (Ext path) in
  bool_decide (ext ∈ watchableExtensions).

(** ** Persisted folder storage *)

Fixpoint insertByPath (f : WatchedFolder) (l : list WatchedFolder) : list WatchedFolder :=
  match l with
  | [] => [f]
  | g :: rest =>
      if String.leb (Path f) (Path g) then f :: g :: rest
      else g :: insertByPath f rest
  end.

(** [ORDER BY path ASC], bytewise. *)
Definition sortByPath (l : list WatchedFolder) : list WatchedFolder :=
  foldr insertByPath [] l.

Definition FindByUser (userID : N) : M (error + list WatchedFolder) :=
  failure <- collaborator ;;
  match failure with
  | Some e => ret (inl e)
  | None => fun w =>
      (inr (sortByPath (filter (fun f => UserID f = userID) (folderRows (db w)))), w)
  end.

(** [WHERE user_id = ? AND path = ?], first row; no row is [(nil, nil)]. *)
Definition FindByUserAndPath (userID : N) (path : string)
  : M (error + option WatchedFolder) :=
  failure <- collaborator ;;
  match failure with
  | Some e => ret (inl e)
  | None => fun w =>
      (inr (head (filter (fun f => UserID f = userID ∧ Path f = path)
                         (folderRows (db w)))), w)
  end.

(** [WHERE id = ? AND user_id = ?], first row; no row is the error
    [gorm.ErrRecordNotFound]. *)
Definition FindByUserAndID (userID id : N) : M (error + WatchedFolder) :=
  failure <- collaborator ;;
  match failure with
  | Some e => ret (inl e)
  | None => fun w =>
      match head (filter (fun f => ID f = id ∧ UserID f = userID)
                         (folderRows (db w))) with
      | Some f => (inr f, w)
      | None => (inl (Sentinel RecordNotFound), w)
      end
  end.

(** Modelled from the spec: [Create] of the base repository, whose source
    is not part of the package: "create a WatchedFolder row".  The row gets
    the next identifier of the table, and the caller's value receives it. *)
Definition folderCreate (f : WatchedFolder) : M (error + WatchedFolder) :=
  failure <- collaborator ;;
  match failure with
  | Some e => ret (inl e)
  | None => fun w =>
      let row := withID (nextFolderID (db w)) f in
      (inr row,
       onDb (fun s => setFolderRows (folderRows s ++ [row])
                                    (N.succ (nextFolderID s)) s) w)
  end.

(** Modelled from the spec: [Update] of the base repository: "update a
    WatchedFolder row", the row with the identifier of the value. *)
Definition folderUpdate (f : WatchedFolder) : M (option error) :=
  failure <- collaborator ;;
  match failure with
  | Some e => ret (Some e)
  | None =>
      modify (onDb (fun s =>
        setFolderRows
          (map (fun g => if bool_decide (ID g = ID f) then f else g) (folderRows s))
          (nextFolderID s) s)) ;;;
      ret None
  end.

(** Modelled from the spec: [Delete] of the base repository: "delete a
    WatchedFolder row", by identifier. *)
Definition folderDelete (id : N) : M (option error) :=
  failure <- collaborator ;;
  match failure with
  | Some e => ret (Some e)
  | None =>
      modify (onDb (fun s =>
        setFolderRows (filter (fun g => ID g ≠ id) (folderRows s))
                      (nextFolderID s) s)) ;;;
      ret None
  end.

(** ** Job storage, users, profiles and the task queue *)

(** Modelled from the spec: the job repository, whose source is not part of
    the package: "create a job record". *)
Definition jobCreate (j : TranscriptionJob) : M (option error) :=
  failure <- collaborator ;;
  match failure with
  | Some e => ret (Some e)
  | None =>
      modify (onDb (fun s => setJobRows (<[JobID j := j]> (jobRows s)) s)) ;;;
      ret None
  end.

(** Modelled from the spec: "update a job record's mutable fields (status,
    parameters, diarization flag)". *)
Definition jobUpdate (j : TranscriptionJob) : M (option error) :=
  failure <- collaborator ;;
  match failure with
  | Some e => ret (Some e)
  | None =>
      modify (onDb (fun s => setJobRows (<[JobID j := j]> (jobRows s)) s)) ;;;
      ret None
  end.

(** Modelled from the spec: "fetch a user by id". *)
Definition userFindByID (userID : N) : M (error + User) :=
  failure <- collaborator ;;
  match failure with
  | Some e => ret (inl e)
  | None =>
      match userRows E !! userID with
      | Some u => ret (inr u)
      | None => ret (inl (Sentinel RecordNotFound))
      end
  end.

(** Modelled from the spec: "fetch a profile by id".  The caller drops the
    error and keeps the pointer, which is nil on failure. *)
Definition profileFindByID (pid : string) : M (option TranscriptionProfile) :=
  failure <- collaborator ;;
  match failure with
  | Some _ => ret None
  | None =>
      ret (head (filter (fun p => ProfileID p = pid) (profileRows E)))
  end.

(** Modelled from the spec: "fetch the system default profile". *)
Definition profileFindDefault : M (option TranscriptionProfile) :=
  failure <- collaborator ;;
  match failure with
  | Some _ => ret None
  | None =>
      ret (head (filter (fun p => IsDefault p = true) (profileRows E)))
  end.

(** Modelled from the spec: "list profiles", here with offset and limit. *)
Definition profileList (offset limit : nat) : M (error + list TranscriptionProfile) :=
  failure <- collaborator ;;
  match failure with
  | Some e => ret (inl e)
  | None => ret (inr (take limit (drop offset (profileRows E))))
  end.

(** Modelled from the spec: the task queue "accepts a job identifier for
    asynchronous transcription execution; may fail". *)
Definition EnqueueJob (jobID : string) : M (option error) :=
  failure <- collaborator ;;
  match failure with
  | Some e => ret (Some e)
  | None =>
      modify (onDb (fun s => setQueue (queue s ++ [jobID]) s)) ;;;
      ret None
  end.

(** ** The status store of the service *)

(** Reading [s.statuses[id]]: the zero value when the key is absent. *)
Definition statusOf (s : Service) (folderID : N) : runtimeStatus :=
  default zeroStatus (statuses s !! folderID).

Definition getStatus (folderID : N) : M runtimeStatus :=
  fun w => (statusOf (svc w) folderID, w).

Definition setStatus (folderID : N) (update : runtimeStatus -> runtimeStatus) : M unit :=
  modify (onSvc (fun s =>
    setStatuses (<[folderID := update (statusOf s folderID)]> (statuses s)) s)).

Definition clearStatus (folderID : N) : M unit :=
  modify (onSvc (fun s => setStatuses (delete folderID (statuses s)) s)).

Definition markRuntimeError (folderID : N) (err : option error) : M unit :=
  match err with
  | None => ret tt
  | Some e => setStatus folderID (withLastRuntimeError (errorString e))
  end.

Definition markImported (folderID : N) (sourcePath : string) : M unit :=
  now <- timeNow ;;
  setStatus folderID (fun status =>
    {| Active := Active status; LastRuntimeError := "";
       LastImportedAt := Some now; LastImportedFile := sourcePath |}).

(** ** Runner objects

    A method of [*folderRunner] takes the address of its receiver.  Go has
    no dangling pointers; the transformers below leave the world alone on
    an address that holds no object. *)

Definition updateRunner (r : nat) (f : folderRunner -> folderRunner) : M unit :=
  modify (onOs (fun h => setHeap (alter f r (heap h)) h)).

Definition newRunner (f : WatchedFolder) : M nat :=
  r <- alloc ;;
  modify (onOs (fun h =>
    setHeap (<[r := {| folder := f; watcher := None; stopped := false;
                       timers := ∅; imported := ∅ |}]> (heap h)) h)) ;;;
  ret r.

(** [fsnotify.NewWatcher] *)
Definition NewWatcher : M (error + nat) :=
  failure <- collaborator ;;
  match failure with
  | Some e => ret (inl e)
  | None =>
      h <- alloc ;;
      modify (onOs (fun o => setWatches (<[h := []]> (watches o)) o)) ;;;
      ret (inr h)
  end.

(** [watcher.Add]; a closed watcher refuses. *)
Definition watcherAdd (h : nat) (path : string) : M (option error) :=
  fun w =>
    match watches (os w) !! h with
    | None => (Some (Opaque "fsnotify: watcher already closed"), w)
    | Some paths =>
        (failure <- collaborator ;;
         match failure with
         | Some e => ret (Some e)
         | None =>
             modify (onOs (fun o => setWatches (<[h := paths ++ [path]]> (watches o)) o)) ;;;
             ret None
         end) w
    end.

(** [watcher.Close] *)
Definition watcherClose (h : nat) : M unit :=
  modify (onOs (fun o => setWatches (delete h (watches o)) o)).

(** The callback [filepath.WalkDir] runs on every subdirectory below the
    root in [addWatchedPath]. *)
Fixpoint watchSubdirectories (folderID : N) (h : nat) (paths : list string) : M unit :=
  match paths with
  | [] => ret tt
  | path :: rest =>
      watchErr <- watcherAdd h path ;;
      match watchErr with
      | Some e =>
          markRuntimeError folderID
            (Some (Wrapf ("failed to watch subdirectory " +:+ quote path +:+ ": ") e ""))
      | None => ret tt
      end ;;;
      watchSubdirectories folderID h rest
  end.

Definition addWatchedPath (r : nat) (root : string) : M (option error) :=
  fun w =>
    match heap (os w) !! r with
    | None => (None, w)
    | Some obj =>
        match watcher obj with
        | None => (Some (Opaque "fsnotify: watcher already closed"), w)
        | Some h =>
            (err <- watcherAdd h root ;;
             match err with
             | Some e => ret (Some (Wrapf ("failed to watch " +:+ quote root +:+ ": ") e ""))
             | None =>
                 if negb (Recursive (folder obj)) then ret None
                 else
                   watchSubdirectories (ID (folder obj)) h (walkDirs E root) ;;;
                   ret None
             end) w
        end
    end.

(** [folderRunner.start]; the event loop it launches is driven from
    outside, one [handleEvent] per event. *)
Definition runnerStart (r : nat) : M (option error) :=
  fun w =>
    match heap (os w) !! r with
    | None => (None, w)
    | Some obj =>
        (made <- NewWatcher ;;
         match made with
         | inl e => ret (Some (Wrapf "failed to create filesystem watcher: " e ""))
         | inr h =>
             updateRunner r (setWatcher (Some h)) ;;;
             err <- addWatchedPath r (Path (folder obj)) ;;
             match err with
             | Some e => watcherClose h ;;; ret (Some e)
             | None => ret None
             end
         end) w
    end.

(** [timer.Stop] *)
Definition timerStop (t : nat) : M unit :=
  modify (onOs (fun o =>
    setTimerTab (alter (fun tm => {| timerRunner := timerRunner tm;
                                     timerPath := timerPath tm;
                                     timerDue := timerDue tm;
                                     timerLive := false |}) t (timerTab o)) o)).

Fixpoint stopTimers (ts : list nat) : M unit :=
  match ts with
  | [] => ret tt
  | t :: rest => timerStop t ;;; stopTimers rest
  end.

(** [folderRunner.stop]: a second call returns at once; the first closes
    the stop channel and the watcher, stops every pending timer and empties
    the timer map.  The wait for the event loop to exit is not modelled. *)
Definition runnerStop (r : nat) : M unit :=
  fun w =>
    match heap (os w) !! r with
    | None => (tt, w)
    | Some obj =>
        if stopped obj then (tt, w)
        else
          (updateRunner r (setStopped true) ;;;
           match watcher obj with
           | Some h => watcherClose h
           | None => ret tt
           end ;;;
           stopTimers (snd <$> map_to_list (timers obj)) ;;;
           updateRunner r (setTimers ∅)) w
    end.

(** ** Registry: starting and stopping runners

    [startRunner] holds the lock of the service twice, with the attachment
    of the watch in between and outside the lock.  Each stretch is a
    transformer of its own, so that another call can be placed between
    them; [startRunner] is their sequence. *)

Definition runnerExists (folderID : N) : M bool :=
  fun w => (bool_decide (is_Some (runners (svc w) !! folderID)), w).

(** First locked stretch, when a runner is there: refresh [Active]. *)
Definition startRunner_refresh (folderID : N) : M unit :=
  setStatus folderID (withActive true).

(** Between the locks: build the runner and attach its watch. *)
Definition startRunner_attach (f : WatchedFolder) : M (option error * nat) :=
  r <- newRunner f ;;
  err <- runnerStart r ;;
  match err with
  | Some e =>
      setStatus (ID f) (fun status =>
        withLastRuntimeError (errorString e) (withActive false status)) ;;;
      ret (Some e, r)
  | None => ret (None, r)
  end.

(** Second locked stretch: look again, store the runner or stop it. *)
Definition startRunner_commit (f : WatchedFolder) (r : nat) : M (option error) :=
  present <- runnerExists (ID f) ;;
  if present then
    runnerStop r ;;; ret None
  else
    modify (onSvc (fun s => setRunners (<[ID f := r]> (runners s)) s)) ;;;
    setStatus (ID f) (fun status => withLastRuntimeError "" (withActive true status)) ;;;
    ret None.

Definition startRunner (f : WatchedFolder) : M (option error) :=
  present <- runnerExists (ID f) ;;
  if present then
    startRunner_refresh (ID f) ;;; ret None
  else
    attached <- startRunner_attach f ;;
    match attached with
    | (Some e, _) => ret (Some e)
    | (None, r) => startRunner_commit f r
    end.

Definition stopRunner (folderID : N) : M unit :=
  fun w =>
    let runner := runners (svc w) !! folderID in
    (modify (onSvc (fun s => setRunners (delete folderID (runners s)) s)) ;;;
     setStatus folderID (withActive false) ;;;
     match runner with
     | Some r => runnerStop r
     | None => ret tt
     end) w.

(** ** Public operations on folders *)

Definition mkView (f : WatchedFolder) (status : runtimeStatus) : FolderView :=
  let status := if negb (Enabled f) then withActive false status else status in
  {| Folder := f;
     ViewActive := Active status;
     ViewLastRuntimeError := LastRuntimeError status;
     ViewLastImportedAt := LastImportedAt status;
     ViewLastImportedFile := LastImportedFile status |}.

Fixpoint collectViews (folders : list WatchedFolder) : M (list FolderView) :=
  match folders with
  | [] => ret []
  | f :: rest =>
      status <- getStatus (ID f) ;;
      views <- collectViews rest ;;
      ret (mkView f status :: views)
  end.

Definition ListUserFolders (userID : N) : M (error + list FolderView) :=
  found <- FindByUser userID ;;
  match found with
  | inl e => ret (inl e)
  | inr folders =>
      views <- collectViews folders ;;
      ret (inr views)
  end.

Definition getFolderView (userID folderID : N) : M (error + FolderView) :=
  found <- FindByUserAndID userID folderID ;;
  match found with
  | inl e => ret (inl e)
  | inr f =>
      status <- getStatus folderID ;;
      ret (inr (mkView f status))
  end.

Definition invalidPath (detail : string) : error :=
  Wrapf "" (Sentinel InvalidFolderPath) (": " +:+ detail).

Definition normalizeFolderPath (path : string) : M (error + string) :=
  let cleaned := trimSpace E path in
  if bool_decide (cleaned = "") then ret (inl (invalidPath "empty path"))
  else
    match filepathAbs E cleaned with
    | inl e => ret (inl (invalidPath (errorString e)))
    | inr absPath =>
        let normalized := filepathClean E absPath in
        info <- osStat normalized ;;
        match info with
        | StatErr e =>
            if errorsIs e NotExist then ret (inl (invalidPath "path does not exist"))
            else ret (inl (invalidPath (errorString e)))
        | StatInfo false _ _ => ret (inl (invalidPath "path is not a directory"))
        | StatInfo true _ _ => ret (inr normalized)
        end
    end.

Definition CreateUserFolder (userID : N) (path : string) (recursive enabled : bool)
  : M (error + FolderView) :=
  normalized <- normalizeFolderPath path ;;
  match normalized with
  | inl e => ret (inl e)
  | inr normalizedPath =>
      existing <- FindByUserAndPath userID normalizedPath ;;
      match existing with
      | inl e => ret (inl e)
      | inr (Some _) => ret (inl (Sentinel FolderAlreadyExists))
      | inr None =>
          created <- folderCreate {| ID := 0%N; UserID := userID; Path := normalizedPath;
                                     Recursive := recursive; Enabled := enabled |} ;;
          match created with
          | inl e => ret (inl e)
          | inr f =>
              if Enabled f then
                started <- startRunner f ;;
                match started with
                | Some e =>
                    folderDelete (ID f) ;;;
                    clearStatus (ID f) ;;;
                    ret (inl e)
                | None => getFolderView userID (ID f)
                end
              else getFolderView userID (ID f)
          end
      end
  end.

Definition SetUserFolderEnabled (userID folderID : N) (enabled : bool)
  : M (error + FolderView) :=
  found <- FindByUserAndID userID folderID ;;
  match found with
  | inl e =>
      if errorsIs e RecordNotFound then ret (inl (Sentinel FolderNotFound))
      else ret (inl e)
  | inr f =>
      if bool_decide (Enabled f = enabled) then getFolderView userID folderID
      else
        let f := withEnabled enabled f in
        updated <- folderUpdate f ;;
        match updated with
        | Some e => ret (inl e)
        | None =>
            if enabled then
              started <- startRunner f ;;
              match started with
              | Some e =>
                  folderUpdate (withEnabled false f) ;;;
                  ret (inl e)
              | None => getFolderView userID folderID
              end
            else
              stopRunner folderID ;;;
              getFolderView userID folderID
        end
  end.

Definition DeleteUserFolder (userID folderID : N) : M (option error) :=
  found <- FindByUserAndID userID folderID ;;
  match found with
  | inl e =>
      if errorsIs e RecordNotFound then ret (Some (Sentinel FolderNotFound))
      else ret (Some e)
  | inr _ =>
      stopRunner folderID ;;;
      clearStatus folderID ;;;
      folderDelete folderID
  end.

(** ** Stability prober *)

(** The body of the [for] loop of [waitForStableFile], [n] iterations to
    go, with the three variables the loop carries. *)
Fixpoint stabilityLoop (n : nat) (path : string) (prevSize prevModUnix stableReads : Z)
  : M (error + fileSignature) :=
  match n with
  | O => ret (inl (Opaque ("file " +:+ quote path +:+ " did not stabilize before timeout")))
  | S n' =>
      info <- osStat path ;;
      match info with
      | StatErr e => ret (inl e)
      | StatInfo true _ _ => ret (inl (Opaque ("cannot import directory " +:+ quote path)))
      | StatInfo false size modUnix =>
          let stableReads :=
            if (size =? prevSize) && (modUnix =? prevModUnix)
            then stableReads + 1 else 0 in
          if (stabilityChecks <=? stableReads) && (minimumAudioBytes <=? size)
          then ret (inr {| Size := size; ModUnix := modUnix |})
          else
            timeSleep stabilityInterval ;;;
            stabilityLoop n' path size modUnix stableReads
      end
  end.

Definition waitForStableFile (path : string) : M (error + fileSignature) :=
  stabilityLoop (Z.to_nat (stabilityChecks + 2)) path (-1) (-1) 0.

(** ** Importer *)

(** The job with the parameters of the profile copied onto it. *)
Definition withProfile (st : JobStatus) (profile : TranscriptionProfile)
  (job : TranscriptionJob) : TranscriptionJob :=
  {| JobID := JobID job; AudioPath := AudioPath job;
     Status := st; Title := Title job;
     Parameters := ProfileParameters profile;
     Diarization := Diarize (ProfileParameters profile) |}.

(** [maybeQueueAutoTranscription], first part: the profile of the user,
    else the default profile, else the first profile listed. *)
Definition selectProfile (user : User) : M (option TranscriptionProfile) :=
  profile <- match DefaultProfileID user with
             | Some pid => profileFindByID pid
             | None => ret None
             end ;;
  profile <- match profile with
             | None => profileFindDefault
             | Some _ => ret profile
             end ;;
  match profile with
  | None =>
      listed <- profileList 0 1 ;;
      match listed with
      | inr (first :: _) => ret (Some first)
      | _ => ret None
      end
  | Some _ => ret profile
  end.

(** [maybeQueueAutoTranscription], second part, once a profile is there:
    store the job as pending, hand it to the queue, and on either failure
    set the status back and store again, dropping the error of that store. *)
Definition queueWithProfile (profile : TranscriptionProfile) (job : TranscriptionJob)
  : M TranscriptionJob :=
  let pending := withProfile StatusPending profile job in
  let reverted := withProfile StatusUploaded profile job in
  updated <- jobUpdate pending ;;
  match updated with
  | Some _ => jobUpdate reverted ;;; ret reverted
  | None =>
      queued <- EnqueueJob (JobID job) ;;
      match queued with
      | Some _ => jobUpdate reverted ;;; ret reverted
      | None => ret pending
      end
  end.

(** The job is passed by pointer; the result is the value it holds when
    the function returns. *)
Definition maybeQueueAutoTranscription (userID : N) (job : TranscriptionJob)
  : M TranscriptionJob :=
  found <- userFindByID userID ;;
  match found with
  | inl _ => ret job
  | inr user =>
      if negb (AutoTranscriptionEnabled user) then ret job
      else
        profile <- selectProfile user ;;
        match profile with
        | None => ret job
        | Some profile => queueWithProfile profile job
        end
  end.

(** [importFile]; its first step puts the call on record (ghost state),
    the rest is the source line by line. *)
Definition importFile (userID : N) (sourcePath : string) : M (option error) :=
  modify (onOs (fun h => setImportCalls (importCalls h ++ [(userID, sourcePath)]) h)) ;;;
  info <- osStat sourcePath ;;
  match info with
  | StatErr e => ret (Some (Wrapf "failed to access source file: " e ""))
  | StatInfo true _ _ =>
      ret (Some (Opaque ("source path " +:+ quote sourcePath +:+ " is a directory")))
  | StatInfo false _ _ =>
      if negb (isWatchableAudioFile sourcePath)
      then ret (Some (Opaque ("unsupported file type for " +:+ quote sourcePath)))
      else
        made <- osMkdirAll (UploadDir E) ;;
        match made with
        | Some e => ret (Some (Wrapf "failed to create upload directory: " e ""))
        | None =>
            let ext := ToLower (Ext sourcePath) in
            jobID <- uuidNew ;;
            let destPath := Join (UploadDir E) (jobID +:+ ext) in
            copied <- copyFile sourcePath destPath ;;
            match copied with
            | Some e => ret (Some (Wrapf "failed to copy file for import: " e ""))
            | None =>
                let job := {| JobID := jobID; AudioPath := destPath;
                              Status := StatusUploaded;
                              Title := Some (Base sourcePath);
                              Parameters := zeroParams; Diarization := false |} in
                created <- jobCreate job ;;
                match created with
                | Some e =>
                    osRemove destPath ;;;
                    ret (Some (Wrapf "failed to create transcription job: " e ""))
                | None =>
                    maybeQueueAutoTranscription userID job ;;;
                    ret None
                end
            end
        end
  end.

(** ** Folder runner: events, debouncing, candidates *)

Definition wasImported (r : nat) (path : string) (signature : fileSignature) : M bool :=
  fun w =>
    match heap (os w) !! r with
    | None => (false, w)
    | Some obj =>
        match imported obj !! path with
        | Some prev => (bool_decide (prev = signature), w)
        | None => (false, w)
        end
    end.

Definition recordImported (r : nat) (path : string) (signature : fileSignature) : M unit :=
  updateRunner r (fun obj => setImported (<[path := signature]> (imported obj)) obj).

Definition processCandidate (r : nat) (path : string) : M unit :=
  fun w =>
    match heap (os w) !! r with
    | None => (tt, w)
    | Some obj =>
        (stable <- waitForStableFile path ;;
         match stable with
         | inl err =>
             if errorsIs err NotExist then ret tt
             else markRuntimeError (ID (folder obj)) (Some err)
         | inr signature =>
             seen <- wasImported r path signature ;;
             if seen then ret tt
             else
               err <- importFile (UserID (folder obj)) path ;;
               match err with
               | Some e => markRuntimeError (ID (folder obj)) (Some e)
               | None =>
                   recordImported r path signature ;;;
                   markImported (ID (folder obj)) path
               end
         end) w
    end.

(** [time.AfterFunc(fileDebounceDelay, ...)] for [path] on runner [r]. *)
Definition afterFunc (r : nat) (path : string) : M nat :=
  t <- alloc ;;
  now <- timeNow ;;
  modify (onOs (fun o =>
    setTimerTab (<[t := {| timerRunner := r; timerPath := path;
                           timerDue := now + fileDebounceDelay;
                           timerLive := true |}]> (timerTab o)) o)) ;;;
  ret t.

Definition scheduleImport (r : nat) (path : string) : M unit :=
  fun w =>
    match heap (os w) !! r with
    | None => (tt, w)
    | Some obj =>
        (match timers obj !! path with
         | Some t => timerStop t
         | None => ret tt
         end ;;;
         t <- afterFunc r path ;;
         updateRunner r (fun obj => setTimers (<[path := t]> (timers obj)) obj)) w
    end.

(** The callback of the timer: it runs once, not before the timer is due,
    and not at all when the timer was stopped before. *)
Definition fireTimer (t : nat) : M unit :=
  fun w =>
    match timerTab (os w) !! t with
    | None => (tt, w)
    | Some tm =>
        if negb (timerLive tm) || (clock (os w) <? timerDue tm) then (tt, w)
        else
          (timerStop t ;;;
           processCandidate (timerRunner tm) (timerPath tm) ;;;
           updateRunner (timerRunner tm)
             (fun obj => setTimers (delete (timerPath tm) (timers obj)) obj)) w
    end.

(** [fsnotify.Event] and the bits of [fsnotify.Op]. *)
Record Event := { Name : string; Op : Z }.

Definition Create : Z := 1.
Definition Write : Z := 2.
Definition Remove : Z := 4.
Definition Rename : Z := 8.
Definition Chmod : Z := 16.

Definition handleEvent (r : nat) (event : Event) : M unit :=
  fun w =>
    match heap (os w) !! r with
    | None => (tt, w)
    | Some obj =>
        let isNewDirectory :=
          if Z.land (Op event) Create =? Create then
            match statAt E (clock (os w)) (Name event) with
            | StatInfo true _ _ => Recursive (folder obj)
            | _ => false
            end
          else false in
        if isNewDirectory then
          (err <- addWatchedPath r (Name event) ;;
           markRuntimeError (ID (folder obj)) err) w
        else if Z.land (Op event) (Z.lor Create Write) =? 0 then (tt, w)
        else if negb (isWatchableAudioFile (Name event)) then (tt, w)
        else scheduleImport r (Name event) w
    end.

End Runtime.

(** ** Restoring and shutting down the registry *)

(** [NewService]: the registry and the statuses start empty. *)
Definition NewService : Service := {| runners := ∅; statuses := ∅ |}.

Section Lifecycle.

Variable E : Env.

Fixpoint insertByID (f : WatchedFolder) (l : list WatchedFolder) : list WatchedFolder :=
  match l with
  | [] => [f]
  | g :: rest =>
      if (ID f <=? ID g)%N then f :: g :: rest
      else g :: insertByID f rest
  end.

(** [ORDER BY id ASC] *)
Definition sortByID (l : list WatchedFolder) : list WatchedFolder :=
  foldr insertByID [] l.

(** [WHERE enabled = true ORDER BY id ASC] *)
Definition FindEnabled : M (error + list WatchedFolder) :=
  failure <- collaborator E ;;
  match failure with
  | Some e => ret (inl e)
  | None => fun w =>
      (inr (sortByID (filter (fun f => Enabled f = true) (folderRows (db w)))), w)
  end.

(** [strings.Join] *)
Fixpoint joinStrings (parts : list string) (sep : string) : string :=
  match parts with
  | [] => ""
  | [p] => p
  | p :: rest => p +:+ sep +:+ joinStrings rest sep
  end.

(** The line [Start] keeps of a folder that failed to start:
    [fmt.Sprintf("id=%d path=%q: %v", folder.ID, folder.Path, err)]. *)
Definition failureLine (f : WatchedFolder) (e : error) : string :=
  "id=" +:+ pretty (ID f) +:+ " path=" +:+ quote (Path f) +:+ ": " +:+ errorString e.

(** The loop of [Start] over the folders still to restore, with the
    failures collected so far. *)
Fixpoint restoreFolders (folders : list WatchedFolder) (failures : list string)
  : M (list string) :=
  match folders with
  | [] => ret failures
  | f :: rest =>
      err <- startRunner E f ;;
      restoreFolders rest
        (match err with
         | Some e => failures ++ [failureLine f e]
         | None => failures
         end)
  end.

Definition Start : M (option error) :=
  found <- FindEnabled ;;
  match found with
  | inl e => ret (Some e)
  | inr folders =>
      failures <- restoreFolders folders [] ;;
      if (0 <? length failures)%nat then
        ret (Some (Opaque ("failed to restore " +:+ pretty (length failures)
                           +:+ " watch folder(s): " +:+ joinStrings failures "; ")))
      else ret None
  end.

(** The last loop of [Stop]. *)
Fixpoint stopAll (rs : list nat) : M unit :=
  match rs with
  | [] => ret tt
  | r :: rest => runnerStop r ;;; stopAll rest
  end.

(** [Stop]: under the lock, collect the runners, empty the registry and
    mark every status inactive; then stop each runner.  Go ranges over the
    registry in no fixed order, here the order is that of [map_to_list]. *)
Definition Stop : M unit :=
  fun w =>
    let rs := snd <$> map_to_list (runners (svc w)) in
    (modify (onSvc (fun s =>
       {| runners := ∅; statuses := withActive false <$> statuses s |})) ;;;
     stopAll rs) w.

End Lifecycle.

(** ** HTTP handlers of package [api]

    The handlers of [watch_folder_handlers.go] over the service above.
    Of [gin.Context] they read the authenticated user, the [id] parameter
    of the route and the body as [ShouldBindJSON] binds it; they answer
    with a status code and a JSON body.  The timestamps of a folder, which
    the service never reads, are left out as in [WatchedFolder]. *)

Record WatchFolderResponse := {
  RespID : N;
  RespPath : string;
  RespRecursive : bool;
  RespEnabled : bool;
  RespActive : bool;
  RespLastRuntimeError : string;
  RespLastImportedAt : option Z;
  RespLastImportedFile : string
}.

(** [CreateWatchFolderRequest]; the two pointers are nil when the field is
    absent from the body. *)
Record CreateWatchFolderRequest := {
  ReqPath : string;
  ReqRecursive : option bool;
  ReqEnabled : option bool
}.

Record UpdateWatchFolderRequest := { UpdEnabled : option bool }.

(** What a handler reads from the request: [c.Get("user_id")],
    [c.Param("id")], and the outcome of [c.ShouldBindJSON] for either
    payload (the error it reports, or the bound value). *)
Record Context := {
  ctxUser : option N;
  ctxParamID : string;
  ctxCreate : string + CreateWatchFolderRequest;
  ctxUpdate : string + UpdateWatchFolderRequest
}.

(** The JSON a handler writes: [gin.H{"error": ...}], [gin.H{"folders":
    ...}], one folder, or nothing. *)
Inductive payload :=
| ErrorBody (message : string)
| FoldersBody (folders : list WatchFolderResponse)
| FolderBody (entry : WatchFolderResponse)
| NoBody.

Record Response := { StatusCode : Z; Body : payload }.

Definition StatusOK : Z := 200.
Definition StatusCreated : Z := 201.
Definition StatusNoContent : Z := 204.
Definition StatusBadRequest : Z := 400.
Definition StatusUnauthorized : Z := 401.
Definition StatusNotFound : Z := 404.
Definition StatusConflict : Z := 409.
Definition StatusInternalServerError : Z := 500.
Definition StatusServiceUnavailable : Z := 503.

Definition toWatchFolderResponse (view : FolderView) : WatchFolderResponse :=
  {| RespID := ID (Folder view);
     RespPath := Path (Folder view);
     RespRecursive := Recursive (Folder view);
     RespEnabled := Enabled (Folder view);
     RespActive := ViewActive view;
     RespLastRuntimeError := ViewLastRuntimeError view;
     RespLastImportedAt := ViewLastImportedAt view;
     RespLastImportedFile := ViewLastImportedFile view |}.

Definition currentUserID (c : Context) : Response + N :=
  match ctxUser c with
  | None => inl {| StatusCode := StatusUnauthorized;
                   Body := ErrorBody "User not authenticated" |}
  | Some userID => inr userID
  end.

Definition maxUint64 : N := 18446744073709551615.

(** The digits of [strconv.ParseUint(s, 10, 64)], most significant first,
    onto the value read so far: a byte that is no digit is a syntax error,
    a value above [maxUint64] a range error. *)
Fixpoint parseDigits (s : string) (acc : N) : option N :=
  match s with
  | EmptyString => Some acc
  | String c rest =>
      let b := N_of_ascii c in
      if (48 <=? b)%N && (b <=? 57)%N then
        let acc := (acc * 10 + (b - 48))%N in
        if (maxUint64 <? acc)%N then None else parseDigits rest acc
      else None
  end.

(** [strconv.ParseUint(s, 10, 64)]: no sign, no underscore, not empty. *)
Definition ParseUint (s : string) : option N :=
  if bool_decide (s = "") then None else parseDigits s 0.

(** [parseWatchFolderID]; [uint] is 64 bits wide. *)
Definition parseWatchFolderID (c : Context) : Response + N :=
  match ParseUint (ctxParamID c) with
  | None => inl {| StatusCode := StatusBadRequest; Body := ErrorBody "Invalid folder id" |}
  | Some parsed => inr parsed
  end.

(** [folderWatcherReady]: the handler holds a service or nil. *)
Definition folderWatcherReady (ready : bool) : option Response :=
  if ready then None
  else Some {| StatusCode := StatusServiceUnavailable;
               Body := ErrorBody "Folder watch service is not available" |}.

Section Handlers.
Variable E : Env.
Variable ready : bool.

Definition ListWatchFolders (c : Context) : M Response :=
  match folderWatcherReady ready with
  | Some refused => ret refused
  | None =>
      match currentUserID c with
      | inl refused => ret refused
      | inr userID =>
          listed <- ListUserFolders E userID ;;
          match listed with
          | inl _ => ret {| StatusCode := StatusInternalServerError;
                            Body := ErrorBody "Failed to list watched folders" |}
          | inr views => ret {| StatusCode := StatusOK;
                                Body := FoldersBody (map toWatchFolderResponse views) |}
          end
      end
  end.

Definition CreateWatchFolder (c : Context) : M Response :=
  match folderWatcherReady ready with
  | Some refused => ret refused
  | None =>
      match currentUserID c with
      | inl refused => ret refused
      | inr userID =>
          match ctxCreate c with
          | inl bindErr =>
              ret {| StatusCode := StatusBadRequest;
                     Body := ErrorBody ("Invalid request: " +:+ bindErr) |}
          | inr req =>
              let recursive := match ReqRecursive req with Some b => b | None => true end in
              let enabled := match ReqEnabled req with Some b => b | None => true end in
              created <- CreateUserFolder E userID (ReqPath req) recursive enabled ;;
              match created with
              | inl err =>
                  if errorsIs err FolderAlreadyExists then
                    ret {| StatusCode := StatusConflict; Body := ErrorBody (errorString err) |}
                  else if errorsIs err InvalidFolderPath then
                    ret {| StatusCode := StatusBadRequest; Body := ErrorBody (errorString err) |}
                  else
                    ret {| StatusCode := StatusInternalServerError;
                           Body := ErrorBody "Failed to create watched folder" |}
              | inr view =>
                  ret {| StatusCode := StatusCreated;
                         Body := FolderBody (toWatchFolderResponse view) |}
              end
          end
      end
  end.

Definition UpdateWatchFolder (c : Context) : M Response :=
  match folderWatcherReady ready with
  | Some refused => ret refused
  | None =>
      match currentUserID c with
      | inl refused => ret refused
      | inr userID =>
          match parseWatchFolderID c with
          | inl refused => ret refused
          | inr folderID =>
              match ctxUpdate c with
              | inl bindErr =>
                  ret {| StatusCode := StatusBadRequest;
                         Body := ErrorBody ("Invalid request: " +:+ bindErr) |}
              | inr req =>
                  match UpdEnabled req with
                  | None =>
                      ret {| StatusCode := StatusBadRequest;
                             Body := ErrorBody "At least one field must be updated" |}
                  | Some enabled =>
                      updated <- SetUserFolderEnabled E userID folderID enabled ;;
                      match updated with
                      | inl err =>
                          if errorsIs err FolderNotFound then
                            ret {| StatusCode := StatusNotFound;
                                   Body := ErrorBody "Watched folder not found" |}
                          else
                            ret {| StatusCode := StatusInternalServerError;
                                   Body := ErrorBody "Failed to update watched folder" |}
                      | inr view =>
                          ret {| StatusCode := StatusOK;
                                 Body := FolderBody (toWatchFolderResponse view) |}
                      end
                  end
              end
          end
      end
  end.

Definition DeleteWatchFolder (c : Context) : M Response :=
  match folderWatcherReady ready with
  | Some refused => ret refused
  | None =>
      match currentUserID c with
      | inl refused => ret refused
      | inr userID =>
          match parseWatchFolderID c with
          | inl refused => ret refused
          | inr folderID =>
              deleted <- DeleteUserFolder E userID folderID ;;
              match deleted with
              | Some err =>
                  if errorsIs err FolderNotFound then
                    ret {| StatusCode := StatusNotFound;
                           Body := ErrorBody "Watched folder not found" |}
                  else
                    ret {| StatusCode := StatusInternalServerError;
                           Body := ErrorBody "Failed to delete watched folder" |}
              | None => ret {| StatusCode := StatusNoContent; Body := NoBody |}
              end
          end
      end
  end.

End Handlers.

(** * Specification side

    The notions the statements below are written in.  They follow the
    words of the specification, not the code. *)

(** ** Stability prober *)

(** The time of poll number [i] of a probe that starts at [t0]. *)
Definition pollTime (t0 : Z) (i : nat) : Z := t0 + Z.of_nat i * stabilityInterval.

(** What poll number [i] sees. *)
Definition observation (E : Env) (path : string) (t0 : Z) (i : nat) : statResult :=
  statAt E (pollTime t0 i) path.

Definition isFile (o : statResult) : bool :=
  match o with StatInfo false _ _ => true | _ => false end.

Definition isDirectory (o : statResult) : bool :=
  match o with StatInfo true _ _ => true | _ => false end.

Definition signatureOf (o : statResult) : fileSignature :=
  match o with
  | StatInfo _ size modUnix => {| Size := size; ModUnix := modUnix |}
  | StatErr _ => {| Size := 0; ModUnix := 0 |}
  end.

(** Size and modification time are those of the previous poll. *)
Definition unchanged (o previous : statResult) : bool :=
  isFile o && isFile previous && bool_decide (signatureOf o = signatureOf previous).

(** The number of consecutive polls, ending with poll [i], that found the
    file unchanged from the poll before. *)
Fixpoint unchangedCount (obs : nat -> statResult) (i : nat) : Z :=
  match i with
  | O => 0
  | S j => if unchanged (obs (S j)) (obs j) then unchangedCount obs j + 1 else 0
  end.


(** The bound on the number of polls. *)
Definition maxPolls : nat := Z.to_nat (stabilityChecks + 2).

(** The world with the clock set to [t] and nothing else changed. *)
Definition atTime (t : Z) (w : World) : World := onOs (setClock t) w.

(** A poll ends the probe when it finds no file or finds the file settled. *)
Definition decisive (obs : nat -> statResult) (i : nat) : bool :=
  negb (isFile (obs i))
  || ((stabilityChecks <=? unchangedCount obs i)
      && (minimumAudioBytes <=? Size (signatureOf (obs i)))).

(** The first poll among [k], ..., [k + n - 1] that ends the probe. *)
Fixpoint firstDecisive (obs : nat -> statResult) (n k : nat) : option nat :=
  match n with
  | O => None
  | S n' => if decisive obs k then Some k else firstDecisive obs n' (S k)
  end.

Definition timeoutError (path : string) : error :=
  Opaque ("file " +:+ quote path +:+ " did not stabilize before timeout").

Definition verdict (path : string) (o : statResult) : error + fileSignature :=
  match o with
  | StatErr e => inl e
  | StatInfo true _ _ => inl (Opaque ("cannot import directory " +:+ quote path))
  | StatInfo false size modUnix => inr {| Size := size; ModUnix := modUnix |}
  end.

(** ** Events and extensions *)



(** The timer a debounced import of [path] on runner [r] is waiting on. *)
Definition debounced (r : nat) (path : string) (now : Z) : timer :=
  {| timerRunner := r; timerPath := path;
     timerDue := now + fileDebounceDelay; timerLive := true |}.

(** ** Registry and status *)

(** Two states of the service that agree on the registry and, for every
    folder, on everything in its status but the last runtime error. *)
Definition sameHistory (s s' : Service) : Prop :=
  runners s' = runners s /\
  forall id, Active (statusOf s' id) = Active (statusOf s id) /\
             LastImportedAt (statusOf s' id) = LastImportedAt (statusOf s id) /\
             LastImportedFile (statusOf s' id) = LastImportedFile (statusOf s id).

(** The world in which the status of [id] was marked active and nothing
    else happened. *)
Definition refreshed (id : N) (w : World) : World :=
  onSvc (fun s => setStatuses (<[id := withActive true (statusOf s id)]> (statuses s)) s) w.

(** The status of a folder whose runner was started anew. *)
Definition restarted (old : runtimeStatus) : runtimeStatus :=
  {| Active := true; LastRuntimeError := "";
     LastImportedAt := LastImportedAt old; LastImportedFile := LastImportedFile old |}.

(** The status of a folder whose runner failed to start with [e]. *)
Definition startFailed (e : error) (old : runtimeStatus) : runtimeStatus :=
  {| Active := false; LastRuntimeError := errorString e;
     LastImportedAt := LastImportedAt old; LastImportedFile := LastImportedFile old |}.

(** The world after one more call into a collaborator. *)
Definition called (w : World) : World := onOs (fun h => setTick (S (tick h)) h) w.

(** The folders of a user, in the order of the listing. *)
Definition ownedBy (userID : N) (w : World) : list WatchedFolder :=
  sortByPath (filter (fun f => UserID f = userID) (folderRows (db w))).

(** The world after a folder row is stored: two calls were made (the
    lookup by owner and path, the insert) and the table holds the row. *)
Definition stored (f : WatchedFolder) (w : World) : World :=
  onDb (fun s => setFolderRows (folderRows s ++ [f]) (N.succ (nextFolderID s)) s)
       (called (called w)).

Definition isSentinel (e : error) : bool :=
  match e with Sentinel _ => true | _ => false end.

(** ** Importer *)

(** The world with one more call of [importFile] on record. *)
Definition logged (userID : N) (src : string) (w : World) : World :=
  onOs (fun h => setImportCalls (importCalls h ++ [(userID, src)]) h) w.

(** A computation that puts no call of [importFile] on record. *)
Definition keepsLog {A} (m : M A) : Prop :=
  forall w, importCalls (os (snd (m w))) = importCalls (os w).

(** The world in which [importFile] starts to copy: the call is on
    record, the upload directory is there, the identifier is drawn. *)
Definition readyToCopy (E : Env) (userID : N) (src : string) (w : World) : World :=
  onOs (fun h => setTick (S (tick h)) (setUpfs (<[UploadDir E := NDir]> (upfs h)) h))
       (logged userID src w).

(** ** Four statements about the service, as they are made

    Three are sentences of the specification, word for word; the fourth
    is what the clean-up of [importFile] is expected to achieve.  Each is
    stated here as it is made; the scenarios show where the code departs
    from it. *)

(** "If that start fails, the just-created persisted entity is rolled back
    (deleted) and the error is returned." *)
Definition startFailureDeletesFolder (E : Env) (userID : N) (path : string)
  (recursive : bool) (w : World) : Prop :=
  forall p w1 f w2 e w3,
    fst (normalizeFolderPath E path w) = inr p ->
    FindByUserAndPath E userID p w = (inr None, w1) ->
    folderCreate E {| ID := 0%N; UserID := userID; Path := p;
                      Recursive := recursive; Enabled := true |} w1 = (inr f, w2) ->
    startRunner E f w2 = (Some e, w3) ->
    let result := CreateUserFolder E userID path recursive true w in
    fst result = inl e /\
    statuses (svc (snd result)) !! ID f = None /\
    f ∉ folderRows (db (snd result)).

(** "Survives enable/disable toggles (only [active] flips)": a disable
    followed by a re-enable leaves the other three fields as they were. *)
Definition toggleFlipsOnlyActive (E : Env) (userID folderID : N) (w : World) : Prop :=
  forall v1 off v2 on,
    SetUserFolderEnabled E userID folderID false w = (inr v1, off) ->
    SetUserFolderEnabled E userID folderID true off = (inr v2, on) ->
    LastRuntimeError (statusOf (svc on) folderID)
      = LastRuntimeError (statusOf (svc w) folderID) /\
    LastImportedAt (statusOf (svc on) folderID)
      = LastImportedAt (statusOf (svc w) folderID) /\
    LastImportedFile (statusOf (svc on) folderID)
      = LastImportedFile (statusOf (svc w) folderID).

(** "If enqueueing fails, the job status is rolled back to uploaded", and
    the record with it, so that no job stays pending with no queue entry. *)
Definition enqueueFailureIsStored (E : Env) (userID : N) (job : TranscriptionJob)
  (w : World) : Prop :=
  forall user w1 profile w2 msg,
    userFindByID E userID w = (inr user, w1) ->
    AutoTranscriptionEnabled user = true ->
    selectProfile E user w1 = (Some profile, w2) ->
    fault E (tick (os w2)) = None ->
    fault E (S (tick (os w2))) = Some msg ->
    let after := snd (maybeQueueAutoTranscription E userID job w) in
    Status <$> jobRows (db after) !! JobID job = Some StatusUploaded.

(** When the job record cannot be created after the copy, the copied file
    is removed before the error is returned, so that a failed import
    leaves neither a job record nor an orphan file in the upload
    directory. *)
Definition failedCreateLeavesNoCopy (E : Env) (userID : N) (src : string) (w : World)
  : Prop :=
  forall size modUnix content msg,
    let dest := Join E (UploadDir E) (uuidAt E (tick (os w)) +:+ ToLower E (Ext src)) in
    statAt E (clock (os w)) src = StatInfo false size modUnix ->
    isWatchableAudioFile E src = true ->
    (forall c, upfs (os w) !! UploadDir E <> Some (NFile c)) ->
    readAt E (clock (os w)) src = ReadAll content ->
    dest <> UploadDir E ->
    upfs (os w) !! dest = None ->
    fault E (S (tick (os w))) = Some msg ->
    let after := snd (importFile E userID src w) in
    upfs (os after) !! dest = None /\ jobRows (db after) = jobRows (db w).

(** * Notions of the further properties

    The states and relations the statements beyond the specification are
    written in; each names what the code produces. *)

(** A timer that can no longer fire. *)
Definition cancelled (tm : timer) : timer :=
  {| timerRunner := timerRunner tm; timerPath := timerPath tm;
     timerDue := timerDue tm; timerLive := false |}.

(** What the importer leaves alone: the service, the runner objects, the
    clock, the timers and the watches. *)
Definition sameRuntime (w w' : World) : Prop :=
  svc w' = svc w /\ heap (os w') = heap (os w) /\ clock (os w') = clock (os w) /\
  timerTab (os w') = timerTab (os w) /\ watches (os w') = watches (os w).

(** A computation that leaves the runtime alone from every world. *)
Definition keepsRuntime {A} (m : M A) : Prop := forall w, sameRuntime w (snd (m w)).


(** The status of a folder after an import of [path] at time [now]. *)
Definition importedAt (now : Z) (path : string) (old : runtimeStatus) : runtimeStatus :=
  {| Active := Active old; LastRuntimeError := "";
     LastImportedAt := Some now; LastImportedFile := path |}.

(** The profile [maybeQueueAutoTranscription] prefers when every lookup
    answers: the user's own, else the system default, else the first one
    listed. *)
Definition preferredProfile (E : Env) (user : User) : option TranscriptionProfile :=
  match DefaultProfileID user ≫= (fun pid => head (filter (fun p => ProfileID p = pid) (profileRows E))) with
  | Some p => Some p
  | None =>
      match head (filter (fun p => IsDefault p = true) (profileRows E)) with
      | Some d => Some d
      | None => head (profileRows E)
      end
  end.

(** The rows of [id] that belong to [userID]. *)
Definition rowsOf (userID id : N) (w : World) : list WatchedFolder :=
  filter (fun f => ID f = id /\ UserID f = userID) (folderRows (db w)).

(** The table after [Update] of the row [f]. *)
Definition rowsWith (f : WatchedFolder) (rows : list WatchedFolder) : list WatchedFolder :=
  map (fun g => if bool_decide (ID g = ID f) then f else g) rows.

(** The world after the lookup and the update of [SetUserFolderEnabled]. *)
Definition updatedTo (f : WatchedFolder) (w : World) : World :=
  onDb (fun s => setFolderRows (rowsWith f (folderRows s)) (nextFolderID s) s)
       (called (called w)).

(** Two states of the service that agree on every folder but [id]. *)
Definition othersKept (id : N) (s s' : Service) : Prop :=
  forall id', id' <> id ->
    runners s' !! id' = runners s !! id' /\ statuses s' !! id' = statuses s !! id'.


(** The registry and the statuses tell the same story: a folder is marked
    active exactly when a runner is registered for it. *)
Definition registryConsistent (s : Service) : Prop :=
  forall id, Active (statusOf s id) = true <-> is_Some (runners s !! id).

(** A computation that keeps the registry consistent. *)
Definition keepsConsistent {A} (m : M A) : Prop :=
  forall w, registryConsistent (svc w) -> registryConsistent (svc (snd (m w))).

(** The order of [ORDER BY path ASC] and of [ORDER BY id ASC]. *)
Definition pathLe (f g : WatchedFolder) : Prop := String.leb (Path f) (Path g) = true.

Definition idLe (f g : WatchedFolder) : Prop := (ID f <= ID g)%N.

(** An error no [errors.Is] test of the handlers recognises. *)
Definition unclassified (e : error) : Prop := forall s, s <> RecordNotFound -> errorsIs e s = false.

(** * Scenarios

    Concrete environments and worlds on which the statements below are
    exercised. *)

Definition musicDir : string := "/music".
Definition song : string := "/music/Take One.MP3".

(** A host on which [/music] is a directory and every other path is a
    file of 1024 bytes last written at time 500. *)
Definition steadyStat (t : Z) (path : string) : statResult :=
  if bool_decide (path = musicDir) then StatInfo true 4096 0
  else StatInfo false 1024 500.


(** Identifiers drawn by [uuid.New]: one per call number. *)
Definition sampleUUID (n : nat) : string :=
  "job-" +:+ String (ascii_of_nat (48 + n)) EmptyString.

Definition sampleEnv (faults : nat -> option string)
  (stat : Z -> string -> statResult) : Env :=
  {| UploadDir := "/data/uploads";
     fault := faults;
     statAt := stat;
     readAt := fun _ _ => ReadAll "RIFF";
     walkDirs := fun _ => [];
     uuidAt := sampleUUID;
     userRows := {[ 7%N := {| AutoTranscriptionEnabled := true;
                              DefaultProfileID := None |} ]};
     profileRows := [ {| ProfileID := "default";
                         ProfileParameters := {| Diarize := true; Settings := "large" |};
                         IsDefault := true |} ];
     unicodeLower := fun s => s;
     trimSpace := fun s => s;
     filepathAbs := fun s => inr s;
     filepathClean := fun s => s |}.

Definition noFault : nat -> option string := fun _ => None.

(** The call numbered [k] fails, every other call goes through. *)
Definition failAt (k : nat) (msg : string) : nat -> option string :=
  fun n => if bool_decide (n = k) then Some msg else None.

(** The calls numbered [k1] and [k2] fail. *)
Definition failAtBoth (k1 k2 : nat) (msg : string) : nat -> option string :=
  fun n => if bool_decide (n = k1 \/ n = k2) then Some msg else None.

Definition quietEnv : Env := sampleEnv noFault steadyStat.

Definition emptyWorld : World :=
  {| db := {| folderRows := []; nextFolderID := 1%N; jobRows := ∅; queue := [] |};
     os := {| clock := 0; tick := 0; nextAddr := 0; heap := ∅; upfs := ∅;
              watches := ∅; timerTab := ∅; importCalls := [] |};
     svc := {| runners := ∅; statuses := ∅ |} |}.

Definition musicFolder : WatchedFolder :=
  {| ID := 1; UserID := 7; Path := musicDir; Recursive := false; Enabled := true |}.

Definition musicRunner : folderRunner :=
  {| folder := musicFolder; watcher := Some 1%nat; stopped := false;
     timers := ∅; imported := ∅ |}.

Definition songSignature : fileSignature := {| Size := 1024; ModUnix := 500 |}.

(** User 7 watches [/music]: folder 1, runner object 0, watcher 1. *)
Definition watchingWorld : World :=
  snd (CreateUserFolder quietEnv 7%N musicDir false true emptyWorld).

(** The same, after [song] was imported once. *)
Definition importedWorld : World :=
  snd (processCandidate quietEnv 0%nat song watchingWorld).

(** The same as [watchingWorld], after the watcher reported an error. *)
Definition troubledWorld : World :=
  snd (markRuntimeError 1%N (Some (Wrapf "watcher error: " (Opaque "queue overflow") ""))
         watchingWorld).

(** User 8 watches [/music]; user 7 does not yet. *)
Definition neighbourWorld : World :=
  snd (CreateUserFolder quietEnv 8%N musicDir false false emptyWorld).

(** The job [importFile] hands to [maybeQueueAutoTranscription]. *)
Definition sampleJob : TranscriptionJob :=
  {| JobID := "job-0"; AudioPath := "/data/uploads/job-0.mp3";
     Status := StatusUploaded; Title := Some "Take One.MP3";
     Parameters := zeroParams; Diarization := false |}.

Definition defaultProfile : TranscriptionProfile :=
  {| ProfileID := "default";
     ProfileParameters := {| Diarize := true; Settings := "large" |};
     IsDefault := true |}.

(** Storage that holds [sampleJob], as it does once [importFile] has
    created the record. *)
Definition jobWorld : World :=
  onDb (setJobRows {[ "job-0" := sampleJob ]}) emptyWorld.

(** The watcher cannot be made (call 2); the deletion that follows (call
    3) goes through in the first environment and fails in the second. *)
Definition noWatcherEnv : Env :=
  sampleEnv (failAt 2 "too many open files") steadyStat.
Definition noWatcherNoDeleteEnv : Env :=
  sampleEnv (failAtBoth 2 3 "context canceled") steadyStat.

Definition watcherError (msg : string) : error :=
  Wrapf "failed to create filesystem watcher: " (Opaque msg) "".

(** The queue refuses the job (call 3); the store that follows (call 4)
    goes through in the first environment and fails in the second. *)
Definition queueFullEnv : Env :=
  sampleEnv (failAt 3 "queue full") steadyStat.
Definition queueFullNoStoreEnv : Env :=
  sampleEnv (failAtBoth 3 4 "context deadline exceeded") steadyStat.

(** The job record cannot be created (call 1 of an import from scratch). *)
Definition noJobEnv : Env :=
  sampleEnv (failAt 1 "database is locked") steadyStat.

(** The same, and the removal of the copy that follows (call 2) fails as
    well. *)
Definition noJobNoRemoveEnv : Env :=
  sampleEnv (failAtBoth 1 2 "database is locked") steadyStat.


(** User 7 has the folder [/music], disabled: no runner yet. *)
Definition idleWorld : World :=
  snd (CreateUserFolder quietEnv 7%N musicDir false false emptyWorld).



(** Folder 1 has its runner, and a second start of it, which had passed
    the first check before that runner was stored, has just failed to make
    its watcher: the status says inactive, with the error of the second
    start. *)
Definition lapsedWorld : World :=
  snd (startRunner_attach
         (sampleEnv (failAt (tick (os watchingWorld)) "too many open files") steadyStat)
         musicFolder watchingWorld).

(** User 8 watches [/music] as well (folder 2); the watcher of folder 1
    has reported an error, and the row of folder 1 has just been stored as
    disabled while its runner is not stopped yet: the state between the
    update and the stop of a [SetUserFolderEnabled]. *)
Definition crowdedWorld : World :=
  onDb (fun s =>
          setFolderRows
            (map (fun g => if bool_decide (ID g = 1%N) then withEnabled false g else g)
                 (folderRows s))
            (nextFolderID s) s)
       (snd (CreateUserFolder quietEnv 8%N musicDir false true troubledWorld)).

(** Runner 0 of [watchingWorld] with an import of [song] pending: timer 2,
    due two seconds from now. *)
Definition pendingWorld : World := snd (scheduleImport 0%nat song watchingWorld).

(** During an import that starts in [watchingWorld], the job record cannot
    be created. *)
Definition lockedEnv : Env :=
  sampleEnv (failAt (S (tick (os watchingWorld))) "database is locked") steadyStat.

(** A host on which the read of a source file breaks after two bytes. *)
Definition tornEnv : Env :=
  {| UploadDir := UploadDir quietEnv;
     fault := noFault;
     statAt := steadyStat;
     readAt := fun _ _ => ReadTorn "RI" (OsErr "read /music/Take One.MP3: input/output error" false);
     walkDirs := walkDirs quietEnv;
     uuidAt := sampleUUID;
     userRows := userRows quietEnv;
     profileRows := profileRows quietEnv;
     unicodeLower := unicodeLower quietEnv;
     trimSpace := trimSpace quietEnv;
     filepathAbs := filepathAbs quietEnv;
     filepathClean := filepathClean quietEnv |}.

(** No watcher can be made when folder 1 of [idleWorld] is enabled: the
    lookup and the update go through, the next call fails. *)
Definition noRestartEnv : Env :=
  sampleEnv (failAt (2 + tick (os idleWorld)) "too many open files") steadyStat.


(** A request of user 7 that names folder 1, creates [/music] with both
    flags left out, and disables. *)
Definition ownerRequest : Context :=
  {| ctxUser := Some 7%N; ctxParamID := "1";
     ctxCreate := inr {| ReqPath := musicDir; ReqRecursive := None; ReqEnabled := None |};
     ctxUpdate := inr {| UpdEnabled := Some false |} |}.

(** The same request from user 8. *)
Definition strangerRequest : Context :=
  {| ctxUser := Some 8%N; ctxParamID := "1";
     ctxCreate := ctxCreate ownerRequest; ctxUpdate := ctxUpdate ownerRequest |}.

Definition pendingTimer : timer := debounced 0%nat song 0.

(** * Proofs *)

Lemma bind_run {A B} (m : M A) (k : A -> M B) w :
  bind m k w = k (fst (m w)) (snd (m w)).
Proof. unfold bind. destruct (m w). reflexivity. Qed.

(** ** The stability prober *)

Lemma atTime_same w : atTime (clock (os w)) w = w.
Proof. destruct w as [d [] s]; reflexivity. Qed.

Lemma pollTime_S t0 i : pollTime t0 (S i) = pollTime t0 i + stabilityInterval.
Proof. unfold pollTime. lia. Qed.

Lemma firstDecisive_Some obs n k i :
  firstDecisive obs n k = Some i ->
  (k <= i < k + n)%nat /\ decisive obs i = true /\
  forall j, (k <= j < i)%nat -> decisive obs j = false.
Proof.
  revert k. induction n as [|n IH]; intros k H; simpl in H; [discriminate|].
  destruct (decisive obs k) eqn:Hk.
  - injection H as <-. split; [lia|]. split; [exact Hk|]. intros j Hj; lia.
  - apply IH in H as (Hr & Hd & Hb). split; [lia|]. split; [exact Hd|].
    intros j Hj. destruct (decide (j = k)) as [->|]; [exact Hk|]. apply Hb; lia.
Qed.


Section Prober.
Variable E : Env.
Variable path : string.
Variable t0 : Z.
Local Abbreviation obs := (observation E path t0).

Lemma stabilityLoop_run n : forall k prevSize prevModUnix stableReads w,
  clock (os w) = pollTime t0 k ->
  (k = O -> prevSize = -1 /\ prevModUnix = -1 /\ stableReads = 0) ->
  (k <> O -> obs (pred k) = StatInfo false prevSize prevModUnix) ->
  (minimumAudioBytes <= prevSize -> stableReads = unchangedCount obs (pred k)) ->
  stabilityLoop E n path prevSize prevModUnix stableReads w =
  match firstDecisive obs n k with
  | Some i => (verdict path (obs i), atTime (pollTime t0 i) w)
  | None => (inl (timeoutError path), atTime (pollTime t0 (k + n)) w)
  end.
Proof.
  induction n as [|n IH]; intros k ps pm sr w Hclock Hzero Hprev Hcount.
  - simpl. rewrite Nat.add_0_r, <- Hclock, atTime_same. reflexivity.
  - cbn [stabilityLoop firstDecisive]. unfold bind at 1, osStat at 1.
    rewrite Hclock. fold (obs k). unfold decisive.
    destruct (obs k) as [e|[|] size modUnix] eqn:Hobs; cbn [isFile negb orb verdict signatureOf Size].
    + rewrite Hobs, <- Hclock, atTime_same. reflexivity.
    + rewrite Hobs, <- Hclock, atTime_same. reflexivity.
    + set (sr' := if (size =? ps) && (modUnix =? pm) then sr + 1 else 0).
      assert (Hsr' : minimumAudioBytes <= size -> sr' = unchangedCount obs k).
      { intros Hsize. subst sr'. destruct k as [|k].
        - destruct (Hzero eq_refl) as (-> & -> & ->). simpl.
          unfold minimumAudioBytes in Hsize.
          destruct (size =? -1) eqn:Hs; [lia|reflexivity].
        - specialize (Hprev ltac:(lia)). simpl in Hprev, Hcount.
          cbn [unchangedCount]. unfold unchanged. rewrite Hobs, Hprev. cbn.
          destruct (size =? ps) eqn:Hs; destruct (modUnix =? pm) eqn:Hm; cbn.
          + assert (size = ps) by lia. assert (modUnix = pm) by lia. subst.
            rewrite bool_decide_eq_true_2 by reflexivity. rewrite Hcount by lia. reflexivity.
          + rewrite bool_decide_eq_false_2; [reflexivity|]. intros [=]. lia.
          + rewrite bool_decide_eq_false_2; [reflexivity|]. intros [=]. lia.
          + rewrite bool_decide_eq_false_2; [reflexivity|]. intros [=]. lia. }
      destruct (minimumAudioBytes <=? size) eqn:Hmin.
      * rewrite <- Hsr' by lia. rewrite !andb_true_r.
        destruct (stabilityChecks <=? sr') eqn:Hst.
        -- rewrite Hobs, <- Hclock, atTime_same. reflexivity.
        -- unfold bind, timeSleep, modify.
           rewrite (IH (S k) size modUnix sr').
           ++ replace (k + S n)%nat with (S k + n)%nat by lia.
              destruct (firstDecisive obs n (S k)); reflexivity.
           ++ cbn. rewrite Hclock, pollTime_S. reflexivity.
           ++ discriminate.
           ++ intros _. exact Hobs.
           ++ intros H. cbn. apply Hsr'. exact H.
      * rewrite !andb_false_r.
        unfold bind, timeSleep, modify.
        rewrite (IH (S k) size modUnix sr').
        -- replace (k + S n)%nat with (S k + n)%nat by lia.
           destruct (firstDecisive obs n (S k)); reflexivity.
        -- cbn. rewrite Hclock, pollTime_S. reflexivity.
        -- discriminate.
        -- intros _. exact Hobs.
        -- intros H. lia.
Qed.
End Prober.

Section Counting.
Variable obs : nat -> statResult.

Lemma unchangedCount_bounds i : 0 <= unchangedCount obs i <= Z.of_nat i.
Proof.
  induction i as [|i IH]; [simpl; lia|].
  cbn [unchangedCount]. destruct (unchanged _ _); lia.
Qed.




Lemma decisive_file i :
  decisive obs i = true -> isFile (obs i) = true ->
  stabilityChecks <= unchangedCount obs i /\ minimumAudioBytes <= Size (signatureOf (obs i)).
Proof.
  unfold decisive. intros H Hf. rewrite Hf in H. cbn in H.
  apply andb_prop in H as [H1 H2]. lia.
Qed.





End Counting.

Lemma waitForStableFile_run E path w :
  waitForStableFile E path w =
  match firstDecisive (observation E path (clock (os w))) maxPolls 0 with
  | Some i => (verdict path (observation E path (clock (os w)) i),
               atTime (pollTime (clock (os w)) i) w)
  | None => (inl (timeoutError path), atTime (pollTime (clock (os w)) maxPolls) w)
  end.
Proof.
  unfold waitForStableFile. fold maxPolls.
  rewrite (stabilityLoop_run E path (clock (os w)) maxPolls 0); try done.
  unfold pollTime. lia.
Qed.


(** ** Events and extensions *)




Section Frames.
Variable E : Env.

Lemma collaborator_frame w :
  db (snd (collaborator E w)) = db w /\
  svc (snd (collaborator E w)) = svc w /\
  timerTab (os (snd (collaborator E w))) = timerTab (os w) /\
  heap (os (snd (collaborator E w))) = heap (os w) /\
  upfs (os (snd (collaborator E w))) = upfs (os w).
Proof. repeat split. Qed.

Lemma watcherAdd_frame h path w :
  db (snd (watcherAdd E h path w)) = db w /\
  timerTab (os (snd (watcherAdd E h path w))) = timerTab (os w) /\
  heap (os (snd (watcherAdd E h path w))) = heap (os w).
Proof.
  unfold watcherAdd. destruct (watches (os w) !! h); [|repeat split].
  unfold bind, collaborator. cbn. destruct (fault E (tick (os w))); repeat split.
Qed.

Lemma markRuntimeError_frame id err w :
  db (snd (markRuntimeError id err w)) = db w /\
  os (snd (markRuntimeError id err w)) = os w.
Proof. destruct err; repeat split. Qed.

Lemma watchSubdirectories_frame id h paths : forall w,
  db (snd (watchSubdirectories E id h paths w)) = db w /\
  timerTab (os (snd (watchSubdirectories E id h paths w))) = timerTab (os w) /\
  heap (os (snd (watchSubdirectories E id h paths w))) = heap (os w).
Proof.
  induction paths as [|p rest IH]; intros w; [repeat split|].
  cbn [watchSubdirectories]. unfold bind.
  destruct (watcherAdd_frame h p w) as (Hd & Ht & Hh).
  destruct (watcherAdd E h p w) as [err w1]. cbn in Hd, Ht, Hh.
  set (step := match err with Some e => _ | None => _ end).
  assert (Hs : db (snd (step w1)) = db w1 /\ os (snd (step w1)) = os w1).
  { subst step. destruct err; [apply (markRuntimeError_frame _ (Some _))|repeat split]. }
  destruct (step w1) as [[] w2]. cbn in Hs. destruct Hs as [Hd2 Ho2].
  destruct (IH w2) as (Hd3 & Ht3 & Hh3). rewrite Hd3, Ht3, Hh3, Hd2, Ho2. auto.
Qed.

Lemma addWatchedPath_frame r root w :
  db (snd (addWatchedPath E r root w)) = db w /\
  timerTab (os (snd (addWatchedPath E r root w))) = timerTab (os w) /\
  heap (os (snd (addWatchedPath E r root w))) = heap (os w).
Proof.
  unfold addWatchedPath. destruct (heap (os w) !! r) as [obj|]; [|repeat split].
  destruct (watcher obj) as [h|]; [|repeat split].
  unfold bind. destruct (watcherAdd_frame h root w) as (Hd & Ht & Hh).
  destruct (watcherAdd E h root w) as [[e|] w1]; cbn in Hd, Ht, Hh; [cbn; auto|].
  destruct (Recursive (folder obj)); cbn; [|auto].
  destruct (watchSubdirectories_frame (ID (folder obj)) h (walkDirs E root) w1) as (Hd3 & Ht3 & Hh3).
  destruct (watchSubdirectories E (ID (folder obj)) h (walkDirs E root) w1) as [[] w2].
  cbn in *. rewrite Hd3, Ht3, Hh3. auto.
Qed.

End Frames.

(** ** The record of the calls of the importer *)

Lemma log_ret {A} (a : A) : keepsLog (ret a).
Proof. intros w. reflexivity. Qed.

Lemma log_bind {A B} (m : M A) (k : A -> M B) :
  keepsLog m -> (forall a, keepsLog (k a)) -> keepsLog (bind m k).
Proof. intros Hm Hk w. rewrite bind_run, Hk, Hm. reflexivity. Qed.

Lemma log_onDb f : keepsLog (modify (onDb f)).
Proof. intros w. reflexivity. Qed.

Lemma log_collaborator E : keepsLog (collaborator E).
Proof. intros w. reflexivity. Qed.

Lemma log_uuidNew E : keepsLog (uuidNew E).
Proof. intros w. reflexivity. Qed.

Lemma log_osStat E p : keepsLog (osStat E p).
Proof. intros w. reflexivity. Qed.

Lemma log_osMkdirAll p : keepsLog (osMkdirAll p).
Proof. intros w. unfold osMkdirAll. destruct (upfs (os w) !! p) as [[|]|]; reflexivity. Qed.

Lemma log_osRemove E p : keepsLog (osRemove E p).
Proof.
  intros w. unfold osRemove. destruct (upfs (os w) !! p); [|reflexivity].
  unfold bind, collaborator. destruct (fault E (tick (os w))); reflexivity.
Qed.

Lemma log_copyFile E src dst : keepsLog (copyFile E src dst).
Proof.
  intros w. unfold copyFile.
  destruct (readAt E (clock (os w)) src); [reflexivity| |];
    destruct (upfs (os w) !! dst) as [[|]|]; reflexivity.
Qed.

Lemma log_markRuntimeError id err : keepsLog (markRuntimeError id err).
Proof. intros w. destruct err; reflexivity. Qed.

Lemma log_watcherAdd E h path : keepsLog (watcherAdd E h path).
Proof.
  intros w. unfold watcherAdd. destruct (watches (os w) !! h); [|reflexivity].
  unfold bind, collaborator. cbn. destruct (fault E (tick (os w))); reflexivity.
Qed.

Ltac logs :=
  repeat first
    [ apply log_ret | apply log_onDb | apply log_collaborator | apply log_uuidNew
    | apply log_osStat | apply log_osMkdirAll | apply log_osRemove | apply log_copyFile
    | apply log_markRuntimeError | apply log_watcherAdd
    | apply log_bind; [|intros ?]
    | match goal with |- keepsLog (match ?x with _ => _ end) => destruct x end
    | match goal with |- keepsLog (if ?x then _ else _) => destruct x end ].

Lemma log_maybeQueue E user job : keepsLog (maybeQueueAutoTranscription E user job).
Proof.
  unfold maybeQueueAutoTranscription, userFindByID, queueWithProfile, selectProfile,
    profileFindByID, profileFindDefault, profileList, jobUpdate, EnqueueJob.
  logs.
Qed.










(** ** Registry: runners and statuses *)

Lemma sameHistory_refl s : sameHistory s s.
Proof. split; [reflexivity|]. intros id; auto. Qed.

Lemma sameHistory_trans s1 s2 s3 : sameHistory s1 s2 -> sameHistory s2 s3 -> sameHistory s1 s3.
Proof.
  intros [Hr1 H1] [Hr2 H2]. split; [congruence|]. intros id.
  destruct (H1 id) as (? & ? & ?), (H2 id) as (? & ? & ?). repeat split; congruence.
Qed.

Lemma statusOf_setStatus id f w id' :
  statusOf (svc (snd (setStatus id f w))) id' =
  if decide (id = id') then f (statusOf (svc w) id) else statusOf (svc w) id'.
Proof.
  unfold setStatus, modify, statusOf. cbn. rewrite lookup_insert.
  destruct (decide (id = id')); reflexivity.
Qed.

Lemma setStatus_other id f w :
  db (snd (setStatus id f w)) = db w /\ os (snd (setStatus id f w)) = os w /\
  runners (svc (snd (setStatus id f w))) = runners (svc w).
Proof. repeat split. Qed.

Lemma markRuntimeError_history id err w :
  sameHistory (svc w) (svc (snd (markRuntimeError id err w))) /\
  db (snd (markRuntimeError id err w)) = db w /\
  os (snd (markRuntimeError id err w)) = os w.
Proof.
  destruct err as [e|]; [|split; [apply sameHistory_refl|split; reflexivity]].
  split; [|split; reflexivity]. split; [reflexivity|]. intros id'.
  unfold markRuntimeError. rewrite statusOf_setStatus.
  destruct (decide (id = id')) as [->|]; auto.
Qed.

Section History.
Variable E : Env.

Lemma watcherAdd_svc h path w : svc (snd (watcherAdd E h path w)) = svc w /\ db (snd (watcherAdd E h path w)) = db w.
Proof.
  unfold watcherAdd. destruct (watches (os w) !! h); [|split; reflexivity].
  unfold bind, collaborator. cbn. destruct (fault E (tick (os w))); split; reflexivity.
Qed.

Lemma watchSubdirectories_history id h paths : forall w,
  sameHistory (svc w) (svc (snd (watchSubdirectories E id h paths w))) /\
  db (snd (watchSubdirectories E id h paths w)) = db w.
Proof.
  induction paths as [|p rest IH]; intros w; [split; [apply sameHistory_refl|reflexivity]|].
  cbn [watchSubdirectories]. unfold bind.
  destruct (watcherAdd_svc h p w) as [Hs Hd].
  destruct (watcherAdd E h p w) as [err w1]. cbn in Hs, Hd.
  set (step := match err with Some e => _ | None => _ end).
  assert (H1 : sameHistory (svc w1) (svc (snd (step w1))) /\ db (snd (step w1)) = db w1).
  { subst step. destruct err.
    - destruct (markRuntimeError_history id (Some (Wrapf ("failed to watch subdirectory " +:+ quote p +:+ ": ") e "")) w1) as (? & ? & ?). auto.
    - split; [apply sameHistory_refl|reflexivity]. }
  destruct (step w1) as [[] w2]. cbn in H1. destruct H1 as [H1 Hd1].
  destruct (IH w2) as [H2 Hd2]. split; [|congruence].
  rewrite <- Hs. eapply sameHistory_trans; eassumption.
Qed.

Lemma addWatchedPath_history r root w :
  sameHistory (svc w) (svc (snd (addWatchedPath E r root w))) /\
  db (snd (addWatchedPath E r root w)) = db w.
Proof.
  unfold addWatchedPath.
  destruct (heap (os w) !! r) as [obj|]; [|split; [apply sameHistory_refl|reflexivity]].
  destruct (watcher obj) as [h|]; [|split; [apply sameHistory_refl|reflexivity]].
  unfold bind. destruct (watcherAdd_svc h root w) as [Hs Hd].
  destruct (watcherAdd E h root w) as [[e|] w1]; cbn in Hs, Hd; cbn.
  - rewrite Hs. split; [apply sameHistory_refl|assumption].
  - destruct (Recursive (folder obj)); cbn.
    + destruct (watchSubdirectories_history (ID (folder obj)) h (walkDirs E root) w1) as [H Hd2].
      destruct (watchSubdirectories E (ID (folder obj)) h (walkDirs E root) w1) as [[] w2].
      cbn in *. rewrite <- Hs. split; [assumption|congruence].
    + rewrite Hs. split; [apply sameHistory_refl|assumption].
Qed.

Lemma NewWatcher_frame w :
  svc (snd (NewWatcher E w)) = svc w /\ db (snd (NewWatcher E w)) = db w /\
  heap (os (snd (NewWatcher E w))) = heap (os w).
Proof.
  unfold NewWatcher, bind, collaborator. cbn.
  destruct (fault E (tick (os w))); repeat split.
Qed.

Lemma runnerStart_history r w :
  sameHistory (svc w) (svc (snd (runnerStart E r w))) /\
  db (snd (runnerStart E r w)) = db w.
Proof.
  unfold runnerStart.
  destruct (heap (os w) !! r) as [obj|]; [|split; [apply sameHistory_refl|reflexivity]].
  rewrite bind_run. destruct (NewWatcher_frame w) as (Hs & Hd & _).
  destruct (NewWatcher E w) as [[e|h] w1]; cbn [fst snd] in Hs, Hd |- *.
  - cbn. rewrite Hs. split; [apply sameHistory_refl|assumption].
  - rewrite bind_run. unfold updateRunner, modify. cbn [fst snd]. rewrite bind_run.
    match goal with |- context [addWatchedPath E r ?p ?w0] =>
      destruct (addWatchedPath_history r p w0) as [H Hd2];
      destruct (addWatchedPath E r p w0) as [[e|] w2] end;
      cbn in *; rewrite <- Hs; split; congruence || assumption.
Qed.

End History.

Lemma stopTimers_frame ts : forall w,
  db (snd (stopTimers ts w)) = db w /\ svc (snd (stopTimers ts w)) = svc w /\
  heap (os (snd (stopTimers ts w))) = heap (os w) /\
  watches (os (snd (stopTimers ts w))) = watches (os w).
Proof.
  induction ts as [|t rest IH]; intros w; [repeat split|].
  cbn [stopTimers]. unfold bind, timerStop, modify.
  destruct (IH (onOs (fun o => setTimerTab
      (alter (fun tm => {| timerRunner := timerRunner tm; timerPath := timerPath tm;
                           timerDue := timerDue tm; timerLive := false |}) t (timerTab o)) o) w))
    as (Hd & Hs & Hh & Hw).
  rewrite Hd, Hs, Hh, Hw. repeat split.
Qed.

Lemma runnerStop_frame r w :
  db (snd (runnerStop r w)) = db w /\ svc (snd (runnerStop r w)) = svc w /\
  (forall r', r' <> r -> heap (os (snd (runnerStop r w))) !! r' = heap (os w) !! r').
Proof.
  unfold runnerStop. destruct (heap (os w) !! r) as [obj|]; [|repeat split].
  destruct (stopped obj); [repeat split|].
  rewrite !bind_run. unfold updateRunner, modify. cbn [fst snd].
  match goal with |- context [stopTimers ?ts ?w0] =>
    destruct (stopTimers_frame ts w0) as (Hd & Hs & Hh & Hw);
    destruct (stopTimers ts w0) as [[] w1] end.
  cbn [fst snd] in *. cbn [onOs db svc os setHeap heap].
  rewrite Hd, Hs, Hh.
  split; [|split].
  - destruct (watcher obj); reflexivity.
  - destruct (watcher obj); reflexivity.
  - intros r' Hne. rewrite lookup_alter_ne by congruence.
    destruct (watcher obj); cbn; rewrite lookup_alter_ne by congruence; reflexivity.
Qed.

Lemma runnerStop_effect r obj w :
  heap (os w) !! r = Some obj -> stopped obj = false ->
  heap (os (snd (runnerStop r w))) !! r = Some (setTimers ∅ (setStopped true obj)) /\
  (forall h, watcher obj = Some h ->
     watches (os (snd (runnerStop r w))) = delete h (watches (os w))).
Proof.
  intros Hr Hs. unfold runnerStop. rewrite Hr, Hs.
  rewrite !bind_run. unfold updateRunner, modify. cbn [fst snd].
  match goal with |- context [stopTimers ?ts ?w0] =>
    destruct (stopTimers_frame ts w0) as (_ & _ & Hh & Hw);
    destruct (stopTimers ts w0) as [[] w1] end.
  cbn [fst snd] in *. cbn [onOs db svc os setHeap heap setWatches watches].
  rewrite Hh. split.
  - rewrite lookup_alter_eq. destruct (watcher obj); cbn; rewrite lookup_alter_eq, Hr; reflexivity.
  - intros h Hwh. rewrite Hw, Hwh. reflexivity.
Qed.

Lemma startRunner_present E f w r0 :
  runners (svc w) !! ID f = Some r0 ->
  startRunner E f w = (None, refreshed (ID f) w).
Proof.
  intros Hr0. unfold startRunner, bind, runnerExists. rewrite Hr0.
  rewrite bool_decide_eq_true_2 by eauto. reflexivity.
Qed.


Lemma FindByUserAndID_frame E user id w :
  db (snd (FindByUserAndID E user id w)) = db w /\
  svc (snd (FindByUserAndID E user id w)) = svc w.
Proof.
  unfold FindByUserAndID. rewrite bind_run. unfold collaborator. cbn [fst snd].
  destruct (fault E (tick (os w))); cbn; [auto|].
  destruct (head _); auto.
Qed.

Lemma folderDelete_svc E id w : svc (snd (folderDelete E id w)) = svc w.
Proof.
  unfold folderDelete. rewrite bind_run. unfold collaborator. cbn [fst snd].
  destruct (fault E (tick (os w))); reflexivity.
Qed.

Lemma stopRunner_status id w :
  statusOf (svc (snd (stopRunner id w))) id = withActive false (statusOf (svc w) id) /\
  runners (svc (snd (stopRunner id w))) !! id = None /\
  db (snd (stopRunner id w)) = db w.
Proof.
  unfold stopRunner. rewrite !bind_run. unfold modify. cbn [fst snd].
  match goal with |- context [(match ?x with Some r => runnerStop r | None => ret tt end) ?w0] =>
    assert (H : svc (snd ((match x with Some r => runnerStop r | None => ret tt end) w0)) = svc w0
                /\ db (snd ((match x with Some r => runnerStop r | None => ret tt end) w0)) = db w0)
      by (destruct x as [r|]; [destruct (runnerStop_frame r w0) as (? & ? & ?); auto|auto]);
    destruct H as [Hs Hd]; rewrite Hs, Hd end.
  split; [|split; [|reflexivity]].
  - rewrite statusOf_setStatus. destruct (decide (id = id)); [reflexivity|congruence].
  - cbn. apply lookup_delete_eq.
Qed.

Lemma startRunner_fresh E f w res w' :
  runners (svc w) !! ID f = None ->
  startRunner E f w = (res, w') ->
  db w' = db w /\
  match res with
  | None =>
      statusOf (svc w') (ID f) = restarted (statusOf (svc w) (ID f)) /\
      is_Some (runners (svc w') !! ID f)
  | Some e =>
      statusOf (svc w') (ID f) = startFailed e (statusOf (svc w) (ID f)) /\
      runners (svc w') !! ID f = None
  end.
Proof.
  intros Hnone. unfold startRunner. rewrite bind_run. unfold runnerExists at 1. cbn [fst snd].
  rewrite Hnone. rewrite bool_decide_eq_false_2 by (intros [? ?]; discriminate).
  rewrite bind_run. unfold startRunner_attach. rewrite !bind_run.
  unfold newRunner. rewrite !bind_run. unfold alloc, modify, ret. cbn [fst snd].
  match goal with |- context [runnerStart E ?r ?w0] =>
    destruct (runnerStart_history E r w0) as [[Hrun Hhist] Hdb];
    destruct (runnerStart E r w0) as [[e|] w1] end; cbn [fst snd] in *.
  - cbn in Hrun, Hhist, Hdb. rewrite ?bind_run. unfold ret. cbn [fst snd].
    intros [= <- <-]. split; [exact Hdb|]. split.
    + unfold statusOf at 1. cbn. rewrite lookup_insert_eq. cbn.
      destruct (Hhist (ID f)) as (Ha & Hat & Hfile).
      unfold startFailed, withLastRuntimeError, withActive. cbn. congruence.
    + cbn. congruence.
  - cbn in Hrun, Hhist, Hdb. unfold startRunner_commit. rewrite bind_run.
    unfold runnerExists. cbn [fst snd]. rewrite Hrun, Hnone.
    rewrite bool_decide_eq_false_2 by (intros [? ?]; discriminate).
    rewrite !bind_run. unfold modify, ret. cbn [fst snd].
    intros [= <- <-]. split; [exact Hdb|]. split.
    + unfold statusOf at 1. cbn. rewrite lookup_insert_eq. cbn.
      destruct (Hhist (ID f)) as (Ha & Hat & Hfile).
      fold (statusOf (svc w1) (ID f)).
      unfold restarted, withLastRuntimeError, withActive. cbn.
      change (statusOf (setRunners _ (svc w1)) (ID f)) with (statusOf (svc w1) (ID f)).
      congruence.
    + cbn. rewrite lookup_insert_eq. eauto.
Qed.

(** C6, amended.  A status is created on the first write (a read of an
    absent status yields the zero value and stores nothing), and it is
    gone after [clearStatus], hence after [DeleteUserFolder] on a folder
    of the caller.  Disabling flips [Active] to false and nothing else.
    Enabling again keeps [LastImportedAt] and [LastImportedFile] and
    rewrites the other two fields: a runner that starts sets [Active] and
    empties [LastRuntimeError], one that fails to start leaves [Active]
    false and records its error. *)
Theorem status_lifecycle E :
  (forall id w, statuses (svc w) !! id = None ->
     getStatus id w = (zeroStatus, w) /\
     forall update, statuses (svc (snd (setStatus id update w))) !! id = Some (update zeroStatus)) /\
  (forall id w, statuses (svc (snd (clearStatus id w))) !! id = None) /\
  (forall user id w f, fst (FindByUserAndID E user id w) = inr f ->
     statuses (svc (snd (DeleteUserFolder E user id w))) !! id = None) /\
  (forall id w,
     statusOf (svc (snd (stopRunner id w))) id = withActive false (statusOf (svc w) id)) /\
  (forall f w,
     let old := statusOf (svc w) (ID f) in
     let off := snd (stopRunner (ID f) w) in
     match startRunner E f off with
     | (None, on) => statusOf (svc on) (ID f) = restarted old
     | (Some e, on) => statusOf (svc on) (ID f) = startFailed e old
     end).
Proof.
  split; [|split; [|split; [|split]]].
  - intros id w Hnone. split.
    + unfold getStatus, statusOf. rewrite Hnone. reflexivity.
    + intros update. unfold setStatus, modify, statusOf. cbn. rewrite Hnone. apply lookup_insert_eq.
  - intros id w. cbn. apply lookup_delete_eq.
  - intros user id w f Hfound. unfold DeleteUserFolder. rewrite bind_run, Hfound.
    rewrite !bind_run. rewrite folderDelete_svc. cbn. apply lookup_delete_eq.
  - intros id w. apply stopRunner_status.
  - intros f w old off. destruct (stopRunner_status (ID f) w) as (Hst & Hrun & _).
    fold off in Hst, Hrun.
    destruct (startRunner E f off) as [res on] eqn:Hstart.
    destruct (startRunner_fresh E f off res on Hrun Hstart) as [_ H].
    destruct res as [e|]; destruct H as [H _]; rewrite H, Hst; reflexivity.
Qed.

(** ** Listing folders *)

Lemma insertByPath_perm f l : insertByPath f l ≡ₚ f :: l.
Proof.
  induction l as [|g rest IH]; [reflexivity|]. cbn [insertByPath].
  destruct (String.leb (Path f) (Path g)); [reflexivity|].
  rewrite IH. apply Permutation_swap.
Qed.

Lemma sortByPath_perm l : sortByPath l ≡ₚ l.
Proof.
  induction l as [|f rest IH]; [reflexivity|].
  cbn [sortByPath foldr]. fold (sortByPath rest).
  rewrite insertByPath_perm, IH. reflexivity.
Qed.

Lemma collectViews_map folders w :
  collectViews folders w =
  (map (fun f => mkView f (statusOf (svc w) (ID f))) folders, w).
Proof.
  induction folders as [|f rest IH]; [reflexivity|].
  cbn [collectViews]. unfold bind, getStatus. rewrite IH. reflexivity.
Qed.

(** C7.  When the lookup answers, [ListUserFolders] returns one view per
    folder of the user and no other, in the order of the listing.  Each
    view carries the last runtime error, last import time and last
    imported file of the status stored for the folder in the status map
    (the empty string, no time and the empty string when the map holds
    none), and its [Active] is that of the stored status (false when there
    is none) for an enabled folder, and false for a disabled one whatever
    the map holds. *)
Theorem ListUserFolders_views E userID w :
  fault E (tick (os w)) = None ->
  exists views,
    ListUserFolders E userID w = (inr views, called w) /\
    Folder <$> views = ownedBy userID w /\
    (forall f, f ∈ folderRows (db w) /\ UserID f = userID <->
               exists v, v ∈ views /\ Folder v = f) /\
    (forall v, v ∈ views ->
       match statuses (svc w) !! ID (Folder v) with
       | Some stored =>
           ViewLastRuntimeError v = LastRuntimeError stored /\
           ViewLastImportedAt v = LastImportedAt stored /\
           ViewLastImportedFile v = LastImportedFile stored /\
           (Enabled (Folder v) = true -> ViewActive v = Active stored)
       | None =>
           ViewLastRuntimeError v = EmptyString /\
           ViewLastImportedAt v = None /\
           ViewLastImportedFile v = EmptyString /\
           (Enabled (Folder v) = true -> ViewActive v = false)
       end /\
       (Enabled (Folder v) = false -> ViewActive v = false)).
Proof.
  intros Hok.
  exists (map (fun f => mkView f (statusOf (svc w) (ID f))) (ownedBy userID w)).
  split; [|split; [|split]].
  - unfold ListUserFolders, FindByUser, bind, collaborator. rewrite Hok. cbn.
    rewrite collectViews_map. reflexivity.
  - generalize (ownedBy userID w). intros l.
    induction l as [|g rest IH]; [reflexivity|]. cbn. f_equal. exact IH.
  - intros f. split.
    + intros [Hin Hu]. exists (mkView f (statusOf (svc w) (ID f))). split; [|reflexivity].
      apply list_elem_of_fmap. exists f. split; [reflexivity|].
      unfold ownedBy. rewrite sortByPath_perm. apply list_elem_of_filter. auto.
    + intros (v & Hv & <-). apply list_elem_of_fmap in Hv as (g & -> & Hg).
      unfold ownedBy in Hg. rewrite sortByPath_perm in Hg.
      apply list_elem_of_filter in Hg as [Hu Hin]. cbn. auto.
  - intros v Hv. apply list_elem_of_fmap in Hv as (g & -> & _). cbn. unfold statusOf.
    destruct (statuses (svc w) !! ID g) as [stored|]; destruct (Enabled g); cbn;
      repeat split; congruence.
Qed.

(** ** Creating folders *)

Section Create.
Variable E : Env.

Lemma normalizeFolderPath_pure path w :
  snd (normalizeFolderPath E path w) = w.
Proof.
  unfold normalizeFolderPath. destruct (bool_decide _); [reflexivity|].
  destruct (filepathAbs E _); [reflexivity|].
  rewrite bind_run. unfold osStat. cbn [fst snd].
  destruct (statAt E _ _) as [e|[|] ? ?]; try reflexivity.
  destruct (errorsIs e NotExist); reflexivity.
Qed.

Lemma startRunner_Some f w e w' :
  startRunner E f w = (Some e, w') -> runners (svc w) !! ID f = None.
Proof.
  unfold startRunner. rewrite bind_run. unfold runnerExists at 1. cbn [fst snd].
  destruct (runners (svc w) !! ID f) as [r|]; [|reflexivity].
  rewrite bool_decide_eq_true_2 by eauto. rewrite bind_run. cbn. discriminate.
Qed.

Lemma startRunner_db f w : db (snd (startRunner E f w)) = db w.
Proof.
  destruct (runners (svc w) !! ID f) as [r|] eqn:Hr.
  - rewrite (startRunner_present E f w r Hr). reflexivity.
  - destruct (startRunner E f w) as [res w'] eqn:Hs.
    destruct (startRunner_fresh E f w res w' Hr Hs) as [H _]. exact H.
Qed.

(** C3, amended.  When [CreateUserFolder] is called with [enabled = true]
    and the runner fails to start, the start error is returned, the status
    of the new folder is cleared and no runner is registered for it.  The
    deletion of the row just stored is issued and its own error is dropped:
    when the deletion goes through no row with that identifier is left, and
    when it fails the enabled row stays in storage. *)
Theorem CreateUserFolder_start_failure userID path recursive w p w1 f w2 e w3 :
  fst (normalizeFolderPath E path w) = inr p ->
  FindByUserAndPath E userID p w = (inr None, w1) ->
  folderCreate E {| ID := 0%N; UserID := userID; Path := p;
                    Recursive := recursive; Enabled := true |} w1 = (inr f, w2) ->
  startRunner E f w2 = (Some e, w3) ->
  let result := CreateUserFolder E userID path recursive true w in
  let deleted := folderDelete E (ID f) w3 in
  result = (inl e, snd (clearStatus (ID f) (snd deleted))) /\
  statuses (svc (snd result)) !! ID f = None /\
  runners (svc (snd result)) !! ID f = None /\
  (fst deleted = None ->
     forall g, g ∈ folderRows (db (snd result)) -> ID g <> ID f) /\
  (fst deleted <> None ->
     f ∈ folderRows (db (snd result)) /\ Enabled f = true).
Proof.
  intros Hnorm Hfind Hcreate Hstart result deleted.
  assert (Hen : Enabled f = true /\ f ∈ folderRows (db w2)).
  { revert Hcreate. unfold folderCreate, bind, collaborator. cbn [fst snd].
    destruct (fault E (tick (os w1))); cbn; [discriminate|].
    intros [= <- <-]. split; [reflexivity|]. cbn. apply elem_of_app. right. apply list_elem_of_singleton. reflexivity. }
  destruct Hen as [Hen Hin].
  assert (Hres : result = (inl e, snd (clearStatus (ID f) (snd deleted)))).
  { subst result deleted. unfold CreateUserFolder.
    rewrite bind_run, Hnorm, normalizeFolderPath_pure.
    rewrite bind_run, Hfind. cbn [fst snd].
    rewrite bind_run, Hcreate. cbn [fst snd]. rewrite Hen.
    rewrite bind_run, Hstart. cbn [fst snd]. rewrite !bind_run. reflexivity. }
  pose proof (startRunner_Some f w2 e w3 Hstart) as Hnone.
  destruct (startRunner_fresh E f w2 (Some e) w3 Hnone Hstart) as (Hdb & _ & Hrun).
  split; [exact Hres|]. rewrite Hres. cbn [snd]. subst deleted.
  unfold folderDelete, bind, collaborator, modify, ret. cbn [fst snd].
  destruct (fault E (tick (os w3))) as [m|];
    cbn [fmap option_fmap option_map fst snd clearStatus modify onSvc onDb onOs svc db
         statuses runners setStatuses setFolderRows folderRows].
  - split; [apply lookup_delete_eq|]. split; [exact Hrun|]. split; [discriminate|].
    intros _. rewrite Hdb. auto.
  - split; [apply lookup_delete_eq|]. split; [exact Hrun|]. split; [|congruence].
    intros _ g Hg. apply list_elem_of_filter in Hg as [Hg _]. exact Hg.
Qed.

Lemma watcherAdd_error h path w e :
  fst (watcherAdd E h path w) = Some e -> isSentinel e = false.
Proof.
  unfold watcherAdd. destruct (watches (os w) !! h); [|intros [= <-]; reflexivity].
  unfold bind, collaborator. cbn. destruct (fault E (tick (os w))); cbn; [|discriminate].
  intros [= <-]. reflexivity.
Qed.

Lemma addWatchedPath_error r root w e :
  fst (addWatchedPath E r root w) = Some e -> isSentinel e = false.
Proof.
  unfold addWatchedPath. destruct (heap (os w) !! r) as [obj|]; [|discriminate].
  destruct (watcher obj) as [h|]; [|intros [= <-]; reflexivity].
  rewrite bind_run. destruct (fst (watcherAdd E h root w)) as [e0|].
  - intros [= <-]. reflexivity.
  - destruct (Recursive (folder obj)); cbn; [|discriminate].
    rewrite bind_run. discriminate.
Qed.

Lemma runnerStart_error r w e :
  fst (runnerStart E r w) = Some e -> isSentinel e = false.
Proof.
  unfold runnerStart. destruct (heap (os w) !! r) as [obj|]; [|discriminate].
  rewrite bind_run. destruct (fst (NewWatcher E w)) as [e0|h].
  - intros [= <-]. reflexivity.
  - rewrite !bind_run.
    match goal with |- context [addWatchedPath E r ?p ?w0] =>
      pose proof (addWatchedPath_error r p w0) as Herr;
      destruct (fst (addWatchedPath E r p w0)) as [e1|] end.
    + rewrite bind_run. intros [= <-]. apply Herr. reflexivity.
    + discriminate.
Qed.

Lemma startRunner_error f w e :
  fst (startRunner E f w) = Some e -> isSentinel e = false.
Proof.
  unfold startRunner, bind. destruct (runnerExists (ID f) w) as [[|] w0].
  - cbn. discriminate.
  - unfold startRunner_attach, bind. destruct (newRunner f w0) as [r w1].
    destruct (runnerStart E r w1) as [[e1|] w2] eqn:Hrs.
    + cbn. intros [= <-]. eapply runnerStart_error. rewrite Hrs. reflexivity.
    + unfold ret, startRunner_commit, bind, runnerExists. cbv beta iota zeta.
      destruct (bool_decide (is_Some (runners (svc w2) !! ID f))).
      * destruct (runnerStop r w2). cbn. discriminate.
      * cbn. discriminate.
Qed.

Lemma getFolderView_error userID id w e :
  fst (getFolderView E userID id w) = inl e -> e <> Sentinel FolderAlreadyExists.
Proof.
  unfold getFolderView, FindByUserAndID. rewrite !bind_run. unfold collaborator. cbn [fst snd].
  destruct (fault E (tick (os w))); cbn.
  - intros [= <-]. discriminate.
  - destruct (head _); cbn; [discriminate|]. intros [= <-]. discriminate.
Qed.

Lemma head_filter_Some {A} (P : A -> Prop) `{forall x, Decision (P x)} (l : list A) :
  is_Some (head (filter P l)) <-> exists x, x ∈ l /\ P x.
Proof.
  split.
  - intros [x Hx]. exists x.
    assert (Hin : x ∈ filter P l).
    { destruct (filter P l) as [|y rest]; [discriminate|]. injection Hx as ->. left. }
    apply list_elem_of_filter in Hin. tauto.
  - intros (x & Hin & HP).
    assert (Hf : x ∈ filter P l) by (apply list_elem_of_filter; auto).
    destruct (filter P l) as [|y rest]; [inversion Hf|]. eauto.
Qed.

Lemma filter_none {A} (P : A -> Prop) `{forall x, Decision (P x)} (l : list A) :
  (forall x, x ∈ l -> ~ P x) -> filter P l = [].
Proof.
  induction l as [|a l IH]; intros Hl; [reflexivity|].
  rewrite filter_cons, decide_False by (apply Hl; left).
  apply IH. intros x Hx. apply Hl. right. exact Hx.
Qed.

(** C4.  Given a path that normalizes and a lookup that answers,
    [CreateUserFolder] fails with [ErrFolderAlreadyExists] exactly when the
    same user already has a row with the normalized path.  Rows of other
    users with that path do not stand in the way: when the insert, the
    start of the runner (if enabled) and the final lookup go through, the
    call returns the view of the new folder, which is then in storage. *)
Theorem CreateUserFolder_uniqueness userID path recursive enabled w p :
  fst (normalizeFolderPath E path w) = inr p ->
  fault E (tick (os w)) = None ->
  let f := {| ID := nextFolderID (db w); UserID := userID; Path := p;
              Recursive := recursive; Enabled := enabled |} in
  (fst (CreateUserFolder E userID path recursive enabled w) = inl (Sentinel FolderAlreadyExists)
   <-> exists g, g ∈ folderRows (db w) /\ UserID g = userID /\ Path g = p) /\
  ((forall g, g ∈ folderRows (db w) -> Path g = p -> UserID g <> userID) ->
   (forall g, g ∈ folderRows (db w) -> (ID g < nextFolderID (db w))%N) ->
   fault E (S (tick (os w))) = None ->
   forall w3,
     (if enabled then startRunner E f (stored f w) = (None, w3) else w3 = stored f w) ->
     fault E (tick (os w3)) = None ->
     CreateUserFolder E userID path recursive enabled w =
       (inr (mkView f (statusOf (svc w3) (ID f))), called w3) /\
     f ∈ folderRows (db (called w3))).
Proof.
  intros Hnorm Hlook f.
  assert (Hfind : FindByUserAndPath E userID p w =
            (inr (head (filter (fun g => UserID g = userID /\ Path g = p) (folderRows (db w)))),
             called w)).
  { unfold FindByUserAndPath, bind, collaborator. cbn [fst snd]. rewrite Hlook. reflexivity. }
  assert (Hn : normalizeFolderPath E path w = (inr p, w)).
  { rewrite (surjective_pairing (normalizeFolderPath E path w)), Hnorm, normalizeFolderPath_pure.
    reflexivity. }
  split.
  - unfold CreateUserFolder, bind. rewrite Hn, Hfind.
    rewrite <- (head_filter_Some (fun g => UserID g = userID /\ Path g = p)).
    destruct (head _) as [g|]; [split; eauto|].
    split; [|intros [? [=]]]. intros Hres. exfalso. revert Hres.
    destruct (folderCreate E _ (called w)) as [[e|f'] w2] eqn:Hc.
    + revert Hc. unfold folderCreate, bind, collaborator. cbn [fst snd].
      unfold ret. destruct (fault E (tick (os (called w)))); cbn.
      * intros H1 H2. inversion H1; subst. discriminate.
      * discriminate.
    + destruct (Enabled f').
      * destruct (startRunner E f' w2) as [[e|] w3] eqn:Hs.
        -- destruct (folderDelete E (ID f') w3) as [? w4]. unfold ret. cbn. intros [= ->].
           pose proof (startRunner_error f' w2 _ ltac:(rewrite Hs; reflexivity)). discriminate.
        -- intros Hv. eapply getFolderView_error; [exact Hv|reflexivity].
      * intros Hv. eapply getFolderView_error; [exact Hv|reflexivity].
  - intros Hother Hwf Hcreate w3 Hstart Hview.
    assert (Hmk : folderCreate E {| ID := 0%N; UserID := userID; Path := p;
                    Recursive := recursive; Enabled := enabled |} (called w) = (inr f, stored f w)).
    { unfold folderCreate, bind, collaborator. cbn [fst snd called onOs os tick setTick].
      rewrite Hcreate. reflexivity. }
    assert (Hnone : head (filter (fun g => UserID g = userID /\ Path g = p) (folderRows (db w))) = None).
    { destruct (head _) as [g|] eqn:Hh; [exfalso|reflexivity].
      destruct (proj1 (head_filter_Some (fun g => UserID g = userID /\ Path g = p) (folderRows (db w))))
        as (x & Hin & Hu & Hp); [rewrite Hh; eauto|].
      exact (Hother x Hin Hp Hu). }
    assert (Hdb3 : db w3 = db (stored f w)).
    { destruct enabled; [|congruence].
      pose proof (startRunner_db f (stored f w)) as H. rewrite Hstart in H. exact H. }
    assert (Hrows : head (filter (fun g => ID g = ID f /\ UserID g = userID) (folderRows (db w3))) = Some f).
    { rewrite Hdb3. cbn [stored onDb db setFolderRows folderRows called onOs].
      rewrite filter_app.
      assert (Hnil : filter (fun g => ID g = ID f /\ UserID g = userID) (folderRows (db w)) = []).
      { apply filter_none. intros g Hin [Hid _]. specialize (Hwf g Hin).
        cbn in Hid. lia. }
      rewrite Hnil. cbn. rewrite decide_True by (split; reflexivity). reflexivity. }
    assert (Hget : getFolderView E userID (ID f) w3 =
              (inr (mkView f (statusOf (svc w3) (ID f))), called w3)).
    { unfold getFolderView, FindByUserAndID, bind, collaborator. cbn [fst snd].
      rewrite Hview. cbn [fmap option_fmap option_map]. unfold ret.
      cbn [called onOs db]. rewrite Hrows. reflexivity. }
    split.
    + unfold CreateUserFolder, bind. rewrite Hn, Hfind, Hnone, Hmk.
      destruct enabled; cbn [Enabled f].
      * rewrite Hstart. exact Hget.
      * subst w3. exact Hget.
    + cbn [called onOs db]. rewrite Hdb3. cbn. apply elem_of_app. right. left.
Qed.

End Create.

(** ** Candidates and imports *)

Lemma waitForStableFile_clock E path w :
  snd (waitForStableFile E path w) = atTime (clock (os (snd (waitForStableFile E path w)))) w.
Proof.
  rewrite waitForStableFile_run.
  destruct (firstDecisive _ _ _); reflexivity.
Qed.

(** C2.  When the signature of the settled file is the one the runner
    holds as imported for the path, [processCandidate] returns at once: no
    call of [importFile] is recorded, storage (so every job record) and the
    service are as before, the runner objects are as before, and the world
    differs from the initial one by the clock alone. *)
Theorem processCandidate_skips_imported E r obj path w signature w1 :
  heap (os w) !! r = Some obj ->
  waitForStableFile E path w = (inr signature, w1) ->
  imported obj !! path = Some signature ->
  processCandidate E r path w = (tt, w1) /\
  importCalls (os w1) = importCalls (os w) /\
  db w1 = db w /\
  svc w1 = svc w /\
  heap (os w1) = heap (os w) /\
  w1 = atTime (clock (os w1)) w.
Proof.
  intros Hr Hstable Hseen.
  pose proof (waitForStableFile_clock E path w) as Hclock.
  rewrite Hstable in Hclock. cbn [snd] in Hclock.
  split.
  - unfold processCandidate. rewrite Hr, bind_run, Hstable. cbn [fst snd].
    rewrite bind_run. unfold wasImported at 1 2.
    rewrite Hclock. cbn [atTime onOs os heap setClock]. rewrite Hr, Hseen.
    rewrite bool_decide_eq_true_2 by reflexivity. reflexivity.
  - rewrite Hclock. repeat split.
Qed.

Section Importer.
Variable E : Env.

(** C10, amended.  When [importFile] has copied the source into the
    upload directory and the creation of the job record fails, it returns
    the wrapped error of the creation, storage holds no new job record, and
    the removal of the copy is issued with its own error dropped: when the
    removal goes through, the destination path is free again and managed
    storage holds nothing new but the upload directory; when it fails, the
    copy stays at the destination. *)
Theorem importFile_removes_copy userID src w size modUnix content msg :
  let dest := Join E (UploadDir E) (uuidAt E (tick (os w)) +:+ ToLower E (Ext src)) in
  statAt E (clock (os w)) src = StatInfo false size modUnix ->
  isWatchableAudioFile E src = true ->
  (forall c, upfs (os w) !! UploadDir E <> Some (NFile c)) ->
  readAt E (clock (os w)) src = ReadAll content ->
  dest <> UploadDir E ->
  upfs (os w) !! dest = None ->
  fault E (S (tick (os w))) = Some msg ->
  (fst (copyFile E src dest (readyToCopy E userID src w)) = None /\
   upfs (os (snd (copyFile E src dest (readyToCopy E userID src w)))) !! dest
     = Some (NFile content)) /\
  fst (importFile E userID src w) =
    Some (Wrapf "failed to create transcription job: " (Opaque msg) "") /\
  db (snd (importFile E userID src w)) = db w /\
  (fault E (S (S (tick (os w)))) = None ->
   upfs (os (snd (importFile E userID src w))) !! dest = None /\
   upfs (os (snd (importFile E userID src w))) = <[UploadDir E := NDir]> (upfs (os w))) /\
  (fault E (S (S (tick (os w)))) <> None ->
   upfs (os (snd (importFile E userID src w))) !! dest = Some (NFile content)).
Proof.
  intros dest Hstat Hext Hdir Hread Hne Hfresh Hfail.
  assert (Hmk : osMkdirAll (UploadDir E) (logged userID src w) =
                (None, onOs (fun h => setUpfs (<[UploadDir E := NDir]> (upfs h)) h)
                            (logged userID src w))).
  { unfold osMkdirAll. cbn [logged onOs os upfs setImportCalls].
    destruct (upfs (os w) !! UploadDir E) as [[|c]|] eqn:Hu; try reflexivity.
    exfalso. exact (Hdir c eq_refl). }
  assert (Hcopy : copyFile E src dest (readyToCopy E userID src w) =
                  (None, snd (writeFile dest content (readyToCopy E userID src w)))).
  { unfold copyFile. unfold readyToCopy. cbn [onOs os clock setTick setUpfs upfs logged setImportCalls].
    rewrite Hread. rewrite lookup_insert_ne by congruence. rewrite Hfresh. reflexivity. }
  set (copied := snd (writeFile dest content (readyToCopy E userID src w))).
  assert (Hrun : importFile E userID src w =
    (Some (Wrapf "failed to create transcription job: " (Opaque msg) ""),
     snd (osRemove E dest (called copied)))).
  { unfold importFile, bind, modify, osStat. cbn [fst snd].
    fold (logged userID src w). cbn [logged onOs os clock setImportCalls].
    rewrite Hstat, Hext. cbn [negb]. fold (logged userID src w). rewrite Hmk.
    unfold uuidNew. cbn [onOs os tick setUpfs logged setImportCalls]. fold dest.
    change (onOs (fun h => setTick (S (tick h)) h)
              (onOs (fun h => setUpfs (<[UploadDir E:=NDir]> (upfs h)) h)
                 (logged userID src w)))
      with (readyToCopy E userID src w).
    rewrite Hcopy. fold copied. unfold jobCreate, bind, collaborator.
    change (tick (os copied)) with (S (tick (os w))).
    rewrite Hfail. cbn [fmap option_fmap option_map]. unfold ret.
    fold (called copied). destruct (osRemove E dest (called copied)) as [gone w'].
    reflexivity. }
  assert (Hthere : upfs (os (called copied)) !! dest = Some (NFile content)).
  { cbn. apply lookup_insert_eq. }
  split.
  { rewrite Hcopy. split; [reflexivity|]. cbn. apply lookup_insert_eq. }
  rewrite Hrun. cbn [fst snd]. split; [reflexivity|].
  unfold osRemove. rewrite Hthere. unfold bind, collaborator.
  change (tick (os (called copied))) with (S (S (tick (os w)))).
  destruct (fault E (S (S (tick (os w))))) as [msg2|]; cbn [fmap option_fmap option_map].
  - cbn. split; [reflexivity|]. split; [discriminate|].
    intros _. apply lookup_insert_eq.
  - split; [reflexivity|]. split; [|intros H; congruence].
    intros _. cbn. rewrite lookup_delete_eq. split; [reflexivity|].
    rewrite delete_insert_eq.
    apply delete_id. rewrite lookup_insert_ne by congruence. exact Hfresh.
Qed.
End Importer.

Section Queue.
Variable E : Env.

(** C8, amended.  When auto-transcription reaches the queue (the user has
    it enabled, a profile was selected, the job was stored as pending) and
    the queue refuses the job, the job in memory goes back to "uploaded",
    nothing is added to the queue, and the job is stored once more with
    the error of that store dropped: when the store goes through, the
    record is "uploaded"; when it fails, the record stays "pending". *)
Theorem enqueue_failure_reverts userID user job profile w w1 w2 msg :
  userFindByID E userID w = (inr user, w1) ->
  AutoTranscriptionEnabled user = true ->
  selectProfile E user w1 = (Some profile, w2) ->
  fault E (tick (os w2)) = None ->
  fault E (S (tick (os w2))) = Some msg ->
  let pending := withProfile StatusPending profile job in
  let reverted := withProfile StatusUploaded profile job in
  let result := maybeQueueAutoTranscription E userID job w in
  result = queueWithProfile E profile job w2 /\
  fst result = reverted /\
  Status (fst result) = StatusUploaded /\
  queue (db (snd result)) = queue (db w2) /\
  (fault E (S (S (tick (os w2)))) = None ->
     jobRows (db (snd result)) !! JobID job = Some reverted) /\
  (forall m, fault E (S (S (tick (os w2)))) = Some m ->
     jobRows (db (snd result)) !! JobID job = Some pending).
Proof.
  intros Huser Hauto Hprofile Hupdate Hqueue pending reverted result.
  assert (Hwire : result = queueWithProfile E profile job w2).
  { subst result. unfold maybeQueueAutoTranscription.
    rewrite bind_run, Huser. cbn [fst snd]. rewrite Hauto. cbn [negb].
    rewrite bind_run, Hprofile. reflexivity. }
  split; [exact Hwire|]. rewrite Hwire.
  unfold queueWithProfile, jobUpdate, EnqueueJob, bind, collaborator, modify, ret.
  cbn [fst snd onDb onOs os db tick setTick setJobRows]. rewrite Hupdate.
  cbn [fmap option_fmap option_map fst snd onDb onOs os db tick setTick setJobRows].
  rewrite Hqueue.
  cbn [fmap option_fmap option_map fst snd onDb onOs os db tick setTick setJobRows].
  fold pending reverted.
  destruct (fault E (S (S (tick (os w2))))) as [m|] eqn:Hrevert;
    cbn [fmap option_fmap option_map fst snd onDb onOs os db tick setTick setJobRows
         jobRows queue withProfile Status JobID].
  - repeat split; try discriminate.
    intros m' _. apply lookup_insert_eq.
  - repeat split; try discriminate.
    intros _. apply lookup_insert_eq.
Qed.
End Queue.

(** * The statements on the scenarios *)


Lemma processCandidate_skips_imported_witness :
  processCandidate quietEnv 0%nat song importedWorld
  = (tt, atTime (6 * second) importedWorld).
Proof.
  refine (proj1 (processCandidate_skips_imported quietEnv 0%nat
                   (setImported {[ song := songSignature ]} musicRunner) song importedWorld
                   songSignature (atTime (6 * second) importedWorld) _ _ _));
    vm_compute; reflexivity.
Defined.

Lemma CreateUserFolder_start_failure_witness :
  CreateUserFolder noWatcherEnv 7%N musicDir false true emptyWorld
  = (inl (watcherError "too many open files"),
     snd (clearStatus 1%N
            (snd (folderDelete noWatcherEnv 1%N
                    (snd (startRunner noWatcherEnv musicFolder (stored musicFolder emptyWorld))))))).
Proof.
  refine (proj1 (CreateUserFolder_start_failure noWatcherEnv 7%N musicDir false emptyWorld
                   musicDir (called emptyWorld) musicFolder (stored musicFolder emptyWorld)
                   (watcherError "too many open files")
                   (snd (startRunner noWatcherEnv musicFolder (stored musicFolder emptyWorld)))
                   _ _ _ _));
    vm_compute; reflexivity.
Defined.

(** C3, as stated, fails: the runner cannot start and the deletion of the
    row fails as well; the call returns the start error and the enabled
    row stays in storage, with no runner registered for it. *)
Lemma CreateUserFolder_rollback_can_fail :
  ~ startFailureDeletesFolder noWatcherNoDeleteEnv 7%N musicDir false emptyWorld /\
  (let result := CreateUserFolder noWatcherNoDeleteEnv 7%N musicDir false true emptyWorld in
   fst result = inl (watcherError "context canceled") /\
   folderRows (db (snd result)) = [musicFolder] /\
   Enabled musicFolder = true /\
   runners (svc (snd result)) !! ID musicFolder = None /\
   watches (os (snd result)) = ∅).
Proof.
  split.
  - intros H.
    destruct (H musicDir (called emptyWorld) musicFolder (stored musicFolder emptyWorld)
                (watcherError "context canceled")
                (snd (startRunner noWatcherNoDeleteEnv musicFolder (stored musicFolder emptyWorld))))
      as (_ & _ & Hgone); try (vm_compute; reflexivity).
    apply Hgone. vm_compute. left.
  - vm_compute. repeat split.
Qed.

Lemma CreateUserFolder_uniqueness_witness :
  CreateUserFolder quietEnv 7%N musicDir false false neighbourWorld
  = (inr (mkView {| ID := 2; UserID := 7; Path := musicDir;
                    Recursive := false; Enabled := false |} zeroStatus),
     called (stored {| ID := 2; UserID := 7; Path := musicDir;
                       Recursive := false; Enabled := false |} neighbourWorld)).
Proof.
  refine (proj1 (proj2 (CreateUserFolder_uniqueness quietEnv 7%N musicDir false false
                          neighbourWorld musicDir _ _) _ _ _
                   (stored {| ID := 2; UserID := 7; Path := musicDir;
                              Recursive := false; Enabled := false |} neighbourWorld) _ _)).
  - vm_compute. reflexivity.
  - reflexivity.
  - intros g Hg _. vm_compute in Hg. apply list_elem_of_singleton in Hg. subst g. discriminate.
  - intros g Hg. vm_compute in Hg. apply list_elem_of_singleton in Hg. subst g. reflexivity.
  - reflexivity.
  - reflexivity.
  - reflexivity.
Defined.


Lemma status_lifecycle_witness :
  statuses (svc (snd (DeleteUserFolder quietEnv 7%N 1%N troubledWorld))) !! 1%N = None /\
  statusOf (svc (snd (stopRunner 1%N troubledWorld))) 1%N
  = withActive false (statusOf (svc troubledWorld) 1%N).
Proof.
  split.
  - refine (proj1 (proj2 (proj2 (status_lifecycle quietEnv))) 7%N 1%N troubledWorld musicFolder _).
    vm_compute. reflexivity.
  - exact (proj1 (proj2 (proj2 (proj2 (status_lifecycle quietEnv)))) 1%N troubledWorld).
Defined.

(** C6, as stated, fails: a folder whose status holds a runtime error is
    disabled and enabled again, both calls succeed, and the error is gone. *)
Lemma toggle_clears_runtime_error :
  ~ toggleFlipsOnlyActive quietEnv 7%N 1%N troubledWorld /\
  (let off := SetUserFolderEnabled quietEnv 7%N 1%N false troubledWorld in
   let on := SetUserFolderEnabled quietEnv 7%N 1%N true (snd off) in
   LastRuntimeError (statusOf (svc troubledWorld) 1%N) = "watcher error: queue overflow" /\
   LastRuntimeError (statusOf (svc (snd on)) 1%N) = EmptyString).
Proof.
  split.
  - intros H.
    edestruct H as (Herr & _); [vm_compute; reflexivity|vm_compute; reflexivity|].
    vm_compute in Herr. discriminate.
  - vm_compute. split; reflexivity.
Qed.

Lemma ListUserFolders_views_witness :
  UserID <$> folderRows (db crowdedWorld) = [7%N; 8%N] /\
  Active <$> statuses (svc crowdedWorld) !! 1%N = Some true /\
  exists views,
    ListUserFolders quietEnv 7%N crowdedWorld = (inr views, called crowdedWorld) /\
    Folder <$> views = [withEnabled false musicFolder] /\
    forall v, v ∈ views ->
      ViewActive v = false /\
      ViewLastRuntimeError v = "watcher error: queue overflow" /\
      ViewLastImportedAt v = None.
Proof.
  split; [vm_compute; reflexivity|]. split; [vm_compute; reflexivity|].
  destruct (ListUserFolders_views quietEnv 7%N crowdedWorld eq_refl)
    as (views & Hrun & Horder & _ & Hfields).
  assert (Howned : ownedBy 7%N crowdedWorld = [withEnabled false musicFolder])
    by (vm_compute; reflexivity).
  rewrite Howned in Horder.
  exists views. split; [exact Hrun|]. split; [exact Horder|].
  intros v Hv.
  assert (Hfolder : Folder v = withEnabled false musicFolder).
  { assert (Hin : Folder v ∈ Folder <$> views) by (apply list_elem_of_fmap; eauto).
    rewrite Horder in Hin. apply list_elem_of_singleton in Hin. exact Hin. }
  destruct (Hfields v Hv) as [Hstored Hoff]. rewrite Hfolder in Hstored, Hoff.
  assert (Hstatus : statuses (svc crowdedWorld) !! ID (withEnabled false musicFolder)
                    = Some {| Active := true;
                              LastRuntimeError := "watcher error: queue overflow";
                              LastImportedAt := None; LastImportedFile := EmptyString |})
    by (vm_compute; reflexivity).
  rewrite Hstatus in Hstored. destruct Hstored as (Herr & Hat & _ & _).
  split; [apply Hoff; reflexivity|]. split; [exact Herr|exact Hat].
Defined.

Lemma enqueue_failure_reverts_witness :
  jobRows (db (snd (maybeQueueAutoTranscription queueFullEnv 7%N sampleJob jobWorld)))
    !! JobID sampleJob
  = Some (withProfile StatusUploaded defaultProfile sampleJob).
Proof.
  refine (proj1 (proj2 (proj2 (proj2 (proj2
            (enqueue_failure_reverts queueFullEnv 7%N
               {| AutoTranscriptionEnabled := true; DefaultProfileID := None |}
               sampleJob defaultProfile jobWorld (called jobWorld) (called (called jobWorld))
               "queue full" _ _ _ _ _))))) _);
    vm_compute; reflexivity.
Defined.

(** C8, as stated, fails: the queue refuses the job and the store that
    should set the record back fails as well; the record stays "pending"
    and the queue holds no entry for it. *)
Lemma pending_without_queue_entry :
  ~ enqueueFailureIsStored queueFullNoStoreEnv 7%N sampleJob jobWorld /\
  (let after := snd (maybeQueueAutoTranscription queueFullNoStoreEnv 7%N sampleJob jobWorld) in
   Status <$> jobRows (db after) !! JobID sampleJob = Some StatusPending /\
   queue (db after) = []).
Proof.
  split.
  - intros H.
    specialize (H {| AutoTranscriptionEnabled := true; DefaultProfileID := None |}
                  (called jobWorld) defaultProfile (called (called jobWorld))
                  "context deadline exceeded").
    vm_compute in H. discriminate H; reflexivity.
  - vm_compute. split; reflexivity.
Qed.


Lemma importFile_removes_copy_witness :
  fst (importFile noJobEnv 7%N song emptyWorld)
    = Some (Wrapf "failed to create transcription job: " (Opaque "database is locked") "") /\
  upfs (os (snd (importFile noJobEnv 7%N song emptyWorld))) !! "/data/uploads/job-0.mp3" = None /\
  upfs (os (snd (importFile noJobNoRemoveEnv 7%N song emptyWorld))) !! "/data/uploads/job-0.mp3"
    = Some (NFile "RIFF").
Proof.
  refine ((fun H H' => conj (proj1 (proj2 H))
                         (conj (proj1 (proj1 (proj2 (proj2 (proj2 H))) eq_refl))
                               (proj2 (proj2 (proj2 (proj2 H'))) _)))
            (importFile_removes_copy noJobEnv 7%N song emptyWorld 1024 500 "RIFF"
               "database is locked" _ _ _ _ _ _ _)
            (importFile_removes_copy noJobNoRemoveEnv 7%N song emptyWorld 1024 500 "RIFF"
               "database is locked" _ _ _ _ _ _ _)).
  all: try (vm_compute; reflexivity).
  all: try (vm_compute; discriminate).
  all: intros c; vm_compute; discriminate.
Defined.

(** C10, as stated, fails: the job record cannot be created and the
    removal of the copy fails as well; the call returns the error of the
    creation, no job record is stored, and the copy stays in the upload
    directory. *)
Lemma orphan_copy_remains :
  ~ failedCreateLeavesNoCopy noJobNoRemoveEnv 7%N song emptyWorld /\
  (let result := importFile noJobNoRemoveEnv 7%N song emptyWorld in
   fst result
     = Some (Wrapf "failed to create transcription job: " (Opaque "database is locked") "") /\
   upfs (os (snd result)) !! "/data/uploads/job-0.mp3" = Some (NFile "RIFF") /\
   jobRows (db (snd result)) = ∅).
Proof.
  split.
  - intros H.
    assert (Hgone := proj1 (H 1024 500 "RIFF" "database is locked"
                              ltac:(reflexivity) ltac:(vm_compute; reflexivity)
                              ltac:(intros c; vm_compute; discriminate)
                              ltac:(reflexivity) ltac:(vm_compute; discriminate)
                              ltac:(vm_compute; reflexivity) ltac:(reflexivity))).
    vm_compute in Hgone. discriminate Hgone.
  - vm_compute. repeat split.
Qed.

(** * Further properties of the code *)

(** ** Stopping runners and debouncing *)

Lemma stopTimers_tab ts : forall w t,
  timerTab (os (snd (stopTimers ts w))) !! t =
  if decide (t ∈ ts) then cancelled <$> timerTab (os w) !! t else timerTab (os w) !! t.
Proof.
  induction ts as [|t0 rest IH]; intros w t.
  - cbn. rewrite decide_False by apply not_elem_of_nil. reflexivity.
  - cbn [stopTimers]. unfold bind, timerStop, modify. rewrite IH.
    cbn [onOs os timerTab setTimerTab]. fold cancelled.
    destruct (decide (t ∈ t0 :: rest)) as [Hin|Hout];
      destruct (decide (t ∈ rest)) as [Hin'|Hout'].
    + destruct (decide (t = t0)) as [->|Hne].
      * rewrite lookup_alter_eq. destruct (timerTab (os w) !! t0); reflexivity.
      * rewrite lookup_alter_ne by congruence. reflexivity.
    + apply elem_of_cons in Hin as [->|?]; [|tauto].
      rewrite lookup_alter_eq. reflexivity.
    + exfalso. apply Hout, elem_of_cons. auto.
    + rewrite lookup_alter_ne; [reflexivity|].
      intros ->. apply Hout, elem_of_cons. auto.
Qed.

Lemma runnerStop_tab r obj w t :
  heap (os w) !! r = Some obj -> stopped obj = false ->
  timerTab (os (snd (runnerStop r w))) !! t =
  if decide (t ∈ (snd <$> map_to_list (timers obj)))
  then cancelled <$> timerTab (os w) !! t else timerTab (os w) !! t.
Proof.
  intros Hr Hs. unfold runnerStop. rewrite Hr, Hs.
  rewrite !bind_run. unfold updateRunner, modify. cbn [fst snd].
  match goal with |- context [stopTimers ?ts ?w0] =>
    pose proof (stopTimers_tab ts w0 t) as Htab;
    destruct (stopTimers ts w0) as [[] w1] end.
  cbn [fst snd] in *. cbn [onOs os timerTab setHeap].
  rewrite Htab. destruct (watcher obj); reflexivity.
Qed.

(** X1.  [folderRunner.stop] can be called again: on a runner
    that was stopped (or on an address that holds no runner) it changes
    nothing. *)
Theorem runnerStop_twice r w :
  runnerStop r (snd (runnerStop r w)) = (tt, snd (runnerStop r w)).
Proof.
  destruct (heap (os w) !! r) as [obj|] eqn:Hr.
  - destruct (stopped obj) eqn:Hs.
    + unfold runnerStop at 2 3. rewrite Hr, Hs. cbn [snd].
      unfold runnerStop. rewrite Hr, Hs. reflexivity.
    + destruct (runnerStop_effect r obj w Hr Hs) as [Hobj _].
      unfold runnerStop at 1. rewrite Hobj. reflexivity.
  - unfold runnerStop at 2 3. rewrite Hr. cbn [snd]. unfold runnerStop. rewrite Hr. reflexivity.
Qed.

(** X2.  Stopping a runner cancels its pending imports: every timer
    the runner holds is stopped and so never runs its callback, whatever
    the time, and the runner is left stopped with an empty timer map. *)
Theorem runnerStop_cancels_timers E r obj w path t tm :
  heap (os w) !! r = Some obj ->
  stopped obj = false ->
  timers obj !! path = Some t ->
  timerTab (os w) !! t = Some tm ->
  let w' := snd (runnerStop r w) in
  timerTab (os w') !! t = Some (cancelled tm) /\
  (forall now, fireTimer E t (atTime now w') = (tt, atTime now w')) /\
  (exists obj', heap (os w') !! r = Some obj' /\ timers obj' = ∅ /\ stopped obj' = true).
Proof.
  intros Hr Hs Hpath Htm w'.
  assert (Hin : t ∈ (snd <$> map_to_list (timers obj))).
  { apply list_elem_of_fmap. exists (path, t). split; [reflexivity|].
    apply elem_of_map_to_list. exact Hpath. }
  assert (Htab : timerTab (os w') !! t = Some (cancelled tm)).
  { subst w'. rewrite (runnerStop_tab r obj w t Hr Hs), decide_True by exact Hin.
    rewrite Htm. reflexivity. }
  split; [exact Htab|]. split.
  - intros now. unfold fireTimer. cbn [atTime onOs os timerTab setClock].
    rewrite Htab. reflexivity.
  - destruct (runnerStop_effect r obj w Hr Hs) as [Hobj _].
    eexists. split; [exact Hobj|]. split; reflexivity.
Qed.

(** X3.  Two events for the same path before the delay has passed
    lead to one import: the second [scheduleImport] stops the timer of the
    first, which can no longer fire, and leaves the runner waiting on a new
    timer, which does nothing before it is due, [fileDebounceDelay] after
    the second event. *)
Theorem scheduleImport_coalesces E r obj path w :
  heap (os w) !! r = Some obj ->
  let t1 := nextAddr (os w) in
  let t2 := S t1 in
  let w1 := snd (scheduleImport r path w) in
  let w2 := snd (scheduleImport r path w1) in
  timerTab (os w1) !! t1 = Some (debounced r path (clock (os w))) /\
  timerTab (os w2) !! t1 = Some (cancelled (debounced r path (clock (os w)))) /\
  timerTab (os w2) !! t2 = Some (debounced r path (clock (os w1))) /\
  (exists obj2, heap (os w2) !! r = Some obj2 /\ timers obj2 !! path = Some t2) /\
  (forall now, fireTimer E t1 (atTime now w2) = (tt, atTime now w2)) /\
  (forall now, now < clock (os w1) + fileDebounceDelay ->
     fireTimer E t2 (atTime now w2) = (tt, atTime now w2)).
Proof.
  intros Hr t1 t2 w1 w2.
  assert (H1 : heap (os w1) !! r = Some (setTimers (<[path := t1]> (timers obj)) obj) /\
               timerTab (os w1) !! t1 = Some (debounced r path (clock (os w))) /\
               nextAddr (os w1) = t2 /\ clock (os w1) = clock (os w)).
  { subst w1. unfold scheduleImport. rewrite Hr.
    destruct (timers obj !! path) as [old|]; cbn.
    - rewrite lookup_alter_eq, Hr, lookup_insert_eq. auto.
    - rewrite lookup_alter_eq, Hr, lookup_insert_eq. auto. }
  destruct H1 as (Hobj1 & Htab1 & Hnext & Hclock).
  assert (H2 : timerTab (os w2) !! t1 = Some (cancelled (debounced r path (clock (os w)))) /\
               timerTab (os w2) !! t2 = Some (debounced r path (clock (os w1))) /\
               exists obj2, heap (os w2) !! r = Some obj2 /\ timers obj2 !! path = Some t2).
  { subst w2. unfold scheduleImport. rewrite Hobj1.
    cbn [timers setTimers]. rewrite lookup_insert_eq.
    cbn. rewrite Hnext.
    rewrite lookup_insert_ne by (subst t2; lia). rewrite lookup_alter_eq, Htab1.
    rewrite lookup_insert_eq. rewrite lookup_alter_eq, Hobj1.
    split; [reflexivity|]. split; [reflexivity|].
    eexists. split; [reflexivity|]. cbn. apply lookup_insert_eq. }
  destruct H2 as (Hdead & Hlive & Hobj2).
  repeat split; try assumption.
  - intros now. unfold fireTimer. cbn [atTime onOs os timerTab setClock]. rewrite Hdead. reflexivity.
  - intros now Hnow. unfold fireTimer. cbn [atTime onOs os timerTab setClock clock]. rewrite Hlive.
    cbn [debounced timerLive timerDue negb orb].
    destruct (now <? clock (os w1) + fileDebounceDelay) eqn:Hlt; [reflexivity|lia].
Qed.

(** ** What the importer leaves alone, and candidates *)

Lemma sameRuntime_refl w : sameRuntime w w.
Proof. repeat split. Qed.

Lemma sameRuntime_trans w1 w2 w3 : sameRuntime w1 w2 -> sameRuntime w2 w3 -> sameRuntime w1 w3.
Proof. unfold sameRuntime. intros (?&?&?&?&?) (?&?&?&?&?). repeat split; congruence. Qed.

Lemma keeps_ret {A} (a : A) : keepsRuntime (ret a).
Proof. intros w. apply sameRuntime_refl. Qed.

Lemma keeps_bind {A B} (m : M A) (k : A -> M B) :
  keepsRuntime m -> (forall a, keepsRuntime (k a)) -> keepsRuntime (bind m k).
Proof.
  intros Hm Hk w. rewrite bind_run. eapply sameRuntime_trans; [apply Hm|apply Hk].
Qed.

Lemma keeps_onDb f : keepsRuntime (modify (onDb f)).
Proof. intros w. repeat split. Qed.

Lemma keeps_collaborator E : keepsRuntime (collaborator E).
Proof. intros w. repeat split. Qed.

Lemma keeps_uuidNew E : keepsRuntime (uuidNew E).
Proof. intros w. repeat split. Qed.

Lemma keeps_osStat E p : keepsRuntime (osStat E p).
Proof. intros w. repeat split. Qed.

Lemma keeps_osMkdirAll p : keepsRuntime (osMkdirAll p).
Proof. intros w. unfold osMkdirAll. destruct (upfs (os w) !! p) as [[|]|]; repeat split. Qed.

Lemma keeps_osRemove E p : keepsRuntime (osRemove E p).
Proof.
  intros w. unfold osRemove. destruct (upfs (os w) !! p); [|repeat split].
  unfold bind, collaborator. destruct (fault E (tick (os w))); repeat split.
Qed.

Lemma keeps_copyFile E src dst : keepsRuntime (copyFile E src dst).
Proof.
  intros w. unfold copyFile.
  destruct (readAt E (clock (os w)) src); [repeat split| |];
    destruct (upfs (os w) !! dst) as [[|]|]; repeat split.
Qed.

Ltac keeps :=
  repeat first
    [ apply keeps_ret | apply keeps_onDb | apply keeps_collaborator | apply keeps_uuidNew
    | apply keeps_osStat | apply keeps_osMkdirAll | apply keeps_osRemove | apply keeps_copyFile
    | apply keeps_bind; [|intros ?]
    | match goal with |- keepsRuntime (match ?x with _ => _ end) => destruct x end
    | match goal with |- keepsRuntime (if ?x then _ else _) => destruct x end ].

Lemma keeps_jobUpdate E j : keepsRuntime (jobUpdate E j).
Proof. unfold jobUpdate. keeps. Qed.

Lemma keeps_jobCreate E j : keepsRuntime (jobCreate E j).
Proof. unfold jobCreate. keeps. Qed.

Lemma keeps_EnqueueJob E j : keepsRuntime (EnqueueJob E j).
Proof. unfold EnqueueJob. keeps. Qed.

Lemma keeps_selectProfile E u : keepsRuntime (selectProfile E u).
Proof. unfold selectProfile, profileFindByID, profileFindDefault, profileList. keeps. Qed.

Lemma keeps_maybeQueue E user job : keepsRuntime (maybeQueueAutoTranscription E user job).
Proof.
  unfold maybeQueueAutoTranscription, userFindByID, queueWithProfile.
  keeps; try apply keeps_selectProfile; try apply keeps_jobUpdate; try apply keeps_EnqueueJob; keeps;
  try apply keeps_jobUpdate; keeps.
Qed.

Lemma keeps_importFile E user src : keepsRuntime (importFile E user src).
Proof.
  unfold importFile. apply keeps_bind; [intros w; repeat split|intros _].
  keeps; try apply keeps_jobCreate; try apply keeps_maybeQueue; keeps.
Qed.

Lemma waitForStableFile_runtime E path w :
  svc (snd (waitForStableFile E path w)) = svc w /\
  heap (os (snd (waitForStableFile E path w))) = heap (os w) /\
  db (snd (waitForStableFile E path w)) = db w /\
  importCalls (os (snd (waitForStableFile E path w))) = importCalls (os w).
Proof. rewrite waitForStableFile_clock. repeat split. Qed.

(** X7.  A candidate that is imported is recorded: the runner
    holds the signature for the path, the status of the folder has the
    time and the path of the import and no runtime error, with [Active]
    as before; when the same path settles again with the same signature,
    [processCandidate] returns without a second import. *)
Theorem processCandidate_imports_once E r obj path w signature w1 w2 :
  heap (os w) !! r = Some obj ->
  waitForStableFile E path w = (inr signature, w1) ->
  imported obj !! path <> Some signature ->
  importFile E (UserID (folder obj)) path w1 = (None, w2) ->
  let w3 := snd (processCandidate E r path w) in
  heap (os w3) !! r = Some (setImported (<[path := signature]> (imported obj)) obj) /\
  statusOf (svc w3) (ID (folder obj)) =
    importedAt (clock (os w1)) path (statusOf (svc w) (ID (folder obj))) /\
  db w3 = db w2 /\
  (forall w4, waitForStableFile E path w3 = (inr signature, w4) ->
     processCandidate E r path w3 = (tt, w4)).
Proof.
  intros Hr Hwait Hnew Himp w3.
  destruct (waitForStableFile_runtime E path w) as (Hs1 & Hh1 & _ & _).
  rewrite Hwait in Hs1, Hh1. cbn [snd] in Hs1, Hh1.
  destruct (keeps_importFile E (UserID (folder obj)) path w1) as (Hs2 & Hh2 & Hc2 & _).
  rewrite Himp in Hs2, Hh2, Hc2. cbn [snd] in Hs2, Hh2, Hc2.
  assert (Hrun : processCandidate E r path w =
    (tt, snd (markImported (ID (folder obj)) path
           (snd (recordImported r path signature w2))))).
  { unfold processCandidate. rewrite Hr. unfold bind. rewrite Hwait.
    unfold wasImported. rewrite Hh1, Hr.
    assert (Hseen : match imported obj !! path with
                    | Some prev => (bool_decide (prev = signature), w1)
                    | None => (false, w1) end = (false, w1)).
    { destruct (imported obj !! path) as [prev|] eqn:Hprev; [|reflexivity].
      rewrite bool_decide_eq_false_2; [reflexivity|]. intros ->. apply Hnew. reflexivity. }
    rewrite Hseen, Himp. reflexivity. }
  assert (Hobj3 : heap (os w3) !! r = Some (setImported (<[path := signature]> (imported obj)) obj)).
  { subst w3. rewrite Hrun. cbn. rewrite lookup_alter_eq, Hh2, Hh1, Hr. reflexivity. }
  split; [exact Hobj3|]. split; [|split].
  - subst w3. rewrite Hrun. unfold statusOf at 1. cbn. rewrite lookup_insert_eq.
    rewrite Hc2, Hs2, Hs1. reflexivity.
  - subst w3. rewrite Hrun. reflexivity.
  - intros w4 Hagain. unfold processCandidate. rewrite Hobj3. unfold bind. rewrite Hagain.
    destruct (waitForStableFile_runtime E path w3) as (_ & Hh4 & _ & _).
    rewrite Hagain in Hh4. cbn [snd] in Hh4.
    unfold wasImported. rewrite Hh4, Hobj3. cbn. rewrite lookup_insert_eq.
    rewrite bool_decide_eq_true_2 by reflexivity. reflexivity.
Qed.

(** X8.  A candidate that fails is reported and can be tried again:
    when the probe fails with an error other than not-found, or
    [importFile] fails, the message of the error becomes the last runtime
    error of the folder, and the runner objects are as before, so the path
    is not marked as imported; a failed probe calls [importFile] not at
    all, a failed import keeps the record of the last import. *)
Theorem processCandidate_failure_recorded E r obj path w :
  heap (os w) !! r = Some obj ->
  let id := ID (folder obj) in
  let w' := snd (processCandidate E r path w) in
  (forall err w1,
     waitForStableFile E path w = (inl err, w1) -> errorsIs err NotExist = false ->
     LastRuntimeError (statusOf (svc w') id) = errorString err /\
     importCalls (os w') = importCalls (os w) /\
     heap (os w') = heap (os w) /\ db w' = db w) /\
  (forall signature w1 e w2,
     waitForStableFile E path w = (inr signature, w1) ->
     imported obj !! path <> Some signature ->
     importFile E (UserID (folder obj)) path w1 = (Some e, w2) ->
     LastRuntimeError (statusOf (svc w') id) = errorString e /\
     LastImportedAt (statusOf (svc w') id) = LastImportedAt (statusOf (svc w) id) /\
     LastImportedFile (statusOf (svc w') id) = LastImportedFile (statusOf (svc w) id) /\
     heap (os w') = heap (os w)).
Proof.
  intros Hr id w'.
  destruct (waitForStableFile_runtime E path w) as (Hs1 & Hh1 & Hd1 & Hc1).
  split.
  - intros err w1 Hwait Hne. rewrite Hwait in Hc1, Hh1, Hd1. cbn [snd] in Hc1, Hh1, Hd1.
    assert (Hrun : w' = snd (markRuntimeError id (Some err) w1)).
    { subst w'. unfold processCandidate. rewrite Hr. unfold bind. rewrite Hwait, Hne. reflexivity. }
    rewrite Hrun. split; [|split; [exact Hc1|split; [exact Hh1|exact Hd1]]].
    unfold statusOf at 1. cbn. rewrite lookup_insert_eq. reflexivity.
  - intros signature w1 e w2 Hwait Hnew Himp.
    rewrite Hwait in Hs1, Hh1. cbn [snd] in Hs1, Hh1.
    destruct (keeps_importFile E (UserID (folder obj)) path w1) as (Hs2 & Hh2 & _).
    rewrite Himp in Hs2, Hh2. cbn [snd] in Hs2, Hh2.
    assert (Hrun : w' = snd (markRuntimeError id (Some e) w2)).
    { subst w'. unfold processCandidate. rewrite Hr. unfold bind. rewrite Hwait.
      unfold wasImported. rewrite Hh1, Hr.
      destruct (imported obj !! path) as [prev|] eqn:Hprev.
      - rewrite bool_decide_eq_false_2 by (intros ->; apply Hnew; reflexivity).
        rewrite Himp. reflexivity.
      - rewrite Himp. reflexivity. }
    rewrite Hrun. unfold markRuntimeError. rewrite !statusOf_setStatus.
    destruct (decide (id = id)) as [_|Hne]; [|congruence].
    unfold statusOf. rewrite Hs2, Hs1.
    split; [reflexivity|]. split; [reflexivity|]. split; [reflexivity|].
    cbn. congruence.
Qed.

(** ** Profiles and imports *)

Section Profiles.
Variable E : Env.

Lemma maybeQueue_not_opted_in user job w :
  (forall u, userRows E !! user = Some u -> AutoTranscriptionEnabled u = false) ->
  maybeQueueAutoTranscription E user job w = (job, called w).
Proof.
  intros Hopt. unfold maybeQueueAutoTranscription, userFindByID, bind, collaborator.
  destruct (fault E (tick (os w))); [reflexivity|]. cbn.
  destruct (userRows E !! user) as [u|] eqn:Hu; [|reflexivity].
  unfold ret. rewrite (Hopt u eq_refl). reflexivity.
Qed.

(** X11.  The profile of an automatic transcription, when every
    lookup answers: the default profile of the user if the user names one
    that exists, else the system default, else the first profile listed,
    else none; storage is not touched. *)
Theorem selectProfile_preference user w :
  (forall n, fault E n = None) ->
  fst (selectProfile E user w) = preferredProfile E user /\
  db (snd (selectProfile E user w)) = db w.
Proof.
  intros Hok. unfold selectProfile, preferredProfile, profileFindByID, profileFindDefault,
    profileList, bind, collaborator, ret.
  destruct (DefaultProfileID user) as [pid|]; cbn.
  - rewrite Hok. cbn.
    destruct (head (filter (fun p => ProfileID p = pid) (profileRows E))) as [p|]; cbn; [auto|].
    rewrite Hok. cbn.
    destruct (head (filter (fun p => IsDefault p = true) (profileRows E))) as [d|]; cbn; [auto|].
    rewrite Hok. cbn. destruct (profileRows E); cbn; auto.
  - rewrite Hok. cbn.
    destruct (head (filter (fun p => IsDefault p = true) (profileRows E))) as [d|]; cbn; [auto|].
    rewrite Hok. cbn. destruct (profileRows E); cbn; auto.
Qed.

Lemma selectProfile_db user w : db (snd (selectProfile E user w)) = db w.
Proof.
  unfold selectProfile, profileFindByID, profileFindDefault, profileList, bind, collaborator, ret.
  destruct (DefaultProfileID user) as [pid|]; cbn.
  - destruct (fault E (tick (os w))); cbn.
    + destruct (fault E (S (tick (os w)))); cbn.
      * destruct (fault E (S (S (tick (os w))))); cbn; [reflexivity|].
        destruct (take 1 _); reflexivity.
      * destruct (head (filter (fun p => IsDefault p = true) (profileRows E))); cbn; [reflexivity|].
        destruct (fault E (S (S (tick (os w))))); cbn; [reflexivity|].
        destruct (take 1 _); reflexivity.
    + destruct (head (filter (fun p => ProfileID p = pid) (profileRows E))); cbn; [reflexivity|].
      destruct (fault E (S (tick (os w)))); cbn.
      * destruct (fault E (S (S (tick (os w))))); cbn; [reflexivity|].
        destruct (take 1 _); reflexivity.
      * destruct (head (filter (fun p => IsDefault p = true) (profileRows E))); cbn; [reflexivity|].
        destruct (fault E (S (S (tick (os w))))); cbn; [reflexivity|].
        destruct (take 1 _); reflexivity.
  - destruct (fault E (tick (os w))); cbn.
    + destruct (fault E (S (tick (os w)))); cbn; [reflexivity|].
      destruct (take 1 _); reflexivity.
    + destruct (head (filter (fun p => IsDefault p = true) (profileRows E))); cbn; [reflexivity|].
      destruct (fault E (S (tick (os w)))); cbn; [reflexivity|].
      destruct (take 1 _); reflexivity.
Qed.

(** X12.  Automatic transcription is for users who opted in and for
    whom a profile is found: for any other user, and when no profile is
    found, the job is returned as it was and storage is as before; when
    the profile is found and both the store and the queue accept, the job
    is stored as pending with the parameters of the profile and its
    identifier is appended to the queue. *)
Theorem maybeQueue_queues_opted_in user job w :
  ((forall u, userRows E !! user = Some u -> AutoTranscriptionEnabled u = false) ->
   maybeQueueAutoTranscription E user job w = (job, called w)) /\
  (forall u w1,
     userRows E !! user = Some u -> AutoTranscriptionEnabled u = true ->
     fault E (tick (os w)) = None ->
     selectProfile E u (called w) = (None, w1) ->
     maybeQueueAutoTranscription E user job w = (job, w1) /\ db w1 = db w) /\
  (forall u p w1,
     userRows E !! user = Some u -> AutoTranscriptionEnabled u = true ->
     fault E (tick (os w)) = None ->
     selectProfile E u (called w) = (Some p, w1) ->
     fault E (tick (os w1)) = None -> fault E (S (tick (os w1))) = None ->
     let pending := withProfile StatusPending p job in
     let w' := snd (maybeQueueAutoTranscription E user job w) in
     fst (maybeQueueAutoTranscription E user job w) = pending /\
     jobRows (db w') = <[JobID job := pending]> (jobRows (db w)) /\
     queue (db w') = queue (db w) ++ [JobID job]).
Proof.
  split; [apply maybeQueue_not_opted_in|]. split.
  - intros u w1 Hu Hauto Hok Hsel.
    pose proof (selectProfile_db u (called w)) as Hdb. rewrite Hsel in Hdb.
    split; [|exact Hdb].
    unfold maybeQueueAutoTranscription, userFindByID, bind, collaborator.
    rewrite Hok. cbn. rewrite Hu. unfold ret. rewrite Hauto. cbn.
    fold (called w). rewrite Hsel. reflexivity.
  - intros u p w1 Hu Hauto Hok Hsel Hok1 Hok2 pending w'.
    pose proof (selectProfile_db u (called w)) as Hdb. rewrite Hsel in Hdb. cbn in Hdb.
    assert (Hrun : maybeQueueAutoTranscription E user job w = queueWithProfile E p job w1).
    { unfold maybeQueueAutoTranscription, userFindByID, bind, collaborator.
      rewrite Hok. cbn. rewrite Hu. unfold ret. rewrite Hauto. cbn.
      fold (called w). rewrite Hsel. reflexivity. }
    subst w'. rewrite Hrun.
    unfold queueWithProfile, jobUpdate, EnqueueJob, bind, collaborator, modify, ret.
    rewrite Hok1. cbn. rewrite Hok2. cbn. rewrite Hdb. auto.
Qed.

End Profiles.

Section Importing.
Variable E : Env.


(** X10.  A copy that breaks midway is not cleaned up: [importFile]
    returns the wrapped error of the copy and creates no job record, and
    the destination stays in managed storage with the bytes written so
    far. *)
Theorem importFile_torn_copy user src w size modUnix written e :
  statAt E (clock (os w)) src = StatInfo false size modUnix ->
  isWatchableAudioFile E src = true ->
  (forall c, upfs (os w) !! UploadDir E <> Some (NFile c)) ->
  readAt E (clock (os w)) src = ReadTorn written e ->
  let jobID := uuidAt E (tick (os w)) in
  let dest := Join E (UploadDir E) (jobID +:+ ToLower E (Ext src)) in
  dest <> UploadDir E ->
  upfs (os w) !! dest <> Some NDir ->
  let w' := snd (importFile E user src w) in
  fst (importFile E user src w) = Some (Wrapf "failed to copy file for import: " e "") /\
  upfs (os w') !! dest = Some (NFile written) /\
  db w' = db w.
Proof.
  intros Hstat Hext Hdir Hread jobID dest Hne Hfree w'.
  assert (Hrun : importFile E user src w =
    (Some (Wrapf "failed to copy file for import: " e ""),
     onOs (fun h => setUpfs (<[dest := NFile written]> (upfs h)) h)
          (readyToCopy E user src w))).
  { unfold importFile, bind, modify, osStat. cbn [onOs os clock setImportCalls].
    rewrite Hstat, Hext. cbn [negb].
    unfold osMkdirAll. cbn [onOs os upfs setImportCalls].
    destruct (upfs (os w) !! UploadDir E) as [[|c]|] eqn:Hup;
      try (exfalso; apply (Hdir c); reflexivity);
      cbn [uuidNew onOs os tick setUpfs setImportCalls]; fold jobID; fold dest;
      unfold copyFile; cbn [onOs os clock setUpfs setImportCalls setTick upfs];
      rewrite Hread, lookup_insert_ne by congruence;
      (destruct (upfs (os w) !! dest) as [[|c]|] eqn:Hd; [congruence| |]);
      reflexivity. }
  subst w'. rewrite Hrun. cbn. rewrite lookup_insert_eq. auto.
Qed.

End Importing.

(** ** Paths and lookups *)

Section Folders.
Variable E : Env.

(** X13.  [normalizeFolderPath] reads the host and changes nothing.
    Each of its errors wraps [ErrInvalidFolderPath], and
    [CreateUserFolder] returns that error without a call to any
    collaborator; a path it returns is the cleaned absolute form of the
    trimmed input, which is not empty, and names a directory. *)
Theorem normalizeFolderPath_outcomes path w :
  snd (normalizeFolderPath E path w) = w /\
  match fst (normalizeFolderPath E path w) with
  | inl e =>
      errorsIs e InvalidFolderPath = true /\
      forall userID recursive enabled,
        CreateUserFolder E userID path recursive enabled w = (inl e, w)
  | inr normalized =>
      trimSpace E path <> "" /\
      (exists absPath, filepathAbs E (trimSpace E path) = inr absPath /\
                       normalized = filepathClean E absPath) /\
      isDirectory (statAt E (clock (os w)) normalized) = true
  end.
Proof.
  split; [apply normalizeFolderPath_pure|].
  destruct (fst (normalizeFolderPath E path w)) as [e|normalized] eqn:Hn.
  - split.
    + revert Hn. unfold normalizeFolderPath.
      destruct (bool_decide (trimSpace E path = "")); [intros [= <-]; reflexivity|].
      destruct (filepathAbs E (trimSpace E path)) as [e0|absPath]; [intros [= <-]; reflexivity|].
      rewrite bind_run. unfold osStat. cbn [fst snd].
      destruct (statAt E (clock (os w)) (filepathClean E absPath)) as [e0|[|] ? ?].
      * destruct (errorsIs e0 NotExist); intros [= <-]; reflexivity.
      * discriminate.
      * intros [= <-]. reflexivity.
    + intros userID recursive enabled. unfold CreateUserFolder. rewrite bind_run, Hn.
      rewrite normalizeFolderPath_pure. reflexivity.
  - revert Hn. unfold normalizeFolderPath.
    destruct (bool_decide (trimSpace E path = "")) eqn:Hempty; [discriminate|].
    apply bool_decide_eq_false in Hempty.
    destruct (filepathAbs E (trimSpace E path)) as [e0|absPath]; [discriminate|].
    rewrite bind_run. unfold osStat. cbn [fst snd].
    destruct (statAt E (clock (os w)) (filepathClean E absPath)) as [e0|[|] ? ?] eqn:Hstat.
    + destruct (errorsIs e0 NotExist); discriminate.
    + intros [= <-]. split; [exact Hempty|]. split; [eauto|]. rewrite Hstat. reflexivity.
    + discriminate.
Qed.

(** X14.  A folder of another user cannot be reached: when no row
    with the identifier belongs to the caller and the lookup answers,
    [SetUserFolderEnabled] and [DeleteUserFolder] return
    [ErrFolderNotFound] and [getFolderView] the not-found error of the
    lookup, and nothing but the call counter has moved. *)
Theorem foreign_folder_not_found userID id w :
  fault E (tick (os w)) = None ->
  (forall f, f ∈ folderRows (db w) -> ID f = id -> UserID f <> userID) ->
  (forall enabled,
     SetUserFolderEnabled E userID id enabled w = (inl (Sentinel FolderNotFound), called w)) /\
  DeleteUserFolder E userID id w = (Some (Sentinel FolderNotFound), called w) /\
  fst (getFolderView E userID id w) = inl (Sentinel RecordNotFound).
Proof.
  intros Hok Hforeign.
  assert (Hfind : FindByUserAndID E userID id w = (inl (Sentinel RecordNotFound), called w)).
  { unfold FindByUserAndID, bind, collaborator. rewrite Hok. cbn.
    rewrite filter_none; [reflexivity|]. intros f Hf [Hid Hu]. exact (Hforeign f Hf Hid Hu). }
  split; [|split].
  - intros enabled. unfold SetUserFolderEnabled, bind. rewrite Hfind. reflexivity.
  - unfold DeleteUserFolder, bind. rewrite Hfind. reflexivity.
  - unfold getFolderView, bind. rewrite Hfind. reflexivity.
Qed.

Lemma FindByUserAndID_found userID id w f :
  fault E (tick (os w)) = None ->
  head (rowsOf userID id w) = Some f ->
  FindByUserAndID E userID id w = (inr f, called w).
Proof.
  intros Hok Hf. unfold FindByUserAndID, bind, collaborator. rewrite Hok. cbn.
  unfold rowsOf in Hf. cbn. rewrite Hf. reflexivity.
Qed.

(** X15.  Setting [Enabled] to the value it has is a read: no row
    is updated, no runner is started or stopped, the two lookups are the
    only calls, and the view of the folder as it is comes back. *)
Theorem SetUserFolderEnabled_same_value userID id w f :
  fault E (tick (os w)) = None ->
  head (rowsOf userID id w) = Some f ->
  SetUserFolderEnabled E userID id (Enabled f) w = getFolderView E userID id (called w) /\
  snd (SetUserFolderEnabled E userID id (Enabled f) w) = called (called w) /\
  (fault E (S (tick (os w))) = None ->
   fst (SetUserFolderEnabled E userID id (Enabled f) w) =
     inr (mkView f (statusOf (svc w) id))).
Proof.
  intros Hok Hf.
  assert (Hrun : SetUserFolderEnabled E userID id (Enabled f) w =
                 getFolderView E userID id (called w)).
  { unfold SetUserFolderEnabled, bind. rewrite (FindByUserAndID_found _ _ _ _ Hok Hf).
    rewrite bool_decide_eq_true_2 by reflexivity. reflexivity. }
  split; [exact Hrun|]. rewrite Hrun. split.
  - unfold getFolderView, FindByUserAndID, bind, collaborator. cbn.
    destruct (fault E (S (tick (os w)))); cbn; [reflexivity|].
    fold (rowsOf userID id w). rewrite Hf. reflexivity.
  - intros Hok2. unfold getFolderView, FindByUserAndID, bind, collaborator. cbn.
    rewrite Hok2. cbn. fold (rowsOf userID id w). rewrite Hf. reflexivity.
Qed.

End Folders.

(** ** Toggling and deleting folders *)

Lemma stopTimers_tick ts : forall w, tick (os (snd (stopTimers ts w))) = tick (os w).
Proof.
  induction ts as [|t rest IH]; intros w; [reflexivity|].
  cbn [stopTimers]. unfold bind, timerStop, modify. rewrite IH. reflexivity.
Qed.

Lemma runnerStop_tick r w : tick (os (snd (runnerStop r w))) = tick (os w).
Proof.
  unfold runnerStop. destruct (heap (os w) !! r) as [obj|]; [|reflexivity].
  destruct (stopped obj); [reflexivity|].
  rewrite !bind_run. unfold updateRunner, modify. cbn [fst snd].
  cbn [onOs os tick setHeap]. rewrite stopTimers_tick.
  destruct (watcher obj); reflexivity.
Qed.

Lemma stopRunner_tick id w : tick (os (snd (stopRunner id w))) = tick (os w).
Proof.
  unfold stopRunner. rewrite !bind_run. unfold modify. cbn [fst snd].
  destruct (runners (svc w) !! id) as [r|]; [|reflexivity].
  rewrite runnerStop_tick. reflexivity.
Qed.

Lemma stopRunner_stops id w r obj :
  runners (svc w) !! id = Some r -> heap (os w) !! r = Some obj -> stopped obj = false ->
  heap (os (snd (stopRunner id w))) !! r = Some (setTimers ∅ (setStopped true obj)) /\
  (forall h, watcher obj = Some h ->
     watches (os (snd (stopRunner id w))) = delete h (watches (os w))).
Proof.
  intros Hid Hr Hs. unfold stopRunner. rewrite !bind_run. unfold modify. cbn [fst snd].
  rewrite Hid.
  match goal with |- context [runnerStop r ?w0] =>
    destruct (runnerStop_effect r obj w0 Hr Hs) as [H1 H2] end.
  split; [exact H1|exact H2].
Qed.

Lemma stopRunner_others id w id' :
  id' <> id ->
  runners (svc (snd (stopRunner id w))) !! id' = runners (svc w) !! id' /\
  statuses (svc (snd (stopRunner id w))) !! id' = statuses (svc w) !! id'.
Proof.
  intros Hne. unfold stopRunner. rewrite !bind_run. unfold modify. cbn [fst snd].
  match goal with |- context [(match ?x with Some r => runnerStop r | None => ret tt end) ?w0] =>
    assert (H : svc (snd ((match x with Some r => runnerStop r | None => ret tt end) w0)) = svc w0)
      by (destruct x as [r|]; [destruct (runnerStop_frame r w0) as (? & ? & ?); auto|auto]);
    rewrite H end.
  cbn. rewrite lookup_delete_ne, lookup_insert_ne by congruence. auto.
Qed.

Lemma head_rowsOf userID id w f : head (rowsOf userID id w) = Some f ->
  ID f = id /\ UserID f = userID /\ f ∈ folderRows (db w).
Proof.
  intros Hf. assert (Hin : f ∈ rowsOf userID id w).
  { destruct (rowsOf userID id w); [discriminate|]. injection Hf as ->. left. }
  apply list_elem_of_filter in Hin. tauto.
Qed.

Lemma head_rowsWith userID f rows :
  UserID f = userID -> (exists g, g ∈ rows /\ ID g = ID f) ->
  head (filter (fun g => ID g = ID f /\ UserID g = userID) (rowsWith f rows)) = Some f.
Proof.
  intros Hu. induction rows as [|g rest IH]; intros (g0 & Hin & Hid).
  - apply elem_of_nil in Hin. destruct Hin.
  - cbn [rowsWith map]. fold (rowsWith f rest).
    destruct (bool_decide (ID g = ID f)) eqn:Hg.
    + rewrite filter_cons, decide_True by auto. reflexivity.
    + apply bool_decide_eq_false in Hg.
      rewrite filter_cons, decide_False by tauto.
      apply IH. apply elem_of_cons in Hin as [->|Hin]; [contradiction|eauto].
Qed.

Lemma rowsWith_enabled f rows g :
  g ∈ rowsWith f rows -> ID g = ID f -> g = f.
Proof.
  unfold rowsWith. intros Hin Hid. apply list_elem_of_fmap in Hin as (g0 & -> & _).
  destruct (bool_decide (ID g0 = ID f)) eqn:Hg; [reflexivity|].
  apply bool_decide_eq_false in Hg. contradiction.
Qed.

Section Toggle.
Variable E : Env.

Lemma folderUpdate_ok f w :
  fault E (tick (os w)) = None ->
  folderUpdate E f w =
  (None, onDb (fun s => setFolderRows (rowsWith f (folderRows s)) (nextFolderID s) s) (called w)).
Proof.
  intros Hok. unfold folderUpdate, bind, collaborator, modify, ret. rewrite Hok. reflexivity.
Qed.

Lemma getFolderView_called userID id w : snd (getFolderView E userID id w) = called w.
Proof.
  unfold getFolderView, FindByUserAndID. rewrite !bind_run. unfold collaborator. cbn [fst snd].
  destruct (fault E (tick (os w))); cbn; [reflexivity|].
  destruct (head _); reflexivity.
Qed.

Lemma folderDelete_ok id w :
  fault E (tick (os w)) = None ->
  folderDelete E id w =
  (None, onDb (fun s => setFolderRows (filter (fun g => ID g <> id) (folderRows s))
                                      (nextFolderID s) s) (called w)).
Proof.
  intros Hok. unfold folderDelete, bind, collaborator, modify, ret. rewrite Hok. reflexivity.
Qed.

Lemma folderDelete_failed id w msg :
  fault E (tick (os w)) = Some msg ->
  folderDelete E id w = (Some (Opaque msg), called w).
Proof.
  intros Hbad. unfold folderDelete, bind, collaborator, modify, ret. rewrite Hbad. reflexivity.
Qed.

Lemma folderUpdate_failed f w msg :
  fault E (tick (os w)) = Some msg ->
  folderUpdate E f w = (Some (Opaque msg), called w).
Proof.
  intros Hbad. unfold folderUpdate, bind, collaborator, modify, ret. rewrite Hbad. reflexivity.
Qed.

(** X16.  Disabling an enabled folder, when lookup and update go
    through: the row is stored as disabled, the runner is taken out of the
    registry and stopped with its watch closed, [Active] becomes false and
    the rest of the status stays, other folders keep their runner and
    status, and the view returned shows the folder disabled and inactive. *)
Theorem SetUserFolderEnabled_disable userID id w f :
  fault E (tick (os w)) = None ->
  head (rowsOf userID id w) = Some f ->
  Enabled f = true ->
  fault E (S (tick (os w))) = None ->
  let w' := snd (SetUserFolderEnabled E userID id false w) in
  folderRows (db w') = rowsWith (withEnabled false f) (folderRows (db w)) /\
  runners (svc w') !! id = None /\
  statusOf (svc w') id = withActive false (statusOf (svc w) id) /\
  (forall id', id' <> id ->
     runners (svc w') !! id' = runners (svc w) !! id' /\
     statuses (svc w') !! id' = statuses (svc w) !! id') /\
  (forall r obj, runners (svc w) !! id = Some r -> heap (os w) !! r = Some obj ->
     stopped obj = false ->
     heap (os w') !! r = Some (setTimers ∅ (setStopped true obj)) /\
     forall h, watcher obj = Some h -> watches (os w') = delete h (watches (os w))) /\
  (fault E (S (S (tick (os w)))) = None ->
   fst (SetUserFolderEnabled E userID id false w) =
     inr (mkView (withEnabled false f) (withActive false (statusOf (svc w) id)))).
Proof.
  intros Hok Hf Hen Hok2 w'.
  destruct (head_rowsOf _ _ _ _ Hf) as (Hid & Hu & Hin).
  set (w1 := updatedTo (withEnabled false f) w).
  assert (Hrun : SetUserFolderEnabled E userID id false w =
                 getFolderView E userID id (snd (stopRunner id w1))).
  { unfold SetUserFolderEnabled. rewrite bind_run, (FindByUserAndID_found E _ _ _ _ Hok Hf).
    cbn [fst snd]. rewrite bool_decide_eq_false_2 by (rewrite Hen; discriminate).
    rewrite bind_run, (folderUpdate_ok _ (called w) Hok2). cbn [fst snd].
    rewrite bind_run. reflexivity. }
  destruct (stopRunner_status id w1) as (Hst & Hrn & Hdb).
  assert (Hsnd : w' = called (snd (stopRunner id w1))).
  { subst w'. rewrite Hrun. apply getFolderView_called. }
  rewrite Hsnd. cbn [called onOs db svc os heap watches setTick].
  split; [rewrite Hdb; reflexivity|]. split; [exact Hrn|]. split; [exact Hst|].
  split; [intros id' Hne; apply (stopRunner_others id w1 id' Hne)|]. split.
  - intros r obj Hr Hobj Hs. apply (stopRunner_stops id w1 r obj Hr Hobj Hs).
  - intros Hok3. rewrite Hrun. unfold getFolderView, FindByUserAndID, bind, collaborator.
    rewrite stopRunner_tick. cbn [fst snd]. change (tick (os w1)) with (S (S (tick (os w)))).
    rewrite Hok3. cbn [fmap option_fmap option_map onOs db].
    rewrite Hdb. cbn [w1 updatedTo onDb db setFolderRows folderRows].
    rewrite <- Hid, <- Hu.
    assert (Hhead :
      head (filter (fun g => ID g = ID f /\ UserID g = UserID f)
              (rowsWith (withEnabled false f) (folderRows (db (called (called w)))))) =
      Some (withEnabled false f)).
    { apply (head_rowsWith (UserID f) (withEnabled false f)); [reflexivity|].
      exists f. split; [exact Hin|reflexivity]. }
    rewrite Hhead. unfold getStatus, ret. cbn [fst snd onOs svc]. rewrite Hid, Hst. reflexivity.
Qed.

(** X17.  Enabling a folder whose runner cannot start: the start
    error is returned, no runner is registered and the status records the
    error; the update that sets the row back to disabled is issued and its
    own error is dropped, so the row is disabled again when that update
    goes through and stays enabled when it fails. *)
Theorem SetUserFolderEnabled_start_failure userID id w f e w2 :
  fault E (tick (os w)) = None ->
  head (rowsOf userID id w) = Some f ->
  Enabled f = false ->
  fault E (S (tick (os w))) = None ->
  startRunner E (withEnabled true f) (updatedTo (withEnabled true f) w) = (Some e, w2) ->
  let w' := snd (SetUserFolderEnabled E userID id true w) in
  fst (SetUserFolderEnabled E userID id true w) = inl e /\
  runners (svc w') !! id = None /\
  statusOf (svc w') id = startFailed e (statusOf (svc w) id) /\
  (fault E (tick (os w2)) = None ->
   forall g, g ∈ folderRows (db w') -> ID g = id -> Enabled g = false) /\
  (fault E (tick (os w2)) <> None ->
   forall g, g ∈ folderRows (db w') -> ID g = id -> Enabled g = true).
Proof.
  intros Hok Hf Hen Hok2 Hstart w'.
  destruct (head_rowsOf _ _ _ _ Hf) as (Hid & Hu & Hin).
  set (on := withEnabled true f) in *.
  set (w1 := updatedTo on w) in *.
  assert (Hrun : SetUserFolderEnabled E userID id true w =
                 (inl e, snd (folderUpdate E (withEnabled false on) w2))).
  { unfold SetUserFolderEnabled. rewrite bind_run, (FindByUserAndID_found E _ _ _ _ Hok Hf).
    cbn [fst snd]. rewrite bool_decide_eq_false_2 by (rewrite Hen; discriminate).
    fold on. rewrite bind_run, (folderUpdate_ok _ (called w) Hok2). cbn [fst snd].
    fold (updatedTo on w). fold w1. rewrite bind_run, Hstart. cbn [fst snd].
    rewrite bind_run. reflexivity. }
  assert (Hnone : runners (svc w1) !! ID on = None) by (eapply startRunner_Some; exact Hstart).
  destruct (startRunner_fresh E on w1 (Some e) w2 Hnone Hstart) as (Hdb2 & Hst2 & Hrn2).
  subst w'. rewrite Hrun. cbn [fst snd].
  assert (Hsvc : svc (snd (folderUpdate E (withEnabled false on) w2)) = svc w2).
  { destruct (fault E (tick (os w2))) as [msg|] eqn:Hfault.
    - rewrite (folderUpdate_failed _ _ _ Hfault). reflexivity.
    - rewrite (folderUpdate_ok _ _ Hfault). reflexivity. }
  rewrite Hsvc. split; [reflexivity|]. split; [rewrite <- Hid; exact Hrn2|].
  split; [rewrite <- Hid; exact Hst2|]. split.
  - intros Hok3 g. rewrite (folderUpdate_ok _ _ Hok3). cbn [snd onDb db setFolderRows folderRows].
    intros Hg Hgid.
    apply rowsWith_enabled in Hg; [rewrite Hg; reflexivity|]. cbn. congruence.
  - intros Hbad g.
    destruct (fault E (tick (os w2))) as [msg|] eqn:Hfault; [|congruence].
    rewrite (folderUpdate_failed _ _ _ Hfault). cbn [snd called onOs db].
    rewrite Hdb2. cbn [w1 updatedTo onDb db setFolderRows folderRows]. intros Hg Hgid.
    apply rowsWith_enabled in Hg; [rewrite Hg; reflexivity|]. cbn. congruence.
Qed.

(** X18.  Deleting a folder of the caller stops first and deletes
    last: the runner is taken out of the registry and stopped with its
    watch closed, and the status is removed, before the row is deleted.
    When the delete goes through, no row with the identifier is left; when
    it fails, its error is returned and the row stays in storage as it was,
    without a runner.  Other folders keep their runner and status. *)
Theorem DeleteUserFolder_outcomes userID id w f :
  fault E (tick (os w)) = None ->
  head (rowsOf userID id w) = Some f ->
  let w' := snd (DeleteUserFolder E userID id w) in
  runners (svc w') !! id = None /\
  statuses (svc w') !! id = None /\
  (forall id', id' <> id ->
     runners (svc w') !! id' = runners (svc w) !! id' /\
     statuses (svc w') !! id' = statuses (svc w) !! id') /\
  (forall r obj, runners (svc w) !! id = Some r -> heap (os w) !! r = Some obj ->
     stopped obj = false ->
     heap (os w') !! r = Some (setTimers ∅ (setStopped true obj)) /\
     forall h, watcher obj = Some h -> watches (os w') = delete h (watches (os w))) /\
  (fault E (S (tick (os w))) = None ->
   fst (DeleteUserFolder E userID id w) = None /\
   folderRows (db w') = filter (fun g => ID g <> id) (folderRows (db w))) /\
  (forall msg, fault E (S (tick (os w))) = Some msg ->
   fst (DeleteUserFolder E userID id w) = Some (Opaque msg) /\
   folderRows (db w') = folderRows (db w)).
Proof.
  intros Hok Hf w'.
  set (w1 := snd (stopRunner id (called w))).
  assert (Hrun : DeleteUserFolder E userID id w =
                 folderDelete E id (snd (clearStatus id w1))).
  { unfold DeleteUserFolder. rewrite bind_run, (FindByUserAndID_found E _ _ _ _ Hok Hf).
    cbn [fst snd]. rewrite !bind_run. reflexivity. }
  destruct (stopRunner_status id (called w)) as (Hst & Hrn & Hdb). fold w1 in Hst, Hrn, Hdb.
  assert (Hsvc : svc w' = svc (snd (clearStatus id w1))).
  { subst w'. rewrite Hrun. apply folderDelete_svc. }
  assert (Hos : heap (os w') = heap (os w1) /\ watches (os w') = watches (os w1)).
  { subst w'. rewrite Hrun.
    destruct (fault E (tick (os (snd (clearStatus id w1))))) as [msg|] eqn:Hfault.
    - rewrite (folderDelete_failed _ _ _ Hfault). split; reflexivity.
    - rewrite (folderDelete_ok _ _ Hfault). split; reflexivity. }
  destruct Hos as [Hheap Hwatch].
  split; [rewrite Hsvc; exact Hrn|]. split; [rewrite Hsvc; cbn; apply lookup_delete_eq|].
  split.
  - intros id' Hne. rewrite Hsvc. cbn. rewrite lookup_delete_ne by congruence.
    apply (stopRunner_others id (called w) id' Hne).
  - split.
    + intros r obj Hr Hobj Hs. rewrite Hheap, Hwatch.
      apply (stopRunner_stops id (called w) r obj Hr Hobj Hs).
    + assert (Htick : tick (os (snd (clearStatus id w1))) = S (tick (os w))).
      { cbn. unfold w1. rewrite stopRunner_tick. reflexivity. }
      split.
      * intros Hok2. subst w'. rewrite <- Htick in Hok2.
        rewrite Hrun, (folderDelete_ok _ _ Hok2). cbn [fst snd onDb db setFolderRows folderRows].
        change (db (called (snd (clearStatus id w1)))) with (db w1). rewrite Hdb. auto.
      * intros msg Hbad. subst w'. rewrite <- Htick in Hbad.
        rewrite Hrun, (folderDelete_failed _ _ _ Hbad). cbn [fst snd].
        change (db (called (snd (clearStatus id w1)))) with (db w1). rewrite Hdb. auto.
Qed.

End Toggle.

(** ** Starting a runner leaves the other folders alone *)

Lemma othersKept_refl id s : othersKept id s s.
Proof. intros id' _. auto. Qed.

Lemma othersKept_trans id s1 s2 s3 :
  othersKept id s1 s2 -> othersKept id s2 s3 -> othersKept id s1 s3.
Proof.
  intros H1 H2 id' Hne. destruct (H1 id' Hne), (H2 id' Hne). split; congruence.
Qed.

Lemma othersKept_eq id s s' : s' = s -> othersKept id s s'.
Proof. intros ->. apply othersKept_refl. Qed.

Lemma setStatus_others id f w : othersKept id (svc w) (svc (snd (setStatus id f w))).
Proof. intros id' Hne. cbn. rewrite lookup_insert_ne by congruence. auto. Qed.

Lemma markRuntimeError_others id err w :
  othersKept id (svc w) (svc (snd (markRuntimeError id err w))).
Proof. destruct err; [apply setStatus_others|apply othersKept_refl]. Qed.

Section Others.
Variable E : Env.

Lemma watchSubdirectories_others id h paths : forall w,
  othersKept id (svc w) (svc (snd (watchSubdirectories E id h paths w))).
Proof.
  induction paths as [|p rest IH]; intros w; [apply othersKept_refl|].
  cbn [watchSubdirectories]. rewrite !bind_run.
  destruct (watcherAdd_svc E h p w) as [Hs _].
  eapply othersKept_trans; [|apply IH].
  destruct (fst (watcherAdd E h p w)) as [e|].
  - eapply othersKept_trans; [apply othersKept_eq, Hs|apply markRuntimeError_others].
  - apply othersKept_eq. exact Hs.
Qed.

Lemma addWatchedPath_others r root w obj :
  heap (os w) !! r = Some obj ->
  othersKept (ID (folder obj)) (svc w) (svc (snd (addWatchedPath E r root w))).
Proof.
  intros Hr. unfold addWatchedPath. rewrite Hr.
  destruct (watcher obj) as [h|]; [|apply othersKept_refl].
  rewrite bind_run. destruct (watcherAdd_svc E h root w) as [Hs _].
  destruct (fst (watcherAdd E h root w)) as [e|]; [apply othersKept_eq, Hs|].
  destruct (Recursive (folder obj)); cbn [negb]; [|apply othersKept_eq, Hs].
  rewrite bind_run. cbn [snd ret].
  eapply othersKept_trans; [apply othersKept_eq, Hs|apply watchSubdirectories_others].
Qed.

Lemma runnerStart_others r w obj :
  heap (os w) !! r = Some obj ->
  othersKept (ID (folder obj)) (svc w) (svc (snd (runnerStart E r w))).
Proof.
  intros Hr. unfold runnerStart. rewrite Hr. rewrite bind_run.
  destruct (NewWatcher_frame E w) as (Hs & _ & Hh).
  destruct (NewWatcher E w) as [[e|h] w1]; cbn [fst snd] in Hs, Hh |- *;
    [apply othersKept_eq, Hs|].
  rewrite bind_run. unfold updateRunner, modify. cbn [fst snd]. rewrite bind_run.
  match goal with |- context [addWatchedPath E r ?p ?w0] =>
    assert (Hobj : heap (os w0) !! r = Some (setWatcher (Some h) obj))
      by (cbn; rewrite lookup_alter_eq, Hh, Hr; reflexivity);
    pose proof (addWatchedPath_others r p w0 _ Hobj) as Hadd;
    destruct (addWatchedPath E r p w0) as [[e|] w2] end;
    cbn in Hadd |- *; rewrite Hs in Hadd; exact Hadd.
Qed.

Lemma startRunner_others f w :
  othersKept (ID f) (svc w) (svc (snd (startRunner E f w))).
Proof.
  unfold startRunner. rewrite bind_run. unfold runnerExists at 1. cbn [fst snd].
  destruct (bool_decide (is_Some (runners (svc w) !! ID f))).
  - rewrite bind_run. apply setStatus_others.
  - rewrite bind_run. unfold startRunner_attach. rewrite !bind_run.
    unfold newRunner. rewrite !bind_run. unfold alloc, modify, ret. cbn [fst snd].
    match goal with |- context [runnerStart E ?r ?w0] =>
      assert (Hobj : heap (os w0) !! r =
                     Some {| folder := f; watcher := None; stopped := false;
                             timers := ∅; imported := ∅ |})
        by (cbn; apply lookup_insert_eq);
      pose proof (runnerStart_others r w0 _ Hobj) as Hstart;
      destruct (runnerStart E r w0) as [[e|] w1] end; cbn [fst snd folder] in Hstart |- *.
    + rewrite bind_run. cbn [fst snd].
      eapply othersKept_trans; [exact Hstart|apply setStatus_others].
    + unfold startRunner_commit. rewrite bind_run. unfold runnerExists. cbn [fst snd].
      destruct (bool_decide (is_Some (runners (svc w1) !! ID f))).
      * rewrite bind_run. cbn [snd ret].
        destruct (runnerStop_frame (nextAddr (os w)) w1) as (_ & Hs & _).
        eapply othersKept_trans; [exact Hstart|apply othersKept_eq, Hs].
      * rewrite !bind_run. unfold modify. cbn [fst snd ret].
        eapply othersKept_trans; [exact Hstart|].
        eapply othersKept_trans; [|apply setStatus_others].
        intros id' Hne. cbn. rewrite lookup_insert_ne by congruence. auto.
Qed.

(** What one call of [startRunner] leaves for its own folder. *)
Lemma startRunner_outcome f w :
  match fst (startRunner E f w) with
  | None =>
      is_Some (runners (svc (snd (startRunner E f w))) !! ID f) /\
      Active (statusOf (svc (snd (startRunner E f w))) (ID f)) = true
  | Some e =>
      runners (svc (snd (startRunner E f w))) !! ID f = None /\
      statusOf (svc (snd (startRunner E f w))) (ID f) = startFailed e (statusOf (svc w) (ID f))
  end.
Proof.
  destruct (runners (svc w) !! ID f) as [r|] eqn:Hr.
  - rewrite (startRunner_present E f w r Hr). cbn [fst snd]. split.
    + cbn. rewrite Hr. eauto.
    + unfold refreshed, statusOf at 1. cbn. rewrite lookup_insert_eq. reflexivity.
  - destruct (startRunner E f w) as [res w'] eqn:Hs.
    destruct (startRunner_fresh E f w res w' Hr Hs) as [_ H]. cbn [fst snd].
    destruct res as [e|]; destruct H as [Hst Hrn].
    + auto.
    + split; [exact Hrn|]. rewrite Hst. reflexivity.
Qed.

End Others.

(** ** Restoring at start *)

Lemma insertByID_perm f l : insertByID f l ≡ₚ f :: l.
Proof.
  induction l as [|g rest IH]; [reflexivity|]. cbn [insertByID].
  destruct (ID f <=? ID g)%N; [reflexivity|].
  rewrite IH. apply Permutation_swap.
Qed.

Lemma sortByID_perm l : sortByID l ≡ₚ l.
Proof.
  induction l as [|f rest IH]; [reflexivity|].
  cbn [sortByID foldr]. fold (sortByID rest).
  rewrite insertByID_perm, IH. reflexivity.
Qed.


Lemma statusOf_lookup s s' id : statuses s' !! id = statuses s !! id -> statusOf s' id = statusOf s id.
Proof. unfold statusOf. intros ->. reflexivity. Qed.

Section Restore.
Variable E : Env.


Lemma FindEnabled_found w :
  fault E (tick (os w)) = None ->
  FindEnabled E w =
  (inr (sortByID (filter (fun f => Enabled f = true) (folderRows (db w)))), called w).
Proof.
  intros Hok. unfold FindEnabled, bind, collaborator. rewrite Hok. reflexivity.
Qed.


End Restore.

(** ** Shutting down *)

Lemma runnerStop_monotone r0 w :
  (forall r obj, heap (os w) !! r = Some obj ->
     exists obj', heap (os (snd (runnerStop r0 w))) !! r = Some obj' /\
                  (stopped obj = true -> stopped obj' = true)) /\
  (forall h, watches (os w) !! h = None ->
     watches (os (snd (runnerStop r0 w))) !! h = None).
Proof.
  destruct (heap (os w) !! r0) as [obj0|] eqn:Hr0.
  - destruct (stopped obj0) eqn:Hs0.
    + unfold runnerStop. rewrite Hr0, Hs0. cbn. split; [eauto|auto].
    + destruct (runnerStop_effect r0 obj0 w Hr0 Hs0) as [Hobj Hw].
      destruct (runnerStop_frame r0 w) as (_ & _ & Hh). split.
      * intros r obj Hr. destruct (decide (r = r0)) as [->|Hne].
        -- rewrite Hobj. eexists. split; [reflexivity|]. reflexivity.
        -- rewrite (Hh r Hne), Hr. eauto.
      * intros h Hnone. unfold runnerStop. rewrite Hr0, Hs0.
        rewrite !bind_run. unfold updateRunner, modify. cbn [fst snd].
        cbn [onOs os watches setHeap].
        match goal with |- context [stopTimers ?ts ?w0] =>
          destruct (stopTimers_frame ts w0) as (_ & _ & _ & Hwt) end.
        rewrite Hwt. destruct (watcher obj0) as [h0|]; cbn; [|exact Hnone].
        destruct (decide (h = h0)) as [->|Hne]; [apply lookup_delete_eq|].
        rewrite lookup_delete_ne by congruence. exact Hnone.
  - unfold runnerStop. rewrite Hr0. cbn. split; [eauto|auto].
Qed.

Lemma stopAll_frame rs : forall w,
  db (snd (stopAll rs w)) = db w /\ svc (snd (stopAll rs w)) = svc w.
Proof.
  induction rs as [|r rest IH]; intros w; [auto|].
  cbn [stopAll]. rewrite bind_run.
  destruct (runnerStop_frame r w) as (Hd & Hs & _).
  destruct (IH (snd (runnerStop r w))) as [Hd' Hs']. split; congruence.
Qed.

Lemma stopAll_monotone rs : forall w,
  (forall r obj, heap (os w) !! r = Some obj ->
     exists obj', heap (os (snd (stopAll rs w))) !! r = Some obj' /\
                  (stopped obj = true -> stopped obj' = true)) /\
  (forall h, watches (os w) !! h = None -> watches (os (snd (stopAll rs w))) !! h = None).
Proof.
  induction rs as [|r0 rest IH]; intros w; [cbn; split; eauto|].
  cbn [stopAll]. rewrite bind_run.
  destruct (runnerStop_monotone r0 w) as [H1 H2].
  destruct (IH (snd (runnerStop r0 w))) as [H3 H4]. split.
  - intros r obj Hr. destruct (H1 r obj Hr) as (obj1 & Hobj1 & Hs1).
    destruct (H3 r obj1 Hobj1) as (obj2 & Hobj2 & Hs2). eauto.
  - intros h Hnone. auto.
Qed.

Lemma stopAll_stops rs : forall w r obj,
  r ∈ rs -> heap (os w) !! r = Some obj ->
  exists obj', heap (os (snd (stopAll rs w))) !! r = Some obj' /\ stopped obj' = true /\
    (stopped obj = false -> forall h, watcher obj = Some h ->
       watches (os (snd (stopAll rs w))) !! h = None).
Proof.
  induction rs as [|r0 rest IH]; intros w r obj Hin Hr.
  - apply elem_of_nil in Hin. destruct Hin.
  - cbn [stopAll]. rewrite bind_run.
    destruct (decide (r = r0)) as [->|Hne].
    + destruct (stopAll_monotone rest (snd (runnerStop r0 w))) as [Hm1 Hm2].
      destruct (stopped obj) eqn:Hs.
      * destruct (runnerStop_monotone r0 w) as [H1 _].
        destruct (H1 r0 obj Hr) as (obj1 & Hobj1 & Hs1).
        destruct (Hm1 r0 obj1 Hobj1) as (obj2 & Hobj2 & Hs2).
        exists obj2. split; [exact Hobj2|]. split; [auto|]. discriminate.
      * destruct (runnerStop_effect r0 obj w Hr Hs) as [Hobj1 Hw1].
        destruct (Hm1 r0 _ Hobj1) as (obj2 & Hobj2 & Hs2).
        exists obj2. split; [exact Hobj2|]. split; [apply Hs2; reflexivity|].
        intros _ h Hh. apply Hm2. rewrite (Hw1 h Hh). apply lookup_delete_eq.
    + apply elem_of_cons in Hin as [?|Hin]; [contradiction|].
      destruct (runnerStop_frame r0 w) as (_ & _ & Hh).
      assert (Hr1 : heap (os (snd (runnerStop r0 w))) !! r = Some obj)
        by (rewrite (Hh r Hne); exact Hr).
      destruct (IH (snd (runnerStop r0 w)) r obj Hin Hr1) as (obj' & Hobj' & Hs' & Hw').
      exists obj'. auto.
Qed.

Lemma Stop_svc w :
  svc (snd (Stop w)) = {| runners := ∅; statuses := withActive false <$> statuses (svc w) |} /\
  db (snd (Stop w)) = db w.
Proof.
  unfold Stop. rewrite bind_run. unfold modify. cbn [fst snd].
  match goal with |- context [stopAll ?rs ?w0] =>
    destruct (stopAll_frame rs w0) as [Hd Hs] end.
  rewrite Hd, Hs. split; reflexivity.
Qed.

(** X22.  [Stop] shuts everything down: the registry is empty,
    every status is inactive and otherwise as before, storage is as
    before, and every runner that was registered is stopped, with its watch
    closed if it was running. *)
Theorem Stop_shuts_down w :
  let w' := snd (Stop w) in
  runners (svc w') = ∅ /\
  (forall id, statuses (svc w') !! id = withActive false <$> statuses (svc w) !! id) /\
  db w' = db w /\
  (forall id r obj, runners (svc w) !! id = Some r -> heap (os w) !! r = Some obj ->
     exists obj', heap (os w') !! r = Some obj' /\ stopped obj' = true /\
       (stopped obj = false -> forall h, watcher obj = Some h ->
          watches (os w') !! h = None)).
Proof.
  intros w'. subst w'. unfold Stop. rewrite bind_run. unfold modify. cbn [fst snd].
  match goal with |- context [stopAll ?rs ?w0] =>
    destruct (stopAll_frame rs w0) as [Hd Hs];
    pose proof (stopAll_stops rs w0) as Hstop end.
  rewrite Hd, Hs. cbn [onSvc svc db runners statuses].
  split; [reflexivity|]. split; [intros id; apply lookup_fmap|]. split; [reflexivity|].
  intros id r obj Hid Hr. apply Hstop; [|exact Hr].
  apply list_elem_of_fmap. exists (id, r). split; [reflexivity|].
  apply elem_of_map_to_list. exact Hid.
Qed.

(** ** The registry and the statuses agree *)

Lemma consistent_bind {A B} (m : M A) (k : A -> M B) :
  keepsConsistent m -> (forall a, keepsConsistent (k a)) -> keepsConsistent (bind m k).
Proof. intros Hm Hk w Hw. rewrite bind_run. apply Hk, Hm, Hw. Qed.

Lemma consistent_ret {A} (a : A) : keepsConsistent (ret a).
Proof. intros w Hw. exact Hw. Qed.

Lemma consistent_same_svc {A} (m : M A) :
  (forall w, svc (snd (m w)) = svc w) -> keepsConsistent m.
Proof. intros H w Hw. rewrite H. exact Hw. Qed.

Lemma consistent_history {A} (m : M A) :
  (forall w, sameHistory (svc w) (svc (snd (m w)))) -> keepsConsistent m.
Proof.
  intros H w Hw id. destruct (H w) as [Hr Hst]. destruct (Hst id) as (Ha & _ & _).
  rewrite Ha, Hr. apply Hw.
Qed.

Lemma consistent_stopRunner id : keepsConsistent (stopRunner id).
Proof.
  intros w Hw id'. destruct (decide (id' = id)) as [->|Hne].
  - destruct (stopRunner_status id w) as (Hst & Hrn & _). rewrite Hst, Hrn. cbn.
    split; [discriminate|]. intros [? ?]; discriminate.
  - destruct (stopRunner_others id w id' Hne) as [Hr Hs].
    rewrite (statusOf_lookup _ _ _ Hs), Hr. apply Hw.
Qed.

Lemma consistent_clearStatus id w :
  registryConsistent (svc w) -> runners (svc w) !! id = None ->
  registryConsistent (svc (snd (clearStatus id w))).
Proof.
  intros Hw Hnone id'. cbn. unfold statusOf. cbn.
  destruct (decide (id' = id)) as [->|Hne].
  - rewrite lookup_delete_eq, Hnone. cbn. split; [discriminate|]. intros [? ?]; discriminate.
  - rewrite lookup_delete_ne by congruence. apply Hw.
Qed.

Lemma markImported_history id path w :
  runners (svc (snd (markImported id path w))) = runners (svc w) /\
  forall id', Active (statusOf (svc (snd (markImported id path w))) id') =
              Active (statusOf (svc w) id').
Proof.
  unfold markImported. rewrite bind_run. unfold timeNow. cbn [fst snd].
  split; [reflexivity|]. intros id'. rewrite statusOf_setStatus.
  destruct (decide (id = id')) as [->|]; reflexivity.
Qed.

Section Consistency.
Variable E : Env.

Lemma consistent_startRunner f : keepsConsistent (startRunner E f).
Proof.
  intros w Hw id. destruct (decide (id = ID f)) as [->|Hne].
  - pose proof (startRunner_outcome E f w) as Hout.
    destruct (fst (startRunner E f w)) as [e|]; destruct Hout as [H1 H2].
    + rewrite H1, H2. cbn. split; [discriminate|]. intros [? ?]; discriminate.
    + rewrite H2. tauto.
  - destruct (startRunner_others E f w id Hne) as [Hr Hs].
    rewrite (statusOf_lookup _ _ _ Hs), Hr. apply Hw.
Qed.

Lemma svc_collaborator w : svc (snd (collaborator E w)) = svc w.
Proof. reflexivity. Qed.

Lemma svc_FindByUserAndPath userID path w : svc (snd (FindByUserAndPath E userID path w)) = svc w.
Proof.
  unfold FindByUserAndPath. rewrite bind_run. unfold collaborator. cbn [fst snd].
  destruct (fault E (tick (os w))); reflexivity.
Qed.

Lemma svc_FindByUser userID w : svc (snd (FindByUser E userID w)) = svc w.
Proof.
  unfold FindByUser. rewrite bind_run. unfold collaborator. cbn [fst snd].
  destruct (fault E (tick (os w))); reflexivity.
Qed.

Lemma svc_folderCreate f w : svc (snd (folderCreate E f w)) = svc w.
Proof.
  unfold folderCreate. rewrite bind_run. unfold collaborator. cbn [fst snd].
  destruct (fault E (tick (os w))); reflexivity.
Qed.

Lemma svc_folderUpdate f w : svc (snd (folderUpdate E f w)) = svc w.
Proof.
  destruct (fault E (tick (os w))) as [msg|] eqn:Hfault.
  - rewrite (folderUpdate_failed E _ _ _ Hfault). reflexivity.
  - rewrite (folderUpdate_ok E _ _ Hfault). reflexivity.
Qed.

Lemma svc_getFolderView userID id w : svc (snd (getFolderView E userID id w)) = svc w.
Proof. rewrite getFolderView_called. reflexivity. Qed.

Lemma consistent_CreateUserFolder userID path recursive enabled :
  keepsConsistent (CreateUserFolder E userID path recursive enabled).
Proof.
  unfold CreateUserFolder.
  apply consistent_bind.
  { apply consistent_same_svc. intros w. rewrite normalizeFolderPath_pure. reflexivity. }
  intros [e|normalized]; [apply consistent_ret|].
  apply consistent_bind; [apply consistent_same_svc, svc_FindByUserAndPath|].
  intros [e|[existing|]]; [apply consistent_ret|apply consistent_ret|].
  apply consistent_bind; [apply consistent_same_svc, svc_folderCreate|].
  intros [e|f]; [apply consistent_ret|].
  destruct (Enabled f); [|apply consistent_same_svc, svc_getFolderView].
  intros w Hw. rewrite bind_run.
  pose proof (consistent_startRunner f w Hw) as Hc.
  pose proof (startRunner_outcome E f w) as Hout.
  destruct (fst (startRunner E f w)) as [e|].
  - destruct Hout as [Hnone _]. rewrite !bind_run. cbn [snd ret].
    apply consistent_clearStatus; rewrite folderDelete_svc; assumption.
  - rewrite svc_getFolderView. exact Hc.
Qed.

Lemma consistent_SetUserFolderEnabled userID id enabled :
  keepsConsistent (SetUserFolderEnabled E userID id enabled).
Proof.
  unfold SetUserFolderEnabled.
  apply consistent_bind.
  { apply consistent_same_svc. intros w. apply FindByUserAndID_frame. }
  intros [e|f]; [destruct (errorsIs e RecordNotFound); apply consistent_ret|].
  destruct (bool_decide (Enabled f = enabled)); [apply consistent_same_svc, svc_getFolderView|].
  apply consistent_bind; [apply consistent_same_svc, svc_folderUpdate|].
  intros [e|]; [apply consistent_ret|].
  destruct enabled.
  - apply consistent_bind; [apply consistent_startRunner|].
    intros [e|]; [|apply consistent_same_svc, svc_getFolderView].
    apply consistent_bind; [apply consistent_same_svc, svc_folderUpdate|].
    intros _. apply consistent_ret.
  - apply consistent_bind; [apply consistent_stopRunner|].
    intros _. apply consistent_same_svc, svc_getFolderView.
Qed.

Lemma consistent_DeleteUserFolder userID id :
  keepsConsistent (DeleteUserFolder E userID id).
Proof.
  unfold DeleteUserFolder.
  apply consistent_bind.
  { apply consistent_same_svc. intros w. apply FindByUserAndID_frame. }
  intros [e|f]; [destruct (errorsIs e RecordNotFound); apply consistent_ret|].
  intros w Hw. rewrite !bind_run. rewrite folderDelete_svc.
  apply consistent_clearStatus; [apply consistent_stopRunner, Hw|].
  apply stopRunner_status.
Qed.

Lemma consistent_ListUserFolders userID : keepsConsistent (ListUserFolders E userID).
Proof.
  unfold ListUserFolders.
  apply consistent_bind; [apply consistent_same_svc, svc_FindByUser|].
  intros [e|folders]; [apply consistent_ret|].
  apply consistent_same_svc. intros w. rewrite bind_run, collectViews_map. reflexivity.
Qed.

Lemma consistent_restoreFolders folders : forall failures,
  keepsConsistent (restoreFolders E folders failures).
Proof.
  induction folders as [|f rest IH]; intros failures; [apply consistent_ret|].
  cbn [restoreFolders]. apply consistent_bind; [apply consistent_startRunner|].
  intros res. apply IH.
Qed.

Lemma consistent_Start : keepsConsistent (Start E).
Proof.
  unfold Start. apply consistent_bind.
  { apply consistent_same_svc. intros w. unfold FindEnabled. rewrite bind_run.
    unfold collaborator. cbn [fst snd]. destruct (fault E (tick (os w))); reflexivity. }
  intros [e|folders]; [apply consistent_ret|].
  apply consistent_bind; [apply consistent_restoreFolders|].
  intros failures. destruct (0 <? length failures)%nat; apply consistent_ret.
Qed.

Lemma consistent_Stop : keepsConsistent Stop.
Proof.
  intros w _ id. destruct (Stop_svc w) as [Hs _].
  rewrite Hs. unfold statusOf. cbn [runners statuses]. rewrite lookup_fmap, lookup_empty.
  destruct (statuses (svc w) !! id); cbn; (split; [discriminate|intros [? ?]; discriminate]).
Qed.

Lemma consistent_processCandidate r path : keepsConsistent (processCandidate E r path).
Proof.
  intros w Hw. unfold processCandidate.
  destruct (heap (os w) !! r) as [obj|]; [|exact Hw].
  revert w Hw. change (keepsConsistent
    (stable <- waitForStableFile E path ;;
     match stable with
     | inl err =>
         if errorsIs err NotExist then ret tt
         else markRuntimeError (ID (folder obj)) (Some err)
     | inr signature =>
         seen <- wasImported r path signature ;;
         if seen then ret tt
         else
           err <- importFile E (UserID (folder obj)) path ;;
           match err with
           | Some e => markRuntimeError (ID (folder obj)) (Some e)
           | None =>
               recordImported r path signature ;;;
               markImported (ID (folder obj)) path
           end
     end)).
  apply consistent_bind.
  { apply consistent_same_svc. intros w. apply waitForStableFile_runtime. }
  intros [err|signature].
  - destruct (errorsIs err NotExist); [apply consistent_ret|].
    apply consistent_history. intros w. apply markRuntimeError_history.
  - apply consistent_bind.
    { apply consistent_same_svc. intros w. unfold wasImported.
      destruct (heap (os w) !! r) as [o|]; [|reflexivity].
      destruct (imported o !! path); reflexivity. }
    intros [|]; [apply consistent_ret|].
    apply consistent_bind.
    { apply consistent_same_svc. intros w. apply keeps_importFile. }
    intros [e|].
    + apply consistent_history. intros w. apply markRuntimeError_history.
    + apply consistent_bind; [apply consistent_same_svc; reflexivity|].
      intros _ w Hw id. destruct (markImported_history (ID (folder obj)) path w) as [Hr Ha].
      rewrite Ha, Hr. apply Hw.
Qed.

Lemma consistent_fireTimer t : keepsConsistent (fireTimer E t).
Proof.
  intros w Hw. unfold fireTimer.
  destruct (timerTab (os w) !! t) as [tm|]; [|exact Hw].
  destruct (negb (timerLive tm) || (clock (os w) <? timerDue tm)); [exact Hw|].
  revert w Hw. change (keepsConsistent
    (timerStop t ;;; processCandidate E (timerRunner tm) (timerPath tm) ;;;
     updateRunner (timerRunner tm)
       (fun obj => setTimers (delete (timerPath tm) (timers obj)) obj))).
  apply consistent_bind; [apply consistent_same_svc; reflexivity|].
  intros _. apply consistent_bind; [apply consistent_processCandidate|].
  intros _. apply consistent_same_svc. reflexivity.
Qed.

Lemma consistent_handleEvent r ev : keepsConsistent (handleEvent E r ev).
Proof.
  intros w Hw. unfold handleEvent.
  destruct (heap (os w) !! r) as [obj|]; [|exact Hw].
  match goal with |- context [if ?b then _ else _] => destruct b end.
  - rewrite bind_run. intros id.
    destruct (addWatchedPath_history E r (Name ev) w) as [[Hr Hst] _].
    match goal with |- context [markRuntimeError ?i ?e ?w0] =>
      destruct (markRuntimeError_history i e w0) as [[Hr2 Hst2] _] end.
    destruct (Hst id) as (Ha & _ & _). destruct (Hst2 id) as (Ha2 & _ & _).
    rewrite Ha2, Hr2, Ha, Hr. apply Hw.
  - destruct (Z.land (Op ev) (Z.lor Create Write) =? 0); [exact Hw|].
    destruct (negb (isWatchableAudioFile E (Name ev))); [exact Hw|].
    unfold scheduleImport. destruct (heap (os w) !! r) as [o|]; [|exact Hw].
    destruct (timers o !! Name ev); exact Hw.
Qed.

Lemma startRunner_attach_failed f w e :
  fst (fst (startRunner_attach E f w)) = Some e ->
  runners (svc (snd (startRunner_attach E f w))) = runners (svc w) /\
  Active (statusOf (svc (snd (startRunner_attach E f w))) (ID f)) = false.
Proof.
  unfold startRunner_attach. rewrite !bind_run.
  unfold newRunner. rewrite !bind_run. unfold alloc, modify, ret. cbn [fst snd].
  match goal with |- context [runnerStart E ?r ?w0] =>
    destruct (runnerStart_history E r w0) as [[Hrun _] _];
    destruct (runnerStart E r w0) as [[e'|] w1] end; cbn [fst snd] in *.
  - intros _. rewrite !bind_run. cbn [fst snd ret]. split.
    + cbn. cbn in Hrun. exact Hrun.
    + rewrite statusOf_setStatus. destruct (decide (ID f = ID f)); [reflexivity|congruence].
  - cbn. discriminate.
Qed.

(** X23.  The registry and the statuses agree as long as the operations
    of the service run one after another: they agree in the state
    [NewService] makes, and each of [CreateUserFolder],
    [SetUserFolderEnabled], [DeleteUserFolder], [ListUserFolders], [Start],
    [Stop], the handling of an event and the firing of a timer, run from
    start to end from a state in which a folder is marked active exactly
    when a runner is registered for it, ends in such a state.  The
    agreement is not an invariant of the steps of the service:
    [startRunner] gives up its lock between its first look at the registry
    and its second, and when the runner of the folder is stored in between
    and the watcher of this start fails, the folder is left registered and
    marked inactive. *)
Theorem registry_stays_consistent :
  registryConsistent NewService /\
  (forall w, registryConsistent (svc w) ->
    (forall userID path recursive enabled,
       registryConsistent (svc (snd (CreateUserFolder E userID path recursive enabled w)))) /\
    (forall userID id enabled,
       registryConsistent (svc (snd (SetUserFolderEnabled E userID id enabled w)))) /\
    (forall userID id, registryConsistent (svc (snd (DeleteUserFolder E userID id w)))) /\
    (forall userID, registryConsistent (svc (snd (ListUserFolders E userID w)))) /\
    registryConsistent (svc (snd (Start E w))) /\
    registryConsistent (svc (snd (Stop w))) /\
    (forall r ev, registryConsistent (svc (snd (handleEvent E r ev w)))) /\
    (forall t, registryConsistent (svc (snd (fireTimer E t w))))) /\
  (forall f w r e,
     runners (svc w) !! ID f = Some r ->
     fst (fst (startRunner_attach E f w)) = Some e ->
     let w' := snd (startRunner_attach E f w) in
     runners (svc w') !! ID f = Some r /\
     Active (statusOf (svc w') (ID f)) = false /\
     ~ registryConsistent (svc w')).
Proof.
  split; [|split].
  - intros id. unfold statusOf, NewService. cbn. rewrite !lookup_empty. cbn.
    split; [discriminate|intros [? ?]; discriminate].
  - intros w Hw. repeat split.
    all: first
      [ apply consistent_CreateUserFolder | apply consistent_SetUserFolderEnabled
      | apply consistent_DeleteUserFolder | apply consistent_ListUserFolders
      | apply consistent_Start | apply consistent_Stop
      | apply consistent_handleEvent | apply consistent_fireTimer ]; exact Hw.
  - intros f w r e Hr Hfail w'.
    destruct (startRunner_attach_failed f w e Hfail) as [Hrun Hact]. fold w' in Hrun, Hact.
    assert (Hreg : runners (svc w') !! ID f = Some r) by (rewrite Hrun; exact Hr).
    split; [exact Hreg|]. split; [exact Hact|].
    intros Hc. destruct (Hc (ID f)) as [_ Hback].
    rewrite Hback in Hact by eauto. discriminate.
Qed.

End Consistency.

(** ** Listings and watched trees *)

Lemma insertByPath_sorted f l : Sorted pathLe l -> Sorted pathLe (insertByPath f l).
Proof.
  induction l as [|g rest IH]; intros Hs; [repeat constructor|].
  cbn [insertByPath]. destruct (String.leb (Path f) (Path g)) eqn:Hfg.
  - constructor; [exact Hs|]. constructor. exact Hfg.
  - apply Sorted_inv in Hs as [Hrest Hhd]. constructor; [apply IH, Hrest|].
    destruct rest as [|g' rest']; cbn [insertByPath].
    + constructor. unfold pathLe.
      destruct (String.leb_total (Path f) (Path g)) as [H|H]; [congruence|exact H].
    + destruct (String.leb (Path f) (Path g')).
      * constructor. unfold pathLe.
        destruct (String.leb_total (Path f) (Path g)) as [H|H]; [congruence|exact H].
      * constructor. apply HdRel_inv in Hhd. exact Hhd.
Qed.

Lemma sortByPath_sorted l : Sorted pathLe (sortByPath l).
Proof.
  induction l as [|f rest IH]; [constructor|].
  cbn [sortByPath foldr]. apply insertByPath_sorted, IH.
Qed.

Lemma insertByID_sorted f l : Sorted idLe l -> Sorted idLe (insertByID f l).
Proof.
  induction l as [|g rest IH]; intros Hs; [repeat constructor|].
  cbn [insertByID]. destruct (ID f <=? ID g)%N eqn:Hfg.
  - constructor; [exact Hs|]. constructor. apply N.leb_le, Hfg.
  - apply N.leb_gt in Hfg.
    apply Sorted_inv in Hs as [Hrest Hhd]. constructor; [apply IH, Hrest|].
    destruct rest as [|g' rest']; cbn [insertByID].
    + constructor. unfold idLe. lia.
    + destruct (ID f <=? ID g')%N.
      * constructor. unfold idLe. lia.
      * constructor. apply HdRel_inv in Hhd. exact Hhd.
Qed.

Lemma sortByID_sorted l : Sorted idLe (sortByID l).
Proof.
  induction l as [|f rest IH]; [constructor|].
  cbn [sortByID foldr]. apply insertByID_sorted, IH.
Qed.

Lemma Sorted_map_view (status : WatchedFolder -> runtimeStatus) l :
  Sorted pathLe l ->
  Sorted (fun a b => pathLe (Folder a) (Folder b)) (map (fun f => mkView f (status f)) l).
Proof.
  induction 1 as [|f rest Hs IH Hhd]; [constructor|].
  cbn [map]. constructor; [exact IH|].
  destruct Hhd; cbn [map]; constructor. exact H.
Qed.

Section Listings.
Variable E : Env.

(** X20.  Listings come in order: [ListUserFolders] returns the
    views by ascending path, and [FindEnabled], which gives [Start] its
    order, returns exactly the enabled rows by ascending identifier. *)
Theorem listings_are_ordered w :
  fault E (tick (os w)) = None ->
  (forall userID, exists views,
     fst (ListUserFolders E userID w) = inr views /\
     Sorted (fun a b => pathLe (Folder a) (Folder b)) views) /\
  (exists folders,
     fst (FindEnabled E w) = inr folders /\ Sorted idLe folders /\
     forall f, f ∈ folders <-> f ∈ folderRows (db w) /\ Enabled f = true).
Proof.
  intros Hok. split.
  - intros userID. unfold ListUserFolders, FindByUser. rewrite !bind_run.
    unfold collaborator. cbn [fst snd]. rewrite Hok. cbn [fmap option_fmap option_map fst snd].
    rewrite bind_run, collectViews_map. cbn [fst snd ret].
    eexists. split; [reflexivity|]. apply Sorted_map_view, sortByPath_sorted.
  - rewrite (FindEnabled_found E w Hok). cbn [fst].
    eexists. split; [reflexivity|]. split; [apply sortByID_sorted|].
    intros f. rewrite sortByID_perm, list_elem_of_filter. tauto.
Qed.





End Listings.

(** ** Errors the handlers tell apart *)

Section Classify.
Variable E : Env.

Lemma watcherAdd_opaque h path w e :
  fst (watcherAdd E h path w) = Some e -> forall s, errorsIs e s = false.
Proof.
  unfold watcherAdd. destruct (watches (os w) !! h); [|intros [= <-]; reflexivity].
  unfold bind, collaborator. cbn. destruct (fault E (tick (os w))); cbn; [|discriminate].
  intros [= <-]. reflexivity.
Qed.

Lemma addWatchedPath_opaque r root w e :
  fst (addWatchedPath E r root w) = Some e -> forall s, errorsIs e s = false.
Proof.
  unfold addWatchedPath. destruct (heap (os w) !! r) as [obj|]; [|discriminate].
  destruct (watcher obj) as [h|]; [|intros [= <-]; reflexivity].
  rewrite bind_run. pose proof (watcherAdd_opaque h root w) as Hadd.
  destruct (fst (watcherAdd E h root w)) as [e0|].
  - intros [= <-] s. cbn. apply Hadd. reflexivity.
  - destruct (Recursive (folder obj)); cbn; [|discriminate].
    rewrite bind_run. discriminate.
Qed.

Lemma runnerStart_opaque r w e :
  fst (runnerStart E r w) = Some e -> forall s, errorsIs e s = false.
Proof.
  unfold runnerStart. destruct (heap (os w) !! r) as [obj|]; [|discriminate].
  rewrite bind_run.
  assert (Hnew : forall e0, fst (NewWatcher E w) = inl e0 -> forall s, errorsIs e0 s = false).
  { unfold NewWatcher, bind, collaborator. cbn.
    destruct (fault E (tick (os w))); cbn; [|discriminate]. intros e0 [= <-]. reflexivity. }
  destruct (fst (NewWatcher E w)) as [e0|h].
  - intros [= <-] s. cbn. apply Hnew. reflexivity.
  - rewrite !bind_run.
    match goal with |- context [addWatchedPath E r ?p ?w0] =>
      pose proof (addWatchedPath_opaque r p w0) as Herr;
      destruct (fst (addWatchedPath E r p w0)) as [e1|] end.
    + rewrite bind_run. intros [= <-]. apply Herr. reflexivity.
    + discriminate.
Qed.

Lemma startRunner_opaque f w e :
  fst (startRunner E f w) = Some e -> forall s, errorsIs e s = false.
Proof.
  unfold startRunner, bind. destruct (runnerExists (ID f) w) as [[|] w0].
  - cbn. discriminate.
  - unfold startRunner_attach, bind. destruct (newRunner f w0) as [r w1].
    destruct (runnerStart E r w1) as [[e1|] w2] eqn:Hrs.
    + cbn. intros [= <-]. eapply runnerStart_opaque. rewrite Hrs. reflexivity.
    + unfold ret, startRunner_commit, bind, runnerExists. cbv beta iota zeta.
      destruct (bool_decide (is_Some (runners (svc w2) !! ID f))).
      * destruct (runnerStop r w2). cbn. discriminate.
      * cbn. discriminate.
Qed.

Lemma getFolderView_unclassified userID id w e :
  fst (getFolderView E userID id w) = inl e -> unclassified e.
Proof.
  unfold getFolderView, FindByUserAndID. rewrite !bind_run. unfold collaborator. cbn [fst snd].
  destruct (fault E (tick (os w))) as [msg|]; cbn.
  - intros [= <-] target _. reflexivity.
  - destruct (head _); cbn; [discriminate|]. intros [= <-] target Hs. cbn.
    apply bool_decide_eq_false_2. congruence.
Qed.

Lemma normalizeFolderPath_invalid path w e :
  fst (normalizeFolderPath E path w) = inl e ->
  errorsIs e InvalidFolderPath = true /\ errorsIs e FolderAlreadyExists = false.
Proof.
  unfold normalizeFolderPath.
  destruct (bool_decide (trimSpace E path = "")); [intros [= <-]; split; reflexivity|].
  destruct (filepathAbs E (trimSpace E path)) as [e0|absPath]; [intros [= <-]; split; reflexivity|].
  rewrite bind_run. unfold osStat. cbn [fst snd].
  destruct (statAt E (clock (os w)) (filepathClean E absPath)) as [e0|[|] ? ?].
  - destruct (errorsIs e0 NotExist); intros [= <-]; split; reflexivity.
  - discriminate.
  - intros [= <-]. split; reflexivity.
Qed.

Lemma CreateUserFolder_duplicate userID path recursive enabled w normalized g :
  fst (normalizeFolderPath E path w) = inr normalized ->
  fault E (tick (os w)) = None ->
  head (filter (fun f => UserID f = userID /\ Path f = normalized) (folderRows (db w))) = Some g ->
  CreateUserFolder E userID path recursive enabled w =
    (inl (Sentinel FolderAlreadyExists), called w).
Proof.
  intros Hn Hok Hg. unfold CreateUserFolder. rewrite bind_run, Hn, normalizeFolderPath_pure.
  unfold FindByUserAndPath. rewrite !bind_run. unfold collaborator. cbn [fst snd].
  rewrite Hok. cbn. rewrite Hg. reflexivity.
Qed.

Lemma folderCreate_run f w :
  folderCreate E f w =
  match fault E (tick (os w)) with
  | Some msg => (inl (Opaque msg), called w)
  | None => (inr (withID (nextFolderID (db w)) f),
             onDb (fun s => setFolderRows (folderRows s ++ [withID (nextFolderID (db w)) f])
                                          (N.succ (nextFolderID s)) s) (called w))
  end.
Proof.
  unfold folderCreate, bind, collaborator, ret. destruct (fault E (tick (os w))); reflexivity.
Qed.

(** Where an error of [CreateUserFolder] comes from. *)
Lemma CreateUserFolder_classify userID path recursive enabled w e :
  fst (CreateUserFolder E userID path recursive enabled w) = inl e ->
  (fst (normalizeFolderPath E path w) = inl e /\
   snd (CreateUserFolder E userID path recursive enabled w) = w) \/
  (e = Sentinel FolderAlreadyExists /\
   exists normalized g,
     fst (normalizeFolderPath E path w) = inr normalized /\
     fault E (tick (os w)) = None /\
     head (filter (fun f => UserID f = userID /\ Path f = normalized)
                  (folderRows (db w))) = Some g) \/
  (unclassified e /\ exists normalized, fst (normalizeFolderPath E path w) = inr normalized).
Proof.
  unfold CreateUserFolder. rewrite bind_run, normalizeFolderPath_pure.
  destruct (fst (normalizeFolderPath E path w)) as [e0|normalized] eqn:Hn.
  - intros [= <-]. left. auto.
  - unfold FindByUserAndPath. rewrite !bind_run. unfold collaborator. cbn [fst snd].
    destruct (fault E (tick (os w))) as [msg|] eqn:Hfault; cbn [fmap option_fmap option_map].
    + cbn. intros Heq. assert (e = Opaque msg) by congruence. subst e.
      right. right. split; [intros s _; reflexivity|eauto].
    + cbn [fst snd ret].
      match goal with |- context [head ?l] => destruct (head l) as [g|] eqn:Hg end.
      * cbn. intros Heq. assert (e = Sentinel FolderAlreadyExists) by congruence. subst e.
        right. left. split; [reflexivity|]. eauto.
      * intros Hres. right. right. split; [|eauto]. revert Hres.
        cbn [fst snd]. rewrite bind_run, folderCreate_run.
        match goal with |- context [fault E ?n] => destruct (fault E n) as [msg|] end.
        { cbn. intros Heq. assert (e = Opaque msg) by congruence. subst e.
          intros s _. reflexivity. }
        cbn [fst snd ret withID Enabled].
        destruct enabled.
        -- rewrite bind_run.
           match goal with |- context [startRunner E ?f ?w0] =>
             pose proof (startRunner_opaque f w0) as Hstart;
             destruct (fst (startRunner E f w0)) as [e1|] end.
           ++ rewrite !bind_run. cbn. intros Heq. assert (e = e1) by congruence. subst e.
              intros s _. apply Hstart. reflexivity.
           ++ apply getFolderView_unclassified.
        -- apply getFolderView_unclassified.
Qed.

End Classify.

(** ** Route parameters *)

Lemma pretty_N_char_digit d : (d < 10)%N -> N_of_ascii (pretty_N_char d) = (48 + d)%N.
Proof.
  intros Hd.
  assert (d = 0 \/ d = 1 \/ d = 2 \/ d = 3 \/ d = 4 \/ d = 5 \/ d = 6 \/ d = 7 \/ d = 8 \/ d = 9)%N
    as Hcases by lia.
  repeat (destruct Hcases as [->|Hcases]; [reflexivity|]). subst d. reflexivity.
Qed.

Lemma parseDigits_pretty x :
  exists k, forall s acc, (acc <= maxUint64)%N ->
    parseDigits (pretty_N_go x s) acc =
    if (acc * 10 ^ k + x <=? maxUint64)%N then parseDigits s (acc * 10 ^ k + x) else None.
Proof.
  induction (N.lt_wf_0 x) as [x _ IH].
  destruct (decide (x = 0%N)) as [->|Hpos].
  - exists 0%N. intros s acc Hacc. rewrite pretty_N_go_0.
    replace (acc * 10 ^ 0 + 0)%N with acc by lia.
    destruct (acc <=? maxUint64)%N eqn:Hle; [reflexivity|]. apply N.leb_gt in Hle. lia.
  - assert (Hlt : (x `div` 10 < x)%N) by (apply N.div_lt; lia).
    destruct (IH _ Hlt) as [k Hk]. exists (k + 1)%N. intros s acc Hacc.
    rewrite pretty_N_go_step by lia. rewrite (Hk _ acc Hacc).
    pose proof (N.div_mod x 10 ltac:(lia)) as Hdm.
    pose proof (N.mod_lt x 10 ltac:(lia)) as Hmod.
    set (q := (x `div` 10)%N) in *. set (d := (x `mod` 10)%N) in *.
    assert (Hpow : (acc * 10 ^ (k + 1) + x = (acc * 10 ^ k + q) * 10 + d)%N).
    { rewrite N.pow_add_r. lia. }
    destruct (acc * 10 ^ k + q <=? maxUint64)%N eqn:Hle.
    + apply N.leb_le in Hle. cbn [parseDigits].
      rewrite (pretty_N_char_digit d Hmod).
      replace ((48 <=? 48 + d)%N && (48 + d <=? 57)%N) with true
        by (symmetry; apply andb_true_intro; split; apply N.leb_le; lia).
      replace (48 + d - 48)%N with d by lia. rewrite <- Hpow.
      destruct (acc * 10 ^ (k + 1) + x <=? maxUint64)%N eqn:Hle2.
      * apply N.leb_le in Hle2.
        replace (maxUint64 <? acc * 10 ^ (k + 1) + x)%N with false
          by (symmetry; apply N.ltb_ge; lia).
        reflexivity.
      * apply N.leb_gt in Hle2.
        replace (maxUint64 <? acc * 10 ^ (k + 1) + x)%N with true
          by (symmetry; apply N.ltb_lt; lia).
        reflexivity.
    + apply N.leb_gt in Hle.
      destruct (acc * 10 ^ (k + 1) + x <=? maxUint64)%N eqn:Hle2; [|reflexivity].
      apply N.leb_le in Hle2. lia.
Qed.

Lemma pretty_N_go_nonempty x s : s <> "" -> pretty_N_go x s <> "".
Proof.
  revert s. induction (N.lt_wf_0 x) as [x _ IH]; intros s Hs.
  destruct (decide (x = 0%N)) as [->|Hpos]; [rewrite pretty_N_go_0; exact Hs|].
  rewrite pretty_N_go_step by lia. apply IH; [apply N.div_lt; lia|discriminate].
Qed.

Lemma parseDigits_bound s : forall acc n,
  (acc <= maxUint64)%N -> parseDigits s acc = Some n -> (n <= maxUint64)%N.
Proof.
  induction s as [|c rest IH]; intros acc n Hacc; cbn [parseDigits].
  - intros [= <-]. exact Hacc.
  - destruct ((48 <=? N_of_ascii c)%N && (N_of_ascii c <=? 57)%N); [|discriminate].
    destruct (maxUint64 <? acc * 10 + (N_of_ascii c - 48))%N eqn:Hover; [discriminate|].
    apply N.ltb_ge in Hover. apply IH. exact Hover.
Qed.

(** X24.  The identifier in the route is read back from its decimal
    form: [ParseUint] on the decimal rendering of a number returns the
    number when it fits 64 bits and fails when it does not, whatever
    [ParseUint] accepts fits 64 bits and is not the empty string, and
    [parseWatchFolderID] accepts the rendering of every identifier. *)
Theorem ParseUint_round_trip (n : N) :
  ParseUint (pretty n) = (if (n <=? maxUint64)%N then Some n else None) /\
  (forall s m, ParseUint s = Some m -> (m <= maxUint64)%N /\ s <> "") /\
  (forall c,
     ctxParamID c = pretty n -> (n <= maxUint64)%N -> parseWatchFolderID c = inr n).
Proof.
  assert (Hround : ParseUint (pretty n) = if (n <=? maxUint64)%N then Some n else None).
  { unfold pretty, pretty_N. destruct (decide (n = 0%N)) as [->|Hpos]; [reflexivity|].
    unfold ParseUint.
    assert (Hne : pretty_N_go n "" <> "").
    { rewrite pretty_N_go_step by lia. apply pretty_N_go_nonempty. discriminate. }
    rewrite bool_decide_eq_false_2 by exact Hne.
    destruct (parseDigits_pretty n) as [k Hk]. rewrite (Hk "" 0%N) by (unfold maxUint64; lia).
    replace (0 * 10 ^ k + n)%N with n by lia. reflexivity. }
  split; [exact Hround|]. split.
  - intros s m. unfold ParseUint. destruct (bool_decide (s = "")) eqn:Hs; [discriminate|].
    apply bool_decide_eq_false in Hs. intros Hp. split; [|exact Hs].
    eapply parseDigits_bound; [|exact Hp]. unfold maxUint64. lia.
  - intros c Hc Hn. unfold parseWatchFolderID. rewrite Hc, Hround.
    apply N.leb_le in Hn. rewrite Hn. reflexivity.
Qed.

(** ** Handlers *)

Section Answers.
Variable E : Env.

(** X25.  Requests the handlers refuse before the service is
    reached leave the world as it is: 503 from every handler that holds no
    service, 401 without an authenticated user, 400 for an identifier that
    does not parse, 400 for a body that does not bind, and 400 for an
    update that names no field. *)
Theorem requests_refused_early c w :
  (ListWatchFolders E false c w = (fst (ListWatchFolders E false c w), w) /\
   CreateWatchFolder E false c w = (fst (CreateWatchFolder E false c w), w) /\
   UpdateWatchFolder E false c w = (fst (UpdateWatchFolder E false c w), w) /\
   DeleteWatchFolder E false c w = (fst (DeleteWatchFolder E false c w), w) /\
   StatusCode (fst (ListWatchFolders E false c w)) = StatusServiceUnavailable /\
   StatusCode (fst (CreateWatchFolder E false c w)) = StatusServiceUnavailable /\
   StatusCode (fst (UpdateWatchFolder E false c w)) = StatusServiceUnavailable /\
   StatusCode (fst (DeleteWatchFolder E false c w)) = StatusServiceUnavailable) /\
  (ctxUser c = None ->
   let refused := {| StatusCode := StatusUnauthorized;
                     Body := ErrorBody "User not authenticated" |} in
   ListWatchFolders E true c w = (refused, w) /\
   CreateWatchFolder E true c w = (refused, w) /\
   UpdateWatchFolder E true c w = (refused, w) /\
   DeleteWatchFolder E true c w = (refused, w)) /\
  (forall userID, ctxUser c = Some userID ->
   (ParseUint (ctxParamID c) = None ->
    let refused := {| StatusCode := StatusBadRequest; Body := ErrorBody "Invalid folder id" |} in
    UpdateWatchFolder E true c w = (refused, w) /\
    DeleteWatchFolder E true c w = (refused, w)) /\
   (forall msg, ctxCreate c = inl msg ->
      CreateWatchFolder E true c w =
        ({| StatusCode := StatusBadRequest;
            Body := ErrorBody ("Invalid request: " +:+ msg) |}, w)) /\
   (forall id, ParseUint (ctxParamID c) = Some id ->
      (forall msg, ctxUpdate c = inl msg ->
         UpdateWatchFolder E true c w =
           ({| StatusCode := StatusBadRequest;
               Body := ErrorBody ("Invalid request: " +:+ msg) |}, w)) /\
      (ctxUpdate c = inr {| UpdEnabled := None |} ->
         UpdateWatchFolder E true c w =
           ({| StatusCode := StatusBadRequest;
               Body := ErrorBody "At least one field must be updated" |}, w)))).
Proof.
  split; [repeat split|]. split.
  - intros Hu refused. unfold ListWatchFolders, CreateWatchFolder, UpdateWatchFolder,
      DeleteWatchFolder, currentUserID. cbn. rewrite Hu. auto.
  - intros userID Hu. split; [|split].
    + intros Hid refused. unfold UpdateWatchFolder, DeleteWatchFolder, currentUserID,
        parseWatchFolderID. cbn. rewrite Hu, Hid. auto.
    + intros msg Hb. unfold CreateWatchFolder, currentUserID. cbn. rewrite Hu, Hb. reflexivity.
    + intros id Hid. split.
      * intros msg Hb. unfold UpdateWatchFolder, currentUserID, parseWatchFolderID. cbn.
        rewrite Hu, Hid, Hb. reflexivity.
      * intros Hb. unfold UpdateWatchFolder, currentUserID, parseWatchFolderID. cbn.
        rewrite Hu, Hid, Hb. reflexivity.
Qed.

(** X26.  The answers of [CreateWatchFolder] to an authenticated
    request with a bound body: 400 exactly when the path does not
    normalize, with the message of that error and the world unchanged; 409
    exactly when the path normalizes, the lookup answers and the user has a
    row at that path, with the message of [ErrFolderAlreadyExists] and one
    call made; 201 exactly when [CreateUserFolder], called with both flags
    defaulting to true, returns a view, which is the body; no status other
    than these three and 500. *)
Theorem CreateWatchFolder_status c w userID req :
  ctxUser c = Some userID ->
  ctxCreate c = inr req ->
  let answer := fst (CreateWatchFolder E true c w) in
  let w' := snd (CreateWatchFolder E true c w) in
  (StatusCode answer = StatusBadRequest <->
   exists e, fst (normalizeFolderPath E (ReqPath req) w) = inl e) /\
  (forall e, fst (normalizeFolderPath E (ReqPath req) w) = inl e ->
     Body answer = ErrorBody (errorString e) /\ w' = w) /\
  (StatusCode answer = StatusConflict <->
   exists normalized g,
     fst (normalizeFolderPath E (ReqPath req) w) = inr normalized /\
     fault E (tick (os w)) = None /\
     head (filter (fun f => UserID f = userID /\ Path f = normalized)
                  (folderRows (db w))) = Some g) /\
  (StatusCode answer = StatusConflict ->
   Body answer = ErrorBody "folder is already being watched" /\ w' = called w) /\
  (StatusCode answer = StatusCreated <->
   exists view,
     fst (CreateUserFolder E userID (ReqPath req)
            (default true (ReqRecursive req)) (default true (ReqEnabled req)) w) = inr view /\
     Body answer = FolderBody (toWatchFolderResponse view)) /\
  (StatusCode answer = StatusCreated \/ StatusCode answer = StatusBadRequest \/
   StatusCode answer = StatusConflict \/ StatusCode answer = StatusInternalServerError).
Proof.
  intros Hu Hb answer w'.
  set (recursive := default true (ReqRecursive req)).
  set (enabled := default true (ReqEnabled req)).
  set (run := CreateUserFolder E userID (ReqPath req) recursive enabled w).
  assert (Hrun : CreateWatchFolder E true c w =
    (match fst run with
     | inl err =>
         if errorsIs err FolderAlreadyExists then
           {| StatusCode := StatusConflict; Body := ErrorBody (errorString err) |}
         else if errorsIs err InvalidFolderPath then
           {| StatusCode := StatusBadRequest; Body := ErrorBody (errorString err) |}
         else {| StatusCode := StatusInternalServerError;
                 Body := ErrorBody "Failed to create watched folder" |}
     | inr view => {| StatusCode := StatusCreated;
                      Body := FolderBody (toWatchFolderResponse view) |}
     end, snd run)).
  { unfold CreateWatchFolder, currentUserID. cbn [folderWatcherReady]. rewrite Hu, Hb.
    rewrite bind_run. change (CreateUserFolder E userID (ReqPath req) _ _ w) with run.
    destruct (fst run) as [err|view]; [|reflexivity].
    destruct (errorsIs err FolderAlreadyExists); [reflexivity|].
    destruct (errorsIs err InvalidFolderPath); reflexivity. }
  subst answer w'. rewrite Hrun. cbn [fst snd].
  pose proof (CreateUserFolder_classify E userID (ReqPath req) recursive enabled w) as Hclass.
  fold run in Hclass.
  destruct (fst run) as [err|view] eqn:Hres.
  - destruct (Hclass err eq_refl) as [[Hn Hw]|[(-> & normalized & g & Hn & Hok & Hg)|(Hun & normalized & Hn)]].
    + destruct (normalizeFolderPath_invalid E _ _ _ Hn) as [Hinv Hdup]. rewrite Hdup, Hinv.
      cbn [StatusCode Body].
      split; [split; [eauto|reflexivity]|].
      split; [intros e He; rewrite Hn in He; injection He as <-; auto|].
      split; [split; [discriminate|intros (? & ? & Hn' & _); congruence]|].
      split; [discriminate|]. split; [split; [discriminate|intros (? & ? & _); discriminate]|].
      auto.
    + cbn [errorsIs]. rewrite bool_decide_eq_true_2 by reflexivity. cbn [StatusCode Body].
      split; [split; [discriminate|intros (e & He); congruence]|].
      split; [intros e He; congruence|].
      split; [split; [eauto|reflexivity]|].
      split.
      { intros _. split; [reflexivity|]. unfold run.
        rewrite (CreateUserFolder_duplicate E _ _ _ _ _ _ _ Hn Hok Hg). reflexivity. }
      split; [split; [discriminate|intros (? & ? & _); discriminate]|]. auto.
    + rewrite (Hun FolderAlreadyExists), (Hun InvalidFolderPath) by discriminate.
      cbn [StatusCode Body].
      split; [split; [discriminate|intros (e & He); congruence]|].
      split; [intros e He; congruence|].
      split.
      { split; [discriminate|]. intros (normalized' & g & Hn' & Hok & Hg).
        exfalso. unfold run in Hres.
        rewrite (CreateUserFolder_duplicate E _ _ _ _ _ _ _ Hn' Hok Hg) in Hres.
        injection Hres as <-. specialize (Hun FolderAlreadyExists ltac:(discriminate)).
        discriminate. }
      split; [discriminate|].
      split; [split; [discriminate|intros (? & ? & _); discriminate]|]. auto.
  - cbn [StatusCode Body].
    assert (Hn : exists normalized, fst (normalizeFolderPath E (ReqPath req) w) = inr normalized).
    { destruct (fst (normalizeFolderPath E (ReqPath req) w)) as [e|normalized] eqn:Hn; [|eauto].
      exfalso. unfold run, CreateUserFolder in Hres. rewrite bind_run, Hn in Hres. discriminate. }
    destruct Hn as [normalized Hn].
    split; [split; [discriminate|intros (e & He); congruence]|].
    split; [intros e He; congruence|].
    split.
    { split; [discriminate|]. intros (normalized' & g & Hn' & Hok & Hg).
      exfalso. unfold run in Hres.
      rewrite (CreateUserFolder_duplicate E _ _ _ _ _ _ _ Hn' Hok Hg) in Hres. discriminate. }
    split; [discriminate|]. split; [split; [eauto|reflexivity]|]. auto.
Qed.

End Answers.

(** ** Handlers of one folder *)

Section Items.
Variable E : Env.

Lemma FindByUserAndID_run userID id w :
  FindByUserAndID E userID id w =
  match fault E (tick (os w)) with
  | Some msg => (inl (Opaque msg), called w)
  | None =>
      match head (rowsOf userID id w) with
      | Some f => (inr f, called w)
      | None => (inl (Sentinel RecordNotFound), called w)
      end
  end.
Proof.
  unfold FindByUserAndID, bind, collaborator, ret, rowsOf.
  destruct (fault E (tick (os w))); cbn; [reflexivity|].
  destruct (head _); reflexivity.
Qed.

Lemma head_nil_iff {A} (l : list A) : head l = None <-> l = [].
Proof. destruct l; split; intros H; try reflexivity; discriminate H. Qed.

Lemma DeleteUserFolder_found userID id w f :
  fault E (tick (os w)) = None ->
  head (rowsOf userID id w) = Some f ->
  DeleteUserFolder E userID id w =
  folderDelete E id (snd (clearStatus id (snd (stopRunner id (called w))))).
Proof.
  intros Hok Hf. unfold DeleteUserFolder. rewrite bind_run, FindByUserAndID_run, Hok, Hf.
  cbn [fst snd]. rewrite !bind_run. reflexivity.
Qed.

Lemma DeleteUserFolder_not_found userID id w e :
  fst (DeleteUserFolder E userID id w) = Some e ->
  (errorsIs e FolderNotFound = true <->
   fault E (tick (os w)) = None /\ rowsOf userID id w = []).
Proof.
  unfold DeleteUserFolder. rewrite bind_run, FindByUserAndID_run.
  destruct (fault E (tick (os w))) as [msg|] eqn:Hfault.
  - cbn. intros [= <-]. cbn. split; [discriminate|intros [? _]; discriminate].
  - destruct (head (rowsOf userID id w)) as [f|] eqn:Hf.
    + cbn [fst snd]. rewrite !bind_run.
      match goal with |- context [folderDelete E id ?w0] =>
        destruct (fault E (tick (os w0))) as [msg|] eqn:Hdel;
        [rewrite (folderDelete_failed E _ _ _ Hdel)|rewrite (folderDelete_ok E _ _ Hdel)] end.
      * cbn. intros [= <-]. cbn. split; [discriminate|].
        intros [_ Hnil]. rewrite Hnil in Hf. discriminate.
      * discriminate.
    + cbn [fst snd errorsIs]. rewrite bool_decide_eq_true_2 by reflexivity.
      cbn. intros [= <-]. apply head_nil_iff in Hf. tauto.
Qed.

Lemma SetUserFolderEnabled_not_found userID id enabled w e :
  fst (SetUserFolderEnabled E userID id enabled w) = inl e ->
  (errorsIs e FolderNotFound = true <->
   fault E (tick (os w)) = None /\ rowsOf userID id w = []).
Proof.
  unfold SetUserFolderEnabled. rewrite bind_run, FindByUserAndID_run.
  destruct (fault E (tick (os w))) as [msg|] eqn:Hfault.
  - cbn. intros Heq. assert (e = Opaque msg) by congruence. subst e.
    cbn. split; [discriminate|intros [? _]; discriminate].
  - destruct (head (rowsOf userID id w)) as [f|] eqn:Hf.
    + cbn [fst snd]. intros Hres.
      assert (Hun : unclassified e).
      { revert Hres. destruct (bool_decide (Enabled f = enabled)).
        - apply getFolderView_unclassified.
        - rewrite bind_run.
          match goal with |- context [folderUpdate E ?g ?w0] =>
            destruct (fault E (tick (os w0))) as [msg|] eqn:Hupd;
            [rewrite (folderUpdate_failed E _ _ _ Hupd)|rewrite (folderUpdate_ok E _ _ Hupd)] end.
          + cbn. intros Heq. assert (e = Opaque msg) by congruence. subst e.
            intros s _. reflexivity.
          + cbn [fst snd]. destruct enabled.
            * rewrite bind_run.
              match goal with |- context [startRunner E ?g ?w0] =>
                pose proof (startRunner_opaque E g w0) as Hstart;
                destruct (fst (startRunner E g w0)) as [e1|] end.
              -- rewrite bind_run. cbn. intros Heq. assert (e = e1) by congruence. subst e.
                 intros s _. apply Hstart. reflexivity.
              -- apply getFolderView_unclassified.
            * rewrite bind_run. apply getFolderView_unclassified. }
      rewrite (Hun FolderNotFound) by discriminate.
      split; [discriminate|]. intros [_ Hnil]. rewrite Hnil in Hf. discriminate.
    + cbn [fst snd errorsIs]. rewrite bool_decide_eq_true_2 by reflexivity.
      cbn. intros Heq. assert (e = Sentinel FolderNotFound) by congruence. subst e.
      apply head_nil_iff in Hf. tauto.
Qed.

(** X27.  The answers of the handlers of one folder to an
    authenticated request with a parsed identifier: [DeleteWatchFolder]
    and [UpdateWatchFolder] answer 404 exactly when the lookup answers and
    finds no row of the caller with that identifier, and then only the
    call counter has moved; when [DeleteWatchFolder] answers 204 the body
    is empty, no row with the identifier is left, and the folder has
    neither runner nor status. *)
Theorem item_handlers_not_found c w userID id :
  ctxUser c = Some userID ->
  ParseUint (ctxParamID c) = Some id ->
  let missing := fault E (tick (os w)) = None /\ rowsOf userID id w = [] in
  (StatusCode (fst (DeleteWatchFolder E true c w)) = StatusNotFound <-> missing) /\
  (forall enabled, ctxUpdate c = inr {| UpdEnabled := Some enabled |} ->
     (StatusCode (fst (UpdateWatchFolder E true c w)) = StatusNotFound <-> missing)) /\
  (missing ->
   snd (DeleteWatchFolder E true c w) = called w /\
   forall enabled, ctxUpdate c = inr {| UpdEnabled := Some enabled |} ->
     snd (UpdateWatchFolder E true c w) = called w) /\
  (StatusCode (fst (DeleteWatchFolder E true c w)) = StatusNoContent ->
   let w' := snd (DeleteWatchFolder E true c w) in
   Body (fst (DeleteWatchFolder E true c w)) = NoBody /\
   (forall g, g ∈ folderRows (db w') -> ID g <> id) /\
   runners (svc w') !! id = None /\
   statuses (svc w') !! id = None).
Proof.
  intros Hu Hid missing.
  assert (HrunD : DeleteWatchFolder E true c w =
    (match fst (DeleteUserFolder E userID id w) with
     | Some err =>
         if errorsIs err FolderNotFound then
           {| StatusCode := StatusNotFound; Body := ErrorBody "Watched folder not found" |}
         else {| StatusCode := StatusInternalServerError;
                 Body := ErrorBody "Failed to delete watched folder" |}
     | None => {| StatusCode := StatusNoContent; Body := NoBody |}
     end, snd (DeleteUserFolder E userID id w))).
  { unfold DeleteWatchFolder, currentUserID, parseWatchFolderID. cbn [folderWatcherReady].
    rewrite Hu, Hid, bind_run.
    destruct (fst (DeleteUserFolder E userID id w)) as [err|]; [|reflexivity].
    destruct (errorsIs err FolderNotFound); reflexivity. }
  assert (HrunU : forall enabled, ctxUpdate c = inr {| UpdEnabled := Some enabled |} ->
    UpdateWatchFolder E true c w =
    (match fst (SetUserFolderEnabled E userID id enabled w) with
     | inl err =>
         if errorsIs err FolderNotFound then
           {| StatusCode := StatusNotFound; Body := ErrorBody "Watched folder not found" |}
         else {| StatusCode := StatusInternalServerError;
                 Body := ErrorBody "Failed to update watched folder" |}
     | inr view => {| StatusCode := StatusOK; Body := FolderBody (toWatchFolderResponse view) |}
     end, snd (SetUserFolderEnabled E userID id enabled w))).
  { intros enabled Hb. unfold UpdateWatchFolder, currentUserID, parseWatchFolderID.
    cbn [folderWatcherReady]. rewrite Hu, Hid, Hb. cbn [UpdEnabled]. rewrite bind_run.
    destruct (fst (SetUserFolderEnabled E userID id enabled w)) as [err|]; [|reflexivity].
    destruct (errorsIs err FolderNotFound); reflexivity. }
  assert (Hmiss : missing ->
    FindByUserAndID E userID id w = (inl (Sentinel RecordNotFound), called w)).
  { intros [Hok Hnil]. rewrite FindByUserAndID_run, Hok, Hnil. reflexivity. }
  split; [|split; [|split]].
  - rewrite HrunD. cbn [fst].
    pose proof (DeleteUserFolder_not_found userID id w) as Hnf.
    destruct (fst (DeleteUserFolder E userID id w)) as [err|] eqn:Hres.
    + specialize (Hnf err eq_refl). destruct (errorsIs err FolderNotFound); cbn [StatusCode].
      * split; [intros _; apply Hnf; reflexivity|reflexivity].
      * split; [discriminate|]. intros Hm. apply Hnf in Hm. discriminate.
    + cbn [StatusCode]. split; [discriminate|]. intros Hm. exfalso.
      unfold DeleteUserFolder in Hres. rewrite bind_run, (Hmiss Hm) in Hres. discriminate.
  - intros enabled Hb. rewrite (HrunU enabled Hb). cbn [fst].
    pose proof (SetUserFolderEnabled_not_found userID id enabled w) as Hnf.
    destruct (fst (SetUserFolderEnabled E userID id enabled w)) as [err|view] eqn:Hres.
    + specialize (Hnf err eq_refl). destruct (errorsIs err FolderNotFound); cbn [StatusCode].
      * split; [intros _; apply Hnf; reflexivity|reflexivity].
      * split; [discriminate|]. intros Hm. apply Hnf in Hm. discriminate.
    + cbn [StatusCode]. split; [discriminate|]. intros Hm. exfalso.
      unfold SetUserFolderEnabled in Hres. rewrite bind_run, (Hmiss Hm) in Hres. discriminate.
  - intros Hm. split.
    + rewrite HrunD. cbn [snd]. unfold DeleteUserFolder. rewrite bind_run, (Hmiss Hm). reflexivity.
    + intros enabled Hb. rewrite (HrunU enabled Hb). cbn [snd].
      unfold SetUserFolderEnabled. rewrite bind_run, (Hmiss Hm). reflexivity.
  - rewrite HrunD. cbn [fst snd].
    destruct (fst (DeleteUserFolder E userID id w)) as [err|] eqn:Hres.
    { destruct (errorsIs err FolderNotFound); discriminate. }
    intros _. split; [reflexivity|].
    destruct (fault E (tick (os w))) as [msg|] eqn:Hfault.
    { exfalso. unfold DeleteUserFolder in Hres.
      rewrite bind_run, FindByUserAndID_run, Hfault in Hres. discriminate. }
    destruct (head (rowsOf userID id w)) as [f|] eqn:Hf.
    2:{ exfalso. unfold DeleteUserFolder in Hres.
        rewrite bind_run, FindByUserAndID_run, Hfault, Hf in Hres. discriminate. }
    rewrite (DeleteUserFolder_found userID id w f Hfault Hf) in Hres |- *.
    set (w1 := snd (clearStatus id (snd (stopRunner id (called w))))) in *.
    destruct (fault E (tick (os w1))) as [msg|] eqn:Hdel.
    { rewrite (folderDelete_failed E _ _ _ Hdel) in Hres. discriminate. }
    rewrite (folderDelete_ok E _ _ Hdel). cbn [snd onDb db svc setFolderRows folderRows called onOs].
    split; [|split].
    + intros g Hg. apply list_elem_of_filter in Hg as [Hg _]. exact Hg.
    + subst w1. cbn [clearStatus modify snd onSvc svc setStatuses runners].
      apply stopRunner_status.
    + subst w1. cbn. apply lookup_delete_eq.
Qed.

End Items.

(** ** Timing, timers and other events *)

Section Timing.
Variable E : Env.

Lemma firstDecisive_bound obs n k i : firstDecisive obs n k = Some i -> (k <= i < k + n)%nat.
Proof. intros H. apply firstDecisive_Some in H. tauto. Qed.

(** X6.  The probe is bounded in time: [waitForStableFile] returns
    with the clock at most [stabilityChecks + 2] intervals later.  It
    returns a signature no sooner than [stabilityChecks] intervals after
    its start, the signature is that of the file at the moment of return
    and its size is at least [minimumAudioBytes]; a file that stays empty
    ends in the timeout error. *)
Theorem waitForStableFile_timing path w :
  let t0 := clock (os w) in
  let w' := snd (waitForStableFile E path w) in
  t0 <= clock (os w') <= t0 + (stabilityChecks + 2) * stabilityInterval /\
  (forall signature, fst (waitForStableFile E path w) = inr signature ->
     t0 + stabilityChecks * stabilityInterval <= clock (os w') /\
     minimumAudioBytes <= Size signature /\
     statAt E (clock (os w')) path = StatInfo false (Size signature) (ModUnix signature)) /\
  ((forall t, t0 <= t -> exists modUnix, statAt E t path = StatInfo false 0 modUnix) ->
   fst (waitForStableFile E path w) = inl (timeoutError path)).
Proof.
  intros t0 w'. subst w'. rewrite waitForStableFile_run. fold t0.
  destruct (firstDecisive (observation E path t0) maxPolls 0) as [i|] eqn:Hfirst.
  - pose proof (firstDecisive_bound _ _ _ _ Hfirst) as Hi.
    apply firstDecisive_Some in Hfirst as (_ & Hdec & _).
    cbn [fst snd atTime onOs os clock setClock].
    unfold maxPolls, stabilityChecks in Hi. cbn in Hi.
    split; [unfold pollTime, stabilityChecks, stabilityInterval, second; lia|]. split.
    + intros signature Hsig.
      assert (Hfile : isFile (observation E path t0 i) = true).
      { destruct (observation E path t0 i) as [e|[|] s m]; cbn in Hsig; try discriminate.
        reflexivity. }
      destruct (decisive_file _ i Hdec Hfile) as [Hcount Hsize].
      pose proof (unchangedCount_bounds (observation E path t0) i) as Hb.
      split; [unfold pollTime, stabilityChecks, stabilityInterval, second in *; lia|].
      unfold observation in *.
      destruct (statAt E (pollTime t0 i) path) as [e|[|] s m]; cbn in Hsig; try discriminate.
      injection Hsig as <-. cbn in Hsize |- *. auto.
    + intros Hempty. exfalso.
      destruct (Hempty (pollTime t0 i)) as [m Hm];
        [unfold pollTime, stabilityInterval, second; lia|].
      unfold decisive, observation in Hdec. rewrite Hm in Hdec. cbn in Hdec.
      rewrite andb_false_r in Hdec. discriminate.
  - cbn [fst snd atTime onOs os clock setClock].
    split; [unfold pollTime, maxPolls, stabilityChecks, stabilityInterval, second; cbn; lia|].
    split; [discriminate|reflexivity].
Qed.

Lemma waitForStableFile_host path w :
  timerTab (os (snd (waitForStableFile E path w))) = timerTab (os w) /\
  heap (os (snd (waitForStableFile E path w))) = heap (os w).
Proof. rewrite waitForStableFile_clock. split; reflexivity. Qed.

Lemma processCandidate_timerTab r path w :
  timerTab (os (snd (processCandidate E r path w))) = timerTab (os w).
Proof.
  unfold processCandidate. destruct (heap (os w) !! r) as [obj|]; [|reflexivity].
  rewrite bind_run. destruct (waitForStableFile_host path w) as [Hwt _].
  destruct (waitForStableFile E path w) as [[err|signature] w1]; cbn [fst snd] in Hwt |- *;
    rewrite <- Hwt.
  - destruct (errorsIs err NotExist); reflexivity.
  - rewrite bind_run.
    assert (Hseen : forall w0, snd (wasImported r path signature w0) = w0).
    { intros w0. unfold wasImported. destruct (heap (os w0) !! r) as [o|]; [|reflexivity].
      destruct (imported o !! path); reflexivity. }
    rewrite Hseen. destruct (fst (wasImported _ _ _ _)); [reflexivity|].
    rewrite bind_run.
    match goal with |- context [importFile E ?u path ?w0] =>
      destruct (keeps_importFile E u path w0) as (_ & _ & _ & Ht & _);
      destruct (importFile E u path w0) as [[e|] w2] end; cbn [fst snd] in Ht |- *.
    + cbn. exact Ht.
    + rewrite bind_run. cbn. exact Ht.
Qed.

Lemma processCandidate_heap r path w r' obj :
  heap (os w) !! r' = Some obj ->
  exists obj', heap (os (snd (processCandidate E r path w))) !! r' = Some obj' /\
               timers obj' = timers obj.
Proof.
  intros Hr'. unfold processCandidate. destruct (heap (os w) !! r) as [o|]; [|eauto].
  rewrite bind_run. destruct (waitForStableFile_host path w) as [_ Hwh].
  destruct (waitForStableFile E path w) as [[err|signature] w1]; cbn [fst snd] in Hwh |- *;
    rewrite <- Hwh in Hr'.
  - destruct (errorsIs err NotExist); cbn; eauto.
  - rewrite bind_run.
    assert (Hseen : forall w0, snd (wasImported r path signature w0) = w0).
    { intros w0. unfold wasImported. destruct (heap (os w0) !! r) as [o'|]; [|reflexivity].
      destruct (imported o' !! path); reflexivity. }
    rewrite Hseen. destruct (fst (wasImported _ _ _ _)); [cbn; eauto|].
    rewrite bind_run.
    match goal with |- context [importFile E ?u path ?w0] =>
      destruct (keeps_importFile E u path w0) as (_ & Hh & _);
      destruct (importFile E u path w0) as [[e|] w2] end; cbn [fst snd] in Hh |- *.
    + cbn. rewrite Hh. cbn. eauto.
    + rewrite bind_run. cbn. rewrite Hh. cbn.
      destruct (decide (r' = r)) as [->|Hne].
      * rewrite lookup_alter_eq, Hr'. cbn. eauto.
      * rewrite lookup_alter_ne by congruence. eauto.
Qed.

(** X4.  A timer that is due fires once: it is marked as fired, it
    runs [processCandidate] for its path, and it removes the path from the
    timer map of its runner; firing it again changes nothing. *)
Theorem fireTimer_fires_once t tm w :
  timerTab (os w) !! t = Some tm ->
  timerLive tm = true ->
  timerDue tm <= clock (os w) ->
  let w' := snd (fireTimer E t w) in
  w' = snd (updateRunner (timerRunner tm)
              (fun obj => setTimers (delete (timerPath tm) (timers obj)) obj)
              (snd (processCandidate E (timerRunner tm) (timerPath tm) (snd (timerStop t w))))) /\
  timerTab (os w') !! t = Some (cancelled tm) /\
  (forall now, fireTimer E t (atTime now w') = (tt, atTime now w')) /\
  (forall obj, heap (os w) !! timerRunner tm = Some obj ->
     exists obj', heap (os w') !! timerRunner tm = Some obj' /\
                  timers obj' = delete (timerPath tm) (timers obj)).
Proof.
  intros Ht Hlive Hdue w'.
  assert (Hrun : w' = snd (updateRunner (timerRunner tm)
              (fun obj => setTimers (delete (timerPath tm) (timers obj)) obj)
              (snd (processCandidate E (timerRunner tm) (timerPath tm) (snd (timerStop t w)))))).
  { subst w'. unfold fireTimer. rewrite Ht, Hlive. cbn [negb orb].
    destruct (clock (os w) <? timerDue tm) eqn:Hlt; [lia|]. rewrite !bind_run. reflexivity. }
  assert (Htab : timerTab (os w') !! t = Some (cancelled tm)).
  { rewrite Hrun. cbn [updateRunner modify snd onOs os timerTab setHeap].
    rewrite processCandidate_timerTab. cbn. rewrite lookup_alter_eq, Ht. reflexivity. }
  split; [exact Hrun|]. split; [exact Htab|]. split.
  - intros now. unfold fireTimer. cbn [atTime onOs os timerTab setClock]. rewrite Htab. reflexivity.
  - intros obj Hobj.
    destruct (processCandidate_heap (timerRunner tm) (timerPath tm) (snd (timerStop t w))
                (timerRunner tm) obj Hobj) as (obj1 & Hobj1 & Htimers).
    rewrite Hrun. cbn [updateRunner modify snd onOs os heap setHeap].
    rewrite lookup_alter_eq, Hobj1. cbn. eexists. split; [reflexivity|]. cbn. congruence.
Qed.

(** X5.  Events that schedule nothing.  An event with neither the
    create nor the write bit (a remove, a rename, a chmod) leaves the world
    as it is.  A created directory under a recursive folder is added to
    the watch, with the error of that recorded if there is one, and no
    timer is made; under a folder that is not recursive a directory with a
    media extension is scheduled like a file, and [processCandidate] on a
    directory records the error [cannot import directory] without calling
    [importFile]. *)
Theorem handleEvent_other_events r obj ev w :
  heap (os w) !! r = Some obj ->
  (Z.land (Op ev) (Z.lor Create Write) = 0 -> handleEvent E r ev w = (tt, w)) /\
  (Z.land (Op ev) Create = Create ->
   isDirectory (statAt E (clock (os w)) (Name ev)) = true ->
   (Recursive (folder obj) = true ->
      handleEvent E r ev w =
        (tt, snd (markRuntimeError (ID (folder obj)) (fst (addWatchedPath E r (Name ev) w))
                    (snd (addWatchedPath E r (Name ev) w)))) /\
      timerTab (os (snd (handleEvent E r ev w))) = timerTab (os w) /\
      heap (os (snd (handleEvent E r ev w))) = heap (os w) /\
      db (snd (handleEvent E r ev w)) = db w) /\
   (Recursive (folder obj) = false -> isWatchableAudioFile E (Name ev) = true ->
      handleEvent E r ev w = scheduleImport r (Name ev) w)) /\
  (isDirectory (statAt E (clock (os w)) (Name ev)) = true ->
   let w' := snd (processCandidate E r (Name ev) w) in
   LastRuntimeError (statusOf (svc w') (ID (folder obj))) =
     "cannot import directory " +:+ quote (Name ev) /\
   importCalls (os w') = importCalls (os w) /\ heap (os w') = heap (os w)).
Proof.
  intros Hr. split; [|split].
  - intros Hop. unfold handleEvent. rewrite Hr.
    assert (Hc : (Z.land (Op ev) Create =? Create) = false).
    { apply Z.eqb_neq. intros Heq.
      assert (H1 : Z.land (Z.land (Op ev) (Z.lor Create Write)) Create = 0) by (rewrite Hop; reflexivity).
      rewrite <- Z.land_assoc in H1.
      change (Z.land (Z.lor Create Write) Create) with Create in H1.
      rewrite Heq in H1. discriminate. }
    rewrite Hc, Hop. reflexivity.
  - intros Hc Hdir.
    assert (Hstat : exists s m, statAt E (clock (os w)) (Name ev) = StatInfo true s m).
    { destruct (statAt E (clock (os w)) (Name ev)) as [e|[|] s m]; try discriminate. eauto. }
    destruct Hstat as (s & m & Hstat). split.
    + intros Hrec.
      assert (Hrun : handleEvent E r ev w =
        (tt, snd (markRuntimeError (ID (folder obj)) (fst (addWatchedPath E r (Name ev) w))
                    (snd (addWatchedPath E r (Name ev) w))))).
      { unfold handleEvent. rewrite Hr, Hc, Z.eqb_refl, Hstat, Hrec. rewrite bind_run.
        destruct (markRuntimeError _ _ _) as [[] ?]. reflexivity. }
      split; [exact Hrun|]. rewrite Hrun. cbn [snd].
      destruct (addWatchedPath_frame E r (Name ev) w) as (Hd & Ht & Hh).
      destruct (markRuntimeError_frame (ID (folder obj)) (fst (addWatchedPath E r (Name ev) w))
                  (snd (addWatchedPath E r (Name ev) w))) as [Hd2 Ho2].
      rewrite Hd2, Ho2. auto.
    + intros Hrec Hext. unfold handleEvent. rewrite Hr, Hc, Z.eqb_refl, Hstat, Hrec, Hext.
      assert (Hcw : (Z.land (Op ev) (Z.lor Create Write) =? 0) = false).
      { apply Z.eqb_neq. intros H0.
        assert (H1 : Z.land (Z.land (Op ev) (Z.lor Create Write)) Create = 0) by (rewrite H0; reflexivity).
        rewrite <- Z.land_assoc in H1.
        change (Z.land (Z.lor Create Write) Create) with Create in H1.
        rewrite Hc in H1. discriminate. }
      rewrite Hcw. reflexivity.
  - intros Hdir w'.
    assert (Hstat : exists s m, statAt E (clock (os w)) (Name ev) = StatInfo true s m).
    { destruct (statAt E (clock (os w)) (Name ev)) as [e|[|] s m]; try discriminate. eauto. }
    destruct Hstat as (s & m & Hstat).
    assert (Hwait : waitForStableFile E (Name ev) w =
                    (inl (Opaque ("cannot import directory " +:+ quote (Name ev))), w)).
    { unfold waitForStableFile. change (Z.to_nat (stabilityChecks + 2)) with 5%nat.
      cbn [stabilityLoop].
      unfold bind, osStat. rewrite Hstat. reflexivity. }
    subst w'. unfold processCandidate. rewrite Hr. unfold bind. rewrite Hwait.
    cbn [errorsIs]. cbv iota. unfold markRuntimeError. rewrite statusOf_setStatus.
    destruct (decide (ID (folder obj) = ID (folder obj))); [|congruence].
    split; [reflexivity|]. split; reflexivity.
Qed.

End Timing.

(** * The further properties on the scenarios *)

Lemma runnerStop_cancels_timers_witness :
  timerTab (os (snd (runnerStop 0%nat pendingWorld))) !! 2%nat = Some (cancelled pendingTimer) /\
  fireTimer quietEnv 2%nat (atTime (2 * second) (snd (runnerStop 0%nat pendingWorld)))
  = (tt, atTime (2 * second) (snd (runnerStop 0%nat pendingWorld))).
Proof.
  assert (H := runnerStop_cancels_timers quietEnv 0%nat
                 (setTimers {[ song := 2%nat ]} musicRunner) pendingWorld song 2%nat pendingTimer).
  destruct H as (Htab & Hfire & _); try (vm_compute; reflexivity).
  split; [exact Htab|exact (Hfire (2 * second))].
Defined.

Lemma scheduleImport_coalesces_witness :
  timerTab (os (snd (scheduleImport 0%nat song pendingWorld))) !! 2%nat
  = Some (cancelled pendingTimer) /\
  timerTab (os (snd (scheduleImport 0%nat song pendingWorld))) !! 3%nat
  = Some (debounced 0%nat song 0).
Proof.
  assert (H := scheduleImport_coalesces quietEnv 0%nat musicRunner song watchingWorld).
  destruct H as (_ & Hdead & Hlive & _); [vm_compute; reflexivity|].
  split; [exact Hdead|exact Hlive].
Defined.

Lemma fireTimer_fires_once_witness :
  timerTab (os (snd (fireTimer quietEnv 2%nat (atTime (2 * second) pendingWorld)))) !! 2%nat
  = Some (cancelled pendingTimer).
Proof.
  refine (proj1 (proj2 (fireTimer_fires_once quietEnv 2%nat pendingTimer
                          (atTime (2 * second) pendingWorld) _ _ _))).
  - vm_compute. reflexivity.
  - reflexivity.
  - vm_compute. discriminate.
Defined.

Lemma handleEvent_other_events_witness :
  handleEvent quietEnv 0%nat {| Name := song; Op := Z.lor Remove Chmod |} watchingWorld
  = (tt, watchingWorld) /\
  LastRuntimeError
    (statusOf (svc (snd (processCandidate quietEnv 0%nat musicDir watchingWorld))) 1%N)
  = "cannot import directory " +:+ quote musicDir.
Proof.
  assert (H := handleEvent_other_events quietEnv 0%nat musicRunner).
  split.
  - refine (proj1 (H {| Name := song; Op := Z.lor Remove Chmod |} watchingWorld _) _);
      vm_compute; reflexivity.
  - refine (proj1 (proj2 (proj2 (H {| Name := musicDir; Op := Create |} watchingWorld _)) _));
      vm_compute; reflexivity.
Defined.

Lemma processCandidate_imports_once_witness :
  statusOf (svc importedWorld) 1%N = importedAt (3 * second) song (statusOf (svc watchingWorld) 1%N) /\
  (forall w4, waitForStableFile quietEnv song importedWorld = (inr songSignature, w4) ->
     processCandidate quietEnv 0%nat song importedWorld = (tt, w4)).
Proof.
  assert (H := processCandidate_imports_once quietEnv 0%nat musicRunner song watchingWorld
                 songSignature (atTime (3 * second) watchingWorld)
                 (snd (importFile quietEnv 7%N song (atTime (3 * second) watchingWorld)))).
  destruct H as (_ & Hst & _ & Hagain); try (vm_compute; reflexivity).
  - vm_compute. discriminate.
  - split; [exact Hst|exact Hagain].
Defined.

Lemma processCandidate_failure_recorded_witness :
  LastRuntimeError
    (statusOf (svc (snd (processCandidate lockedEnv 0%nat song watchingWorld))) 1%N)
  = "failed to create transcription job: database is locked" /\
  heap (os (snd (processCandidate lockedEnv 0%nat song watchingWorld))) = heap (os watchingWorld).
Proof.
  assert (H := proj2 (processCandidate_failure_recorded lockedEnv 0%nat musicRunner song
                        watchingWorld ltac:(vm_compute; reflexivity))
                 songSignature (atTime (3 * second) watchingWorld)
                 (Wrapf "failed to create transcription job: " (Opaque "database is locked") "")
                 (snd (importFile lockedEnv 7%N song (atTime (3 * second) watchingWorld)))).
  destruct H as (Herr & _ & _ & Hheap); try (vm_compute; reflexivity).
  - vm_compute. discriminate.
  - split; [exact Herr|exact Hheap].
Defined.


Lemma importFile_torn_copy_witness :
  upfs (os (snd (importFile tornEnv 7%N song emptyWorld))) !! "/data/uploads/job-0.mp3"
  = Some (NFile "RI") /\
  db (snd (importFile tornEnv 7%N song emptyWorld)) = db emptyWorld.
Proof.
  assert (H := importFile_torn_copy tornEnv 7%N song emptyWorld 1024 500 "RI"
                 (OsErr "read /music/Take One.MP3: input/output error" false)).
  destruct H as (_ & Hpart & Hdb); try (vm_compute; reflexivity).
  - intros c. vm_compute. discriminate.
  - vm_compute. discriminate.
  - vm_compute. discriminate.
  - split; [exact Hpart|exact Hdb].
Defined.

Lemma selectProfile_preference_witness :
  fst (selectProfile quietEnv
         {| AutoTranscriptionEnabled := true; DefaultProfileID := Some "missing" |} emptyWorld)
  = Some defaultProfile.
Proof.
  refine (proj1 (selectProfile_preference quietEnv
                   {| AutoTranscriptionEnabled := true; DefaultProfileID := Some "missing" |}
                   emptyWorld _)).
  intros n. reflexivity.
Defined.

Lemma maybeQueue_queues_opted_in_witness :
  queue (db (snd (maybeQueueAutoTranscription quietEnv 7%N sampleJob jobWorld))) = ["job-0"] /\
  maybeQueueAutoTranscription quietEnv 8%N sampleJob jobWorld = (sampleJob, called jobWorld).
Proof.
  assert (H := maybeQueue_queues_opted_in quietEnv).
  split.
  - refine (proj2 (proj2 (proj2 (proj2 (H 7%N sampleJob jobWorld))
              {| AutoTranscriptionEnabled := true; DefaultProfileID := None |} defaultProfile
              (called (called jobWorld)) _ _ _ _ _ _))); vm_compute; reflexivity.
  - refine (proj1 (H 8%N sampleJob jobWorld) _).
    intros u Hu. vm_compute in Hu. discriminate.
Defined.

Lemma foreign_folder_not_found_witness :
  DeleteUserFolder quietEnv 8%N 1%N watchingWorld
  = (Some (Sentinel FolderNotFound), called watchingWorld).
Proof.
  refine (proj1 (proj2 (foreign_folder_not_found quietEnv 8%N 1%N watchingWorld _ _))).
  - reflexivity.
  - intros f Hf _. vm_compute in Hf. apply list_elem_of_singleton in Hf. subst f. discriminate.
Defined.

Lemma SetUserFolderEnabled_same_value_witness :
  snd (SetUserFolderEnabled quietEnv 7%N 1%N true watchingWorld) = called (called watchingWorld).
Proof.
  refine (proj1 (proj2 (SetUserFolderEnabled_same_value quietEnv 7%N 1%N watchingWorld
                          musicFolder _ _))); vm_compute; reflexivity.
Defined.

Lemma SetUserFolderEnabled_disable_witness :
  runners (svc (snd (SetUserFolderEnabled quietEnv 7%N 1%N false watchingWorld))) !! 1%N = None /\
  watches (os (snd (SetUserFolderEnabled quietEnv 7%N 1%N false watchingWorld)))
  = delete 1%nat (watches (os watchingWorld)).
Proof.
  assert (H := SetUserFolderEnabled_disable quietEnv 7%N 1%N watchingWorld musicFolder).
  destruct H as (_ & Hrun & _ & _ & Hstop & _); try (vm_compute; reflexivity).
  split; [exact Hrun|].
  refine (proj2 (Hstop 0%nat musicRunner _ _ _) 1%nat _); vm_compute; reflexivity.
Defined.

Lemma SetUserFolderEnabled_start_failure_witness :
  fst (SetUserFolderEnabled noRestartEnv 7%N 1%N true idleWorld)
  = inl (watcherError "too many open files") /\
  runners (svc (snd (SetUserFolderEnabled noRestartEnv 7%N 1%N true idleWorld))) !! 1%N = None.
Proof.
  assert (H := SetUserFolderEnabled_start_failure noRestartEnv 7%N 1%N idleWorld
                 (withEnabled false musicFolder) (watcherError "too many open files")
                 (snd (startRunner noRestartEnv musicFolder
                         (updatedTo musicFolder idleWorld)))).
  destruct H as (Hres & Hrun & _); try (vm_compute; reflexivity).
  split; [exact Hres|exact Hrun].
Defined.

Lemma DeleteUserFolder_outcomes_witness :
  folderRows (db (snd (DeleteUserFolder quietEnv 7%N 1%N watchingWorld))) = [] /\
  watches (os (snd (DeleteUserFolder quietEnv 7%N 1%N watchingWorld))) = ∅.
Proof.
  assert (H := DeleteUserFolder_outcomes quietEnv 7%N 1%N watchingWorld musicFolder).
  destruct H as (_ & _ & _ & Hstop & Hok & _); try (vm_compute; reflexivity).
  split.
  - rewrite (proj2 (Hok eq_refl)). vm_compute. reflexivity.
  - rewrite (proj2 (Hstop 0%nat musicRunner eq_refl eq_refl eq_refl) 1%nat eq_refl).
    vm_compute. reflexivity.
Defined.


Lemma listings_are_ordered_witness :
  exists folders, fst (FindEnabled quietEnv watchingWorld) = inr folders /\
                  Sorted idLe folders /\
                  forall f, f ∈ folders <-> f ∈ folderRows (db watchingWorld) /\ Enabled f = true.
Proof.
  exact (proj2 (listings_are_ordered quietEnv watchingWorld eq_refl)).
Defined.


Lemma registry_stays_consistent_witness :
  registryConsistent (svc watchingWorld) /\
  runners (svc lapsedWorld) !! 1%N = Some 0%nat /\
  ~ registryConsistent (svc lapsedWorld).
Proof.
  split.
  - exact (proj1 (proj1 (proj2 (registry_stays_consistent quietEnv)) emptyWorld
                    (proj1 (registry_stays_consistent quietEnv)))
             7%N musicDir false true).
  - pose proof (proj2 (proj2 (registry_stays_consistent
                               (sampleEnv (failAt (tick (os watchingWorld)) "too many open files")
                                          steadyStat)))
                  musicFolder watchingWorld 0%nat
                  (Wrapf "failed to create filesystem watcher: " (Opaque "too many open files") "")
                  ltac:(vm_compute; reflexivity) ltac:(vm_compute; reflexivity)) as H.
    cbv zeta in H. destruct H as (Hreg & _ & Hno). split; [exact Hreg|exact Hno].
Defined.

Lemma CreateWatchFolder_status_witness :
  StatusCode (fst (CreateWatchFolder quietEnv true ownerRequest watchingWorld)) = StatusConflict /\
  Body (fst (CreateWatchFolder quietEnv true ownerRequest watchingWorld))
  = ErrorBody "folder is already being watched".
Proof.
  assert (H := CreateWatchFolder_status quietEnv ownerRequest watchingWorld 7%N
                 {| ReqPath := musicDir; ReqRecursive := None; ReqEnabled := None |}
                 eq_refl eq_refl).
  destruct H as (_ & _ & Hdup & Hbody & _).
  assert (Hcode : StatusCode (fst (CreateWatchFolder quietEnv true ownerRequest watchingWorld))
                  = StatusConflict).
  { apply Hdup. exists musicDir, musicFolder. repeat split. }
  split; [exact Hcode|exact (proj1 (Hbody Hcode))].
Defined.

Lemma item_handlers_not_found_witness :
  StatusCode (fst (DeleteWatchFolder quietEnv true strangerRequest watchingWorld)) = StatusNotFound /\
  snd (DeleteWatchFolder quietEnv true strangerRequest watchingWorld) = called watchingWorld /\
  snd (UpdateWatchFolder quietEnv true strangerRequest watchingWorld) = called watchingWorld.
Proof.
  assert (H := item_handlers_not_found quietEnv strangerRequest watchingWorld 8%N 1%N
                 eq_refl eq_refl).
  destruct H as (Hdel & _ & Hsame & _).
  assert (Hmissing : fault quietEnv (tick (os watchingWorld)) = None /\
                     rowsOf 8%N 1%N watchingWorld = []) by (split; reflexivity).
  split; [apply Hdel, Hmissing|]. split; [apply (Hsame Hmissing)|].
  apply (proj2 (Hsame Hmissing) false). reflexivity.
Defined.
